(** * Mindburn Aletheia analytics: anomaly detectors and task router

    A shallow embedding of the three analytics modules

    - [infrastructure/src/analytics/ml/anomaly_detector.py] (module [Threshold]),
    - [src/analytics/ml/anomaly_detector.py] (module [ModelDetector]),
    - [src/analytics/ml/task_router.py] (module [Router]),

    together with the part of pandas, numpy and scikit-learn they rely on.
    Floating-point numbers are idealised as real numbers extended with NaN;
    Python exceptions are values of an error monad; objects that the code
    mutates in place (the detector, the router, the caller's DataFrame) are
    threaded through a state-and-exception monad. *)

From Stdlib Require Import Reals Lra Lia ZArith Ascii.
From stdpp Require Import base option list strings gmap sorting.

Local Open Scope R_scope.

(** ** Python exceptions and the two monads *)

Inductive exn : Type :=
  | KeyError (key : string)
      (* dict or DataFrame column lookup on a missing key *)
  | UnseenLabels (label : string)
      (* sklearn LabelEncoder.transform: ValueError, previously unseen labels *)
  | NoSamples (estimator : string)
      (* sklearn check_array: ValueError, array with 0 samples *)
  | EmptyTrainSet
      (* sklearn train_test_split: ValueError, resulting train set is empty *)
  | NotFittedError (estimator : string)
  | IndexError
      (* positional access past the end *)
  | ClientError (bucket key : string)
      (* botocore: the object does not exist *)
  | InvalidParameterError (estimator parameter : string)
      (* sklearn parameter validation at fit: a ValueError *)
  | AttributeError (type_name attribute : string)
      (* attribute lookup on an object of a type that lacks it *)
  | TypeError (type_name : string).
      (* json.dumps: an object of this type is not JSON serializable *)

Global Instance exn_eq_dec : EqDecision exn.
Proof. solve_decision. Defined.

(** The spec's error kind for an unseen categorical value. *)
Definition is_EncodingError (e : exn) : bool :=
  match e with UnseenLabels _ => true | _ => false end.

Inductive result (A : Type) : Type :=
  | Ok (a : A)
  | Raise (e : exn).
Arguments Ok {A} a.
Arguments Raise {A} e.

Global Instance result_ret : MRet result := λ A a, Ok a.
Global Instance result_bind : MBind result :=
  λ A B f m, match m with Ok a => f a | Raise e => Raise e end.

(** [Py S A]: a computation over a mutable store [S] that returns an [A] or
    raises; the store survives the exception. *)
Definition Py (S A : Type) : Type := S → result A * S.

Global Instance Py_ret {S} : MRet (Py S) := λ A a s, (Ok a, s).
Global Instance Py_bind {S} : MBind (Py S) :=
  λ A B f m s, match m s with
               | (Ok a, s') => f a s'
               | (Raise e, s') => (Raise e, s')
               end.

Definition get {S} : Py S S := λ s, (Ok s, s).
Definition put {S} (s : S) : Py S unit := λ _, (Ok tt, s).
Definition modify {S} (f : S → S) : Py S unit := λ s, (Ok tt, f s).
Definition raise {S A} (e : exn) : Py S A := λ s, (Raise e, s).
Definition lift {S A} (r : result A) : Py S A := λ s, (r, s).

(** ** Numbers: reals with NaN *)

Global Instance Rlt_decision : RelDecision Rlt := Rlt_dec.
Global Instance Rle_decision : RelDecision Rle := Rle_dec.
Global Instance R_eq_dec : EqDecision R := Req_dec_T.

Inductive fnum : Type :=
  | NaN
  | Fin (x : R).

Definition fadd (a b : fnum) : fnum :=
  match a, b with Fin x, Fin y => Fin (x + y) | _, _ => NaN end.
Definition fmul (a b : fnum) : fnum :=
  match a, b with Fin x, Fin y => Fin (x * y) | _, _ => NaN end.
Definition fsqrt (a : fnum) : fnum :=
  match a with Fin x => Fin (sqrt x) | NaN => NaN end.

(** Comparisons with NaN are false. *)
Definition fltb (a b : fnum) : bool :=
  match a, b with Fin x, Fin y => bool_decide (x < y) | _, _ => false end.
Definition fgtb (a b : fnum) : bool := fltb b a.

Definition of_bool (b : bool) : R := if b then 1 else 0.

Definition sum (xs : list R) : R := foldr Rplus 0 xs.

(** pandas [Series.mean()]: NaN on an empty series. *)
Definition mean (xs : list R) : fnum :=
  match xs with
  | [] => NaN
  | _ => Fin (sum xs / INR (length xs))
  end.

(** Variance with [ddof] delta degrees of freedom: NaN unless more than
    [ddof] samples. *)
Definition var (ddof : nat) (xs : list R) : fnum :=
  match mean xs with
  | NaN => NaN
  | Fin m =>
      if bool_decide (length xs ≤ ddof)%nat then NaN
      else Fin (sum ((λ x, (x - m) * (x - m)) <$> xs) / INR (length xs - ddof))
  end.

(** pandas [Series.std()] is the sample standard deviation (ddof = 1). *)
Definition std (xs : list R) : fnum := fsqrt (var 1 xs).

(** ** Strings *)

Definition lower_ascii (c : ascii) : ascii :=
  let n := nat_of_ascii c in
  if ((65 <=? n) && (n <=? 90))%nat then ascii_of_nat (n + 32) else c.

(** [str.lower()] on ASCII text. *)
Fixpoint lower (s : string) : string :=
  match s with
  | EmptyString => EmptyString
  | String c s' => String (lower_ascii c) (lower s')
  end.

Definition string_le (x y : string) : Prop := Is_true (String.leb x y).
Global Instance string_le_dec : RelDecision string_le.
Proof. intros x y. unfold string_le. apply _. Defined.

(** [np.unique] and the key order of [groupby]: the distinct values, sorted. *)
Definition unique (l : list string) : list string :=
  merge_sort string_le (remove_dups l).

(** [df[mask]]: the rows whose mask entry is [True]. *)
Definition select {A} (xs : list A) (mask : list bool) : list A :=
  fst <$> filter (λ p, snd p = true) (zip xs mask).

(** ** scikit-learn estimators *)

(** A 2-D array, as the list of its rows. *)
Abbreviation Matrix := (list (list R)).

Definition column (j : nat) (X : Matrix) : list R := (λ row, nth j row 0) <$> X.

Definition rmean (xs : list R) : R := sum xs / INR (length xs).

(** Population variance, as [np.var]. *)
Definition pvar (xs : list R) : R :=
  sum ((λ x, (x - rmean xs) * (x - rmean xs)) <$> xs) / INR (length xs).

(** The statistics a fitted [StandardScaler] holds. *)
Record Scaling : Type := {
  mean_ : list R;
  var_ : list R;
  scale_ : list R
}.

(** A [StandardScaler] object: [None] until it is fitted. *)
Abbreviation StandardScaler := (option Scaling).

(** The machine epsilon of float64, [np.finfo(np.float64).eps]. *)
Definition float_eps : R := / 2 ^ 52.

(** sklearn's [_is_constant_feature(var, mean, n_samples)]: the variance is
    within the rounding-error bound of its own computation, so the column
    cannot be told from a constant one. *)
Definition is_constant_feature (var mean : R) (n_samples : nat) : bool :=
  bool_decide (var <= INR n_samples * float_eps * var
                      + (INR n_samples * mean * float_eps) ^ 2).

(** sklearn's [_handle_zeros_in_scale(scale, constant_mask)]: a column under
    the mask is scaled by 1. *)
Definition handle_zeros_in_scale (scale : R) (constant_mask : bool) : R :=
  if constant_mask then 1 else scale.

Definition scaling_of (X : Matrix) : result Scaling :=
  match X with
  | [] => Raise (NoSamples "StandardScaler")
  | row :: _ =>
      let cols := (λ j, column j X) <$> seq 0 (length row) in
      Ok {| mean_ := rmean <$> cols;
            var_ := pvar <$> cols;
            scale_ :=
              (λ c, handle_zeros_in_scale (sqrt (pvar c))
                      (is_constant_feature (pvar c) (rmean c) (length c)))
              <$> cols |}
  end.

Definition scale_row (s : Scaling) (row : list R) : list R :=
  zip_with (λ x ms, (x - fst ms) / snd ms) row (zip (mean_ s) (scale_ s)).

(** [scaler.fit(X)]: the previous statistics are dropped before [X] is
    validated, and replaced by those of [X]. *)
Definition StandardScaler_fit (X : Matrix) : Py StandardScaler unit :=
  _ ← put None;
  s ← lift (scaling_of X);
  put (Some s).

(** [scaler.transform(X)]: uses the statistics held, and keeps them. *)
Definition StandardScaler_transform (X : Matrix) : Py StandardScaler Matrix :=
  scaler ← get;
  match scaler with
  | None => raise (NotFittedError "StandardScaler")
  | Some s =>
      match X with
      | [] => raise (NoSamples "StandardScaler")
      | _ => mret (scale_row s <$> X)
      end
  end.

(** [scaler.fit_transform(X)] is [scaler.fit(X).transform(X)]. *)
Definition StandardScaler_fit_transform (X : Matrix) : Py StandardScaler Matrix :=
  _ ← StandardScaler_fit X;
  StandardScaler_transform X.

(** A fitted [LabelEncoder]. *)
Record LabelEncoder : Type := { le_classes_ : list string }.

Definition index_of (classes : list string) (v : string) : result nat :=
  match list_find (λ c, c = v) classes with
  | Some (i, _) => Ok i
  | None => Raise (UnseenLabels v)
  end.

(** [encoder.transform(values)]: raises on a value outside [classes_]. *)
Definition LabelEncoder_transform (enc : LabelEncoder) (values : list string)
    : result (list nat) :=
  mapM (index_of (le_classes_ enc)) values.

(** [LabelEncoder().fit_transform(values)]: the new encoder and the codes. *)
Definition LabelEncoder_fit_transform (values : list string)
    : result (LabelEncoder * list nat) :=
  let enc := {| le_classes_ := unique values |} in
  codes ← LabelEncoder_transform enc values;
  mret (enc, codes).

(** What a fitted isolation forest computes: a score per sample and the
    offset that separates outliers. How [fit] builds it is not modelled. *)
Record Forest : Type := {
  score_sample : list R → R;
  offset_ : R
}.

(** An [IsolationForest] estimator, fitted or not. *)
Record IsolationForest : Type := {
  contamination : R;
  estimators_ : option Forest
}.

Definition IsolationForest_fitted (m : IsolationForest) (X : Matrix)
    : result Forest :=
  match estimators_ m with
  | None => Raise (NotFittedError "IsolationForest")
  | Some f =>
      match X with
      | [] => Raise (NoSamples "IsolationForest")
      | _ => Ok f
      end
  end.

(** [model.score_samples(X)] *)
Definition score_samples (m : IsolationForest) (X : Matrix) : result (list R) :=
  f ← IsolationForest_fitted m X;
  mret (score_sample f <$> X).

(** [model.predict(X)]: -1 where the decision function is negative, else 1. *)
Definition predict (m : IsolationForest) (X : Matrix) : result (list Z) :=
  f ← IsolationForest_fitted m X;
  mret ((λ x, if bool_decide (score_sample f x - offset_ f < 0)
              then (-1)%Z else 1%Z) <$> X).

(** [Series.rolling(window).mean()]: NaN until the window is full. *)
Definition rolling_mean (window : nat) (xs : list R) : list fnum :=
  (λ i, if bool_decide (window ≤ S i)%nat
        then Fin (sum (take window (drop (S i - window) xs)) / INR window)
        else NaN) <$> seq 0 (length xs).

(** Run a computation on one component of the store. *)
Definition zoom {S T A} (proj : S → T) (upd : T → S → S) (m : Py T A) : Py S A :=
  λ s, let '(r, t) := m (proj s) in (r, upd t s).

(** ** The threshold anomaly detector
    [infrastructure/src/analytics/ml/anomaly_detector.py] *)

Module Threshold.

(** One entry of [metrics_data], with the keys [_load_recent_metrics]
    produces. [timestamp] is opaque to the detector. *)
Record MetricRecord : Type := {
  task_id : string;
  worker_id : string;
  content_type : string;
  verification_method : string;
  confidence_score : R;
  response_time_ms : Z;
  is_accurate : bool;
  timestamp : string
}.

Definition record_keys : list string :=
  ["task_id"; "worker_id"; "content_type"; "verification_method";
   "confidence_score"; "response_time_ms"; "is_accurate"; "timestamp"].

(** A DataFrame built from a list of records: its columns are the keys of the
    records, so a frame built from no record has no column at all. *)
Record DataFrame : Type := {
  columns : list string;
  rows : list MetricRecord
}.

(** [pd.DataFrame(metrics_data)]: copies the records into a new frame. *)
Definition pd_DataFrame (metrics_data : list MetricRecord) : DataFrame :=
  {| columns := match metrics_data with [] => [] | _ => record_keys end;
     rows := metrics_data |}.

(** [df[name]]: a KeyError when the frame has no such column. *)
Definition getitem {A} (df : DataFrame) (name : string)
    (field : MetricRecord → A) : result (list A) :=
  if bool_decide (name ∈ columns df) then Ok (field <$> rows df)
  else Raise (KeyError name).

(** [df[mask]] keeps the columns. *)
Definition getitem_mask (df : DataFrame) (mask : list bool) : DataFrame :=
  {| columns := columns df; rows := select (rows df) mask |}.

Inductive Severity : Type := MEDIUM | HIGH.

Inductive AnomalyType : Type :=
  | HIGH_RESPONSE_TIME
  | LOW_ACCURACY
  | CONTENT_TYPE_LOW_ACCURACY.

Global Instance Severity_eq_dec : EqDecision Severity.
Proof. solve_decision. Defined.
Global Instance AnomalyType_eq_dec : EqDecision AnomalyType.
Proof. solve_decision. Defined.

(** The three shapes of anomaly dictionaries; the formatted ['message'] text
    is not modelled. *)
Inductive Anomaly : Type :=
  | HighResponseTime (count : nat) (threshold average : fnum)
      (severity : Severity) (affectedWorkers : nat)
  | LowAccuracy (value : fnum) (threshold : R) (severity : Severity)
  | ContentTypeLowAccuracy (contentType : string) (value : fnum) (count : nat)
      (threshold : R) (severity : Severity).

Definition anomaly_type (a : Anomaly) : AnomalyType :=
  match a with
  | HighResponseTime _ _ _ _ _ => HIGH_RESPONSE_TIME
  | LowAccuracy _ _ _ => LOW_ACCURACY
  | ContentTypeLowAccuracy _ _ _ _ _ => CONTENT_TYPE_LOW_ACCURACY
  end.

Definition anomaly_severity (a : Anomaly) : Severity :=
  match a with
  | HighResponseTime _ _ _ s _ => s
  | LowAccuracy _ _ s => s
  | ContentTypeLowAccuracy _ _ _ _ s => s
  end.

Definition sensitivity_map : gmap string nat :=
  {[ "low" := 24%nat; "medium" := 12%nat; "high" := 4%nat ]}.

Definition _get_lookback_hours (sensitivity : string) : nat :=
  default 12%nat (sensitivity_map !! lower sensitivity).

Definition threshold_map : gmap string R :=
  {[ "low" := 3.0; "medium" := 2.5; "high" := 2.0 ]}.

(** [threshold_map.get(sensitivity.lower(), 2.5)] *)
Definition sigma_threshold (sensitivity : string) : R :=
  default 2.5 (threshold_map !! lower sensitivity).

(** Lines 135-139: mean, upper threshold and the rows above it. *)
Definition response_time_anomalies (df : DataFrame) (sigma : R)
    : result (fnum * fnum * DataFrame) :=
  col ← getitem df "response_time_ms" response_time_ms;
  let mean_response_time := mean (IZR <$> col) in
  let std_response_time := std (IZR <$> col) in
  let upper_threshold :=
    fadd mean_response_time (fmul (Fin sigma) std_response_time) in
  mret (mean_response_time, upper_threshold,
        getitem_mask df ((λ x, fgtb (Fin (IZR x)) upper_threshold) <$> col)).

(** Lines 134-149. *)
Definition response_time_check (df : DataFrame) (sigma : R)
    : result (list Anomaly) :=
  '(mean_response_time, upper_threshold, rta) ← response_time_anomalies df sigma;
  match rows rta with
  | [] => mret []
  | _ =>
      workers ← getitem rta "worker_id" worker_id;
      mret [HighResponseTime (length (rows rta)) upper_threshold
              mean_response_time MEDIUM (length (remove_dups workers))]
  end.

(** Lines 151-160. *)
Definition accuracy_check (df : DataFrame) : result (list Anomaly) :=
  col ← getitem df "is_accurate" is_accurate;
  let accuracy_rate := mean (of_bool <$> col) in
  if fltb accuracy_rate (Fin 0.75) then
    mret [LowAccuracy accuracy_rate 0.75
            (if fltb accuracy_rate (Fin 0.6) then HIGH else MEDIUM)]
  else mret [].

(** One row of [content_type_stats]. The ['count'] aggregate counts the
    [task_id] values of the group, one per record. *)
Record GroupStats : Type := {
  stats_is_accurate : fnum;
  stats_response_time_ms : fnum;
  stats_count : nat
}.

(** The records of one content type, and their aggregates. *)
Definition group (records : list MetricRecord) (key : string)
    : list MetricRecord :=
  filter (λ r, content_type r = key) records.

Definition stats_row (records : list MetricRecord) (key : string)
    : string * GroupStats :=
  let g := group records key in
  (key, {| stats_is_accurate := mean (of_bool ∘ is_accurate <$> g);
           stats_response_time_ms := mean (IZR ∘ response_time_ms <$> g);
           stats_count := length g |}).

(** Lines 163-167: [groupby('content_type').agg(...)], one row per distinct
    content type, in sorted key order. *)
Definition content_type_stats (df : DataFrame)
    : result (list (string * GroupStats)) :=
  keys ← getitem df "content_type" content_type;
  _ ← getitem df "is_accurate" is_accurate;
  _ ← getitem df "response_time_ms" response_time_ms;
  _ ← getitem df "task_id" task_id;
  mret (stats_row (rows df) <$> unique keys).

(** The body of the loop of lines 169-179 for one row of the statistics. *)
Definition content_type_row (row : string * GroupStats) : list Anomaly :=
  let '(content_type, stats) := row in
  if bool_decide (10 ≤ stats_count stats)%nat
     && fltb (stats_is_accurate stats) (Fin 0.7)
  then [ContentTypeLowAccuracy content_type (stats_is_accurate stats)
          (stats_count stats) 0.7
          (if fltb (stats_is_accurate stats) (Fin 0.5) then HIGH else MEDIUM)]
  else [].

(** Lines 162-179. *)
Definition content_type_check (df : DataFrame) : result (list Anomaly) :=
  stats ← content_type_stats df;
  mret (mjoin (content_type_row <$> stats)).

Definition _detect_anomalies (metrics_data : list MetricRecord)
    (sensitivity : string) : result (list Anomaly) :=
  let df := pd_DataFrame metrics_data in
  let sigma := sigma_threshold sensitivity in
  a1 ← response_time_check df sigma;
  a2 ← accuracy_check df;
  a3 ← content_type_check df;
  mret (a1 ++ a2 ++ a3).

(** The call [_detect_anomalies(metrics_data, sensitivity)] as a computation
    over the caller's list object: the list is read once, when
    [pd.DataFrame] copies it, and nothing is assigned to it. *)
Definition detect (sensitivity : string)
    : Py (list MetricRecord) (list Anomaly) :=
  metrics_data ← get;
  lift (_detect_anomalies metrics_data sensitivity).

(** A record for examples. *)
Definition sample (ct : string) (accurate : bool) : MetricRecord :=
  {| task_id := "task"; worker_id := "worker"; content_type := ct;
     verification_method := "human"; confidence_score := 0.9;
     response_time_ms := 250; is_accurate := accurate;
     timestamp := "2024-01-01T00:00:00" |}.

(** A batch with one slow record: eight records at 100 ms and one at
    109 ms, so that the mean is 101 and the sample standard deviation 3. *)
Definition timed (rt : Z) : MetricRecord :=
  {| task_id := "task"; worker_id := "worker"; content_type := "text";
     verification_method := "human"; confidence_score := 0.9;
     response_time_ms := rt; is_accurate := true;
     timestamp := "2024-01-01T00:00:00" |}.

Definition outlier_batch : list MetricRecord :=
  replicate 8 (timed 100) ++ [timed 109].

(** *** The sinks and the invocation handler *)

Record MetricDatum : Type := {
  MetricName : string;
  Dimensions : list (string * string);
  Value : fnum;
  Unit : string
}.

(** Calls made to the two external sinks, oldest first. *)
Inductive SinkCall : Type :=
  | put_metric_data (Namespace : string) (MetricData : list MetricDatum)
  | sns_publish (TopicArn : string) (environment : string)
      (anomalies : list Anomaly).

Definition type_name (t : AnomalyType) : string :=
  match t with
  | HIGH_RESPONSE_TIME => "HIGH_RESPONSE_TIME"
  | LOW_ACCURACY => "LOW_ACCURACY"
  | CONTENT_TYPE_LOW_ACCURACY => "CONTENT_TYPE_LOW_ACCURACY"
  end.

(** The ['value'] key, present in two of the three shapes. *)
Definition anomaly_value (a : Anomaly) : option fnum :=
  match a with
  | HighResponseTime _ _ _ _ _ => None
  | LowAccuracy v _ _ => Some v
  | ContentTypeLowAccuracy _ v _ _ _ => Some v
  end.

Definition anomaly_contentType (a : Anomaly) : option string :=
  match a with
  | ContentTypeLowAccuracy c _ _ _ _ => Some c
  | _ => None
  end.

(** The request when its ['sensitivity'] is absent or a string:
    [event.get('sensitivity', 'medium')]. [Request] below covers the other
    JSON values. *)
Record Event : Type := { event_sensitivity : option string }.

(** A JSON value, as far as the handler tells values apart. *)
Inductive Json : Type :=
  | JNull
  | JBool (b : bool)
  | JInt (z : Z)
  | JFloat (x : R)
  | JString (s : string)
  | JArray
  | JObject.

(** The name of the Python type the value decodes to. *)
Definition json_type_name (v : Json) : string :=
  match v with
  | JNull => "NoneType"
  | JBool _ => "bool"
  | JInt _ => "int"
  | JFloat _ => "float"
  | JString _ => "str"
  | JArray => "list"
  | JObject => "dict"
  end.

(** Any request: the ['sensitivity'] key is absent or holds a JSON value. *)
Record Request : Type := { request_sensitivity : option Json }.

Inductive Body : Type :=
  | NoMetrics (anomaliesDetected : nat)
  | Analyzed (datapoints : nat) (anomaliesDetected : nat) (sensitivity : string)
  | Failed (error : exn).

Record Response : Type := { statusCode : nat; body : Body }.

Section Handler.

(** The external metrics source, and two environment variables. *)
Variable load_recent_metrics : nat → result (list MetricRecord).
Variable ALERT_TOPIC_ARN : string.
Variable ENVIRONMENT : string.

Definition anomaly_metrics (a : Anomaly) : list MetricDatum :=
  let dimensions :=
    [("Environment", ENVIRONMENT)]
    ++ match anomaly_contentType a with
       | Some c => [("ContentType", c)]
       | None => []
       end in
  {| MetricName := "Anomaly" +:+ type_name (anomaly_type a);
     Dimensions := dimensions; Value := Fin 1; Unit := "Count" |}
  :: match anomaly_value a with
     | Some v => [{| MetricName := type_name (anomaly_type a) +:+ "Value";
                     Dimensions := dimensions; Value := v; Unit := "None" |}]
     | None => []
     end.

Definition _log_anomalies_to_cloudwatch (anomalies : list Anomaly)
    : Py (list SinkCall) unit :=
  let metric_data := mjoin (anomaly_metrics <$> anomalies) in
  match metric_data with
  | [] => mret tt
  | _ => modify (λ calls,
           calls ++ [put_metric_data "Mindburn/AnomalyDetection" metric_data])
  end.

Definition _send_anomaly_alert (anomalies : list Anomaly)
    : Py (list SinkCall) unit :=
  let high_severity_anomalies :=
    filter (λ a, anomaly_severity a = HIGH) anomalies in
  match high_severity_anomalies with
  | [] => mret tt
  | _ => modify (λ calls,
           calls ++ [sns_publish ALERT_TOPIC_ARN ENVIRONMENT
                       high_severity_anomalies])
  end.

(** The [try] block of [lambda_handler]. *)
Definition handle (event : Event) : Py (list SinkCall) Body :=
  let sensitivity := default "medium" (event_sensitivity event) in
  let lookback_hours := _get_lookback_hours sensitivity in
  metrics_data ← lift (load_recent_metrics lookback_hours);
  match metrics_data with
  | [] => mret (NoMetrics 0)
  | _ =>
      anomalies ← lift (_detect_anomalies metrics_data sensitivity);
      _ ← match anomalies with
          | [] => mret tt
          | _ =>
              _ ← _log_anomalies_to_cloudwatch anomalies;
              if bool_decide (ALERT_TOPIC_ARN = "") then mret tt
              else _send_anomaly_alert anomalies
          end;
      mret (Analyzed (length metrics_data) (length anomalies) sensitivity)
  end.

(** [lambda_handler]: every exception becomes a status-500 response. *)
Definition lambda_handler (event : Event) (calls : list SinkCall)
    : Response * list SinkCall :=
  match handle event calls with
  | (Ok b, calls') => ({| statusCode := 200; body := b |}, calls')
  | (Raise e, calls') => ({| statusCode := 500; body := Failed e |}, calls')
  end.

(** [lambda_handler] on any request. [event.get] returns whatever the key
    holds, and [_get_lookback_hours] calls [.lower()] on it before anything
    else happens: a value that is not a string raises there. *)
Definition lambda_handler_request (request : Request) (calls : list SinkCall)
    : Response * list SinkCall :=
  match request_sensitivity request with
  | None => lambda_handler {| event_sensitivity := None |} calls
  | Some (JString s) => lambda_handler {| event_sensitivity := Some s |} calls
  | Some v =>
      ({| statusCode := 500;
          body := Failed (AttributeError (json_type_name v) "lower") |}, calls)
  end.

End Handler.

End Threshold.

(** ** The model-based anomaly detector
    [src/analytics/ml/anomaly_detector.py] *)

Module ModelDetector.

(** A number of the input: an integer or a float. pandas types a column
    [int64] when every value in it is an integer, [float64] otherwise. *)
Inductive number : Type :=
  | Int (z : Z)
  | Float (x : R).

Definition to_R (n : number) : R :=
  match n with Int z => IZR z | Float x => x end.

Definition is_Int (n : number) : bool :=
  match n with Int _ => true | Float _ => false end.

(** One record of verification data, with the columns the detector reads. *)
Record Row : Type := {
  response_time_ms : number;
  confidence_score : number;
  cost : number;
  is_accurate : bool;
  timestamp : string
}.

(** A DataFrame that has the columns of such records. The derived column
    [accuracy_rate] is absent until something assigns it. *)
Record DataFrame : Type := {
  rows : list Row;
  accuracy_rate : option (list fnum)
}.

(** [pd.DataFrame(records)] for one record or more: the frame has the
    columns of the records. From an empty list pandas builds a frame with no
    column, which [DataFrame] does not represent; [lambda_handler] below
    treats that request apart. *)
Definition pd_DataFrame (records : list Row) : DataFrame :=
  {| rows := records; accuracy_rate := None |}.

Record AnomalyDetector : Type := {
  model : IsolationForest;
  scaler : StandardScaler
}.

Definition feature_columns : list string :=
  ["response_time_ms"; "confidence_score"; "cost"; "accuracy_rate"].

(** [AnomalyDetector(contamination)] *)
Definition init (contamination : R) : AnomalyDetector :=
  {| model := {| contamination := contamination; estimators_ := None |};
     scaler := None |}.

(** The two objects a method call can change: [self] and the DataFrame the
    caller passed. *)
Record Objects : Type := {
  self : AnomalyDetector;
  frame : DataFrame
}.

Definition set_frame (df : DataFrame) (o : Objects) : Objects :=
  {| self := self o; frame := df |}.
Definition set_scaler (sc : StandardScaler) (o : Objects) : Objects :=
  {| self := {| model := model (self o); scaler := sc |}; frame := frame o |}.
Definition set_model (m : IsolationForest) (o : Objects) : Objects :=
  {| self := {| model := m; scaler := scaler (self o) |}; frame := frame o |}.

(** [df.dropna()] on a frame whose only nullable column is [accuracy_rate]:
    a new frame with the rows that have a value there. *)
Definition dropna (rs : list Row) (acc : list fnum) : list (Row * R) :=
  omap (λ p, match snd p with Fin a => Some (fst p, a) | NaN => None end)
       (zip rs acc).

(** [df[self.feature_columns]] *)
Definition features (clean : list (Row * R)) : Matrix :=
  (λ p, [to_R (response_time_ms (fst p)); to_R (confidence_score (fst p));
         to_R (cost (fst p)); snd p]) <$> clean.

Definition preprocess_data : Py Objects Matrix :=
  o ← get;
  let df := frame o in
  let acc := rolling_mean 10 (of_bool ∘ is_accurate <$> rows df) in
  (* df['accuracy_rate'] = ...: assigns into the caller's frame *)
  _ ← put (set_frame {| rows := rows df; accuracy_rate := Some acc |} o);
  (* df = df.dropna(): rebinds the local name to a new frame *)
  let clean := dropna (rows df) acc in
  zoom (scaler ∘ self) set_scaler (StandardScaler_fit_transform (features clean)).

Definition detect_anomalies : Py Objects (list bool * list R) :=
  scaled_features ← preprocess_data;
  o ← get;
  predictions ← lift (predict (model (self o)) scaled_features);
  let anomalies := (λ p, bool_decide (p = (-1)%Z)) <$> predictions in
  scores ← lift (score_samples (model (self o)) scaled_features);
  mret (anomalies, scores).

(** The request of the scoring handler. *)
Record Event : Type := {
  model_bucket : string;
  model_key : string;
  verification_data : list Row
}.

(** What [data.iloc[idx][col]] yields: a numpy scalar of the column's type. *)
Inductive scalar : Type :=
  | np_int64 (z : Z)
  | np_float64 (x : fnum).

Record AnomalyEntry : Type := {
  entry_index : nat;
  entry_score : R;
  entry_timestamp : string;
  entry_metrics : list (string * scalar)
}.

Inductive Body : Type :=
  | Detected (anomaly_count : nat) (anomalies : list AnomalyEntry)
  | Failed (error : exn).

Record Response : Type := { statusCode : nat; body : Body }.

(** [data.iloc[idx]], with the columns the response reads. *)
Definition iloc (data : DataFrame) (idx : nat) : result (Row * fnum) :=
  match rows data !! idx with
  | None => Raise IndexError
  | Some r =>
      match accuracy_rate data with
      | None => Raise (KeyError "accuracy_rate")
      | Some acc => Ok (r, default NaN (acc !! idx))
      end
  end.

(** The column [col] of [data] is of type [int64]. *)
Definition int64_column (col : Row → number) (data : DataFrame) : bool :=
  forallb (is_Int ∘ col) (rows data).

(** The value of column [col] in row [r] of [data]. *)
Definition cell (data : DataFrame) (col : Row → number) (r : Row) : scalar :=
  match col r with
  | Int z => if int64_column col data then np_int64 z
             else np_float64 (Fin (IZR z))
  | Float x => np_float64 (Fin x)
  end.

(** Some column that the response reads is of type [int64]. *)
Definition int64_columns (data : DataFrame) : bool :=
  int64_column response_time_ms data
  || int64_column confidence_score data
  || int64_column cost data.

(** [json.dumps] encodes Python floats, [np.float64] among them, and refuses
    [np.int64]. *)
Definition json_serializable (v : scalar) : bool :=
  match v with np_float64 _ => true | np_int64 _ => false end.

Definition json_dumps (entries : list AnomalyEntry) : result unit :=
  if forallb (λ e, forallb (json_serializable ∘ snd) (entry_metrics e)) entries
  then Ok tt
  else Raise (TypeError "int64").

(** Lines 77-96: one entry per flagged sample, then the JSON encoding of
    the response. *)
Definition response_data (data : DataFrame) (anomalies : list bool)
    (scores : list R) : result Body :=
  let anomaly_indices := select (seq 0 (length anomalies)) anomalies in
  let anomaly_scores := select scores anomalies in
  entries ← mapM (λ p,
               '(r, a) ← iloc data (fst p);
               mret {| entry_index := fst p; entry_score := snd p;
                       entry_timestamp := timestamp r;
                       entry_metrics :=
                         zip feature_columns
                           [cell data response_time_ms r;
                            cell data confidence_score r;
                            cell data cost r; np_float64 a] |})
             (zip anomaly_indices anomaly_scores);
  _ ← json_dumps entries;
  mret (Detected (length anomaly_indices) entries).

(** Records for examples, with float and with integer columns; a fitted
    forest that scores every sample 0, above its offset, and one that scores
    every sample -1, below its offset. *)
Definition sample (rt : R) : Row :=
  {| response_time_ms := Float rt; confidence_score := Float 0.5;
     cost := Float 1; is_accurate := true;
     timestamp := "2024-01-01T00:00:00" |}.

Definition integer_sample (rt : Z) : Row :=
  {| response_time_ms := Int rt; confidence_score := Float 0.5;
     cost := Int 1; is_accurate := true;
     timestamp := "2024-01-01T00:00:00" |}.

Definition alarm_forest : IsolationForest :=
  {| contamination := 0.1;
     estimators_ := Some {| score_sample := λ _, - 1; offset_ := - 0.5 |} |}.

Definition flat_forest : IsolationForest :=
  {| contamination := 0.1;
     estimators_ := Some {| score_sample := λ _, 0; offset_ := - 0.5 |} |}.

(** A training procedure and a request for examples. *)
Definition flat_fit (contamination : R) (X : Matrix) : Forest :=
  {| score_sample := λ _, 0; offset_ := - 0.5 |}.

Definition sample_event : Event :=
  {| model_bucket := "models"; model_key := "anomaly_detector/model.joblib";
     verification_data := replicate 10 (sample 200) |}.

Definition integer_event : Event :=
  {| model_bucket := "models"; model_key := "anomaly_detector/model.joblib";
     verification_data := replicate 10 (integer_sample 200) |}.

Definition short_event : Event :=
  {| model_bucket := "models"; model_key := "anomaly_detector/model.joblib";
     verification_data := replicate 9 (sample 200) |}.

Definition empty_event : Event :=
  {| model_bucket := "models"; model_key := "anomaly_detector/model.joblib";
     verification_data := [] |}.

Section Persistence.

(** [IsolationForest.fit] with the estimator's fixed seed and tree count, and
    joblib's encoding of an estimator. *)
Variable IsolationForest_fit : R → Matrix → Forest.
Variable Artifact : Type.
Variable joblib_dump : IsolationForest → Artifact.
Variable joblib_load : Artifact → result IsolationForest.

(** The blob store, keyed by bucket and key. *)
Abbreviation S3 := (gmap (string * string) Artifact).

(** [self.model.fit] validates the estimator's parameters before it builds
    anything: [contamination] has to lie in (0, 0.5]. *)
Definition train : Py Objects unit :=
  scaled_features ← preprocess_data;
  o ← get;
  if bool_decide (0 < contamination (model (self o)))
     && bool_decide (contamination (model (self o)) <= 0.5)
  then
    put (set_model
           {| contamination := contamination (model (self o));
              estimators_ :=
                Some (IsolationForest_fit (contamination (model (self o)))
                        scaled_features) |} o)
  else raise (InvalidParameterError "IsolationForest" "contamination").

(** [train_anomaly_detector], given the frame read from [data_path]. *)
Definition train_anomaly_detector (data : DataFrame)
    (model_bucket model_key : string) : Py S3 unit :=
  match train {| self := init 0.1; frame := data |} with
  | (Ok _, o) =>
      modify (λ s3 : S3,
        <[(model_bucket, model_key) := joblib_dump (model (self o))]> s3)
  | (Raise e, _) => raise e
  end.

(** The [try] block of [lambda_handler], up to the call of
    [detect_anomalies]: the detector built around the loaded model, and the
    frame built from the records of the request. *)
Definition loaded_detector (event : Event) (s3 : S3) : result Objects :=
  match s3 !! (model_bucket event, model_key event) with
  | None => Raise (ClientError (model_bucket event) (model_key event))
  | Some blob =>
      m ← joblib_load blob;
      mret {| self := {| model := m; scaler := scaler (init 0.1) |};
              frame := pd_DataFrame (verification_data event) |}
  end.

(** The [try] block for a request with one record or more, whose frame has
    the columns of the records. *)
Definition handle (event : Event) (s3 : S3) : result Body :=
  o ← loaded_detector event s3;
  match detect_anomalies o with
  | (Ok (anomalies, scores), o') => response_data (frame o') anomalies scores
  | (Raise e, _) => Raise e
  end.

(** [lambda_handler]: every exception becomes a status-500 response. With
    no record at all the frame has no column: once the model is loaded, the
    first column access of [preprocess_data], [df['is_accurate']], raises. *)
Definition lambda_handler (event : Event) (s3 : S3) : Response :=
  match verification_data event with
  | [] =>
      match loaded_detector event s3 with
      | Ok _ => {| statusCode := 500; body := Failed (KeyError "is_accurate") |}
      | Raise e => {| statusCode := 500; body := Failed e |}
      end
  | _ :: _ =>
      match handle event s3 with
      | Ok b => {| statusCode := 200; body := b |}
      | Raise e => {| statusCode := 500; body := Failed e |}
      end
  end.

End Persistence.

End ModelDetector.

(** ** The task router  [src/analytics/ml/task_router.py] *)

Module Router.

(** The [task_features] dictionary of a prediction request. *)
Record TaskFeatures : Type := {
  content_type : string;
  verification_method : string;
  task_complexity : R;
  expected_response_time : R;
  required_confidence : R
}.

(** One row of the training frame. *)
Record TrainingRow : Type := {
  task : TaskFeatures;
  best_worker : string
}.

(** What a fitted random forest computes: the class probabilities of one
    sample, one per class. How [fit] builds it is not modelled. *)
Record Classifier : Type := {
  classes_ : list string;
  predict_proba : list R → list R
}.

Record TaskRouter : Type := {
  label_encoders : gmap string LabelEncoder;
  scaler : StandardScaler;
  model : option Classifier
}.

Definition target_column : string := "best_worker".

(** [TaskRouter()] *)
Definition init : TaskRouter :=
  {| label_encoders := ∅; scaler := None; model := None |}.

Definition set_encoder (col : string) (enc : LabelEncoder) (r : TaskRouter)
    : TaskRouter :=
  {| label_encoders := <[col := enc]> (label_encoders r);
     scaler := scaler r; model := model r |}.
Definition set_scaler (sc : StandardScaler) (r : TaskRouter) : TaskRouter :=
  {| label_encoders := label_encoders r; scaler := sc; model := model r |}.
Definition set_model (m : option Classifier) (r : TaskRouter) : TaskRouter :=
  {| label_encoders := label_encoders r; scaler := scaler r; model := m |}.

(** [d[key]] on a dictionary. *)
Definition dict_getitem {V} (d : gmap string V) (key : string) : result V :=
  match d !! key with
  | Some v => Ok v
  | None => Raise (KeyError key)
  end.

Definition numerical (t : TaskFeatures) : list R :=
  [task_complexity t; expected_response_time t; required_confidence t].

(** The loop body of lines 29-31: a new encoder is stored under [col] and
    fitted on the column. *)
Definition encode_column (col : string) (values : list string)
    : Py TaskRouter (list nat) :=
  '(enc, codes) ← lift (LabelEncoder_fit_transform values);
  _ ← modify (set_encoder col enc);
  mret codes.

(** [preprocess_data]: the feature matrix, in [feature_columns] order, and
    the targets. *)
Definition preprocess_data (df : list TrainingRow)
    : Py TaskRouter (Matrix * list string) :=
  ct ← encode_column "content_type" (content_type ∘ task <$> df);
  vm ← encode_column "verification_method" (verification_method ∘ task <$> df);
  let y := best_worker <$> df in
  scaled ← zoom scaler set_scaler
             (StandardScaler_fit_transform (numerical ∘ task <$> df));
  mret (zip_with (λ codes num, INR (fst codes) :: INR (snd codes) :: num)
          (zip ct vm) scaled, y).

(** What [np.argsort(xs)] promises of its result: the positions of [xs],
    each once, in an order along which the values never decrease. The
    default sort is not stable, so the order among positions of equal value
    is left to the implementation. *)
Definition sorts (xs : list R) (order : list nat) : Prop :=
  order ≡ₚ seq 0 (length xs)
  ∧ StronglySorted (λ i j, nth i xs 0 <= nth j xs 0) order.

(** One routine that keeps this promise, for examples: insertion sort.
    [i], smaller than every position in [sorted], goes before the first
    entry that is not strictly below it. *)
Fixpoint argsort_insert (xs : list R) (i : nat) (sorted : list nat) : list nat :=
  match sorted with
  | [] => [i]
  | j :: rest =>
      if bool_decide (nth j xs 0 < nth i xs 0) then j :: argsort_insert xs i rest
      else i :: sorted
  end.

Definition insertion_argsort (xs : list R) : list nat :=
  foldr (argsort_insert xs) [] (seq 0 (length xs)).

(** The order insertion sort produces: smaller value first, and on equal
    values smaller position first. *)
Definition comes_before (xs : list R) (i j : nat) : Prop :=
  nth i xs 0 < nth j xs 0 ∨ (nth i xs 0 = nth j xs 0 ∧ (i < j)%nat).

Section Prediction.

(** [np.argsort], whatever order it gives to equal values. *)
Variable np_argsort : list R → list nat.

(** [np.argsort(worker_probs)[-3:][::-1]] *)
Definition top_indices (worker_probs : list R) : list nat :=
  let order := np_argsort worker_probs in
  reverse (drop (length order - 3) order).

Definition predict_worker (self : TaskRouter) (task_features : TaskFeatures)
    : result (list string) :=
  enc_ct ← dict_getitem (label_encoders self) "content_type";
  ct ← LabelEncoder_transform enc_ct [content_type task_features];
  enc_vm ← dict_getitem (label_encoders self) "verification_method";
  vm ← LabelEncoder_transform enc_vm [verification_method task_features];
  scaled ← fst (StandardScaler_transform [numerical task_features] (scaler self));
  m ← match model self with
      | Some m => Ok m
      | None => Raise (NotFittedError "RandomForestClassifier")
      end;
  let worker_probs :=
    predict_proba m ((INR <$> ct) ++ (INR <$> vm) ++ mjoin scaled) in
  enc_target ← dict_getitem (label_encoders self) target_column;
  let worker_ids := le_classes_ enc_target in
  mapM (λ i, match worker_ids !! i with
             | Some w => Ok w
             | None => Raise IndexError
             end) (top_indices worker_probs).

End Prediction.

(** Data for examples: two tasks, and a training procedure whose forest
    gives both workers the same probability. *)
Definition text_task : TaskFeatures :=
  {| content_type := "text"; verification_method := "human";
     task_complexity := 1; expected_response_time := 200;
     required_confidence := 0.9 |}.

Definition image_task : TaskFeatures :=
  {| content_type := "image"; verification_method := "ai";
     task_complexity := 3; expected_response_time := 900;
     required_confidence := 0.7 |}.

Definition video_task : TaskFeatures :=
  {| content_type := "video"; verification_method := "human";
     task_complexity := 2; expected_response_time := 500;
     required_confidence := 0.8 |}.

Definition sample_training : list TrainingRow :=
  [ {| task := text_task; best_worker := "w1" |};
    {| task := image_task; best_worker := "w2" |} ].

Definition even_fit (X : Matrix) (y : list string) : result Classifier :=
  Ok {| classes_ := unique y; predict_proba := λ _, [0.5; 0.5] |}.

Section Training.

(** Lines 45-50: the seeded split followed by the fit of the forest. *)
Variable fit_model : Matrix → list string → result Classifier.

Definition train (training_data : list TrainingRow) : Py TaskRouter unit :=
  '(X, y) ← preprocess_data training_data;
  m ← lift (fit_model X y);
  modify (set_model (Some m)).

End Training.

(** *** Persistence and the invocation handler *)

Definition feature_columns : list string :=
  ["content_type"; "verification_method"; "task_complexity";
   "expected_response_time"; "required_confidence"].

(** The dictionary that [save_model] dumps. *)
Record Artifacts : Type := {
  art_model : option Classifier;
  art_label_encoders : gmap string LabelEncoder;
  art_scaler : StandardScaler;
  art_feature_columns : list string
}.

(** A request whose [task_features] holds the five feature keys; its
    ['task_id'], looked up with [.get], is then absent. *)
Record Event : Type := {
  model_bucket : string;
  model_key : string;
  task_features : TaskFeatures
}.

Inductive Body : Type :=
  | Routed (best_workers : list string) (task_id : option string)
  | Failed (error : exn).

Record Response : Type := { statusCode : nat; body : Body }.

Section Persistence.

(** joblib's encoding of the dictionary. *)
Variable Artifact : Type.
Variable joblib_dump : Artifacts → Artifact.
Variable joblib_load : Artifact → result Artifacts.
Variable np_argsort : list R → list nat.

Definition save_model (self : TaskRouter) (bucket key : string)
    : Py (gmap (string * string) Artifact) unit :=
  modify (λ s3 : gmap (string * string) Artifact,
    <[(bucket, key) :=
        joblib_dump {| art_model := model self;
                       art_label_encoders := label_encoders self;
                       art_scaler := scaler self;
                       art_feature_columns := feature_columns |}]> s3).

Definition load_model (bucket key : string)
    (s3 : gmap (string * string) Artifact) : result TaskRouter :=
  match s3 !! (bucket, key) with
  | None => Raise (ClientError bucket key)
  | Some blob =>
      artifacts ← joblib_load blob;
      mret {| label_encoders := art_label_encoders artifacts;
              scaler := art_scaler artifacts;
              model := art_model artifacts |}
  end.

Definition lambda_handler (event : Event)
    (s3 : gmap (string * string) Artifact) : Response :=
  match (router ← load_model (model_bucket event) (model_key event) s3;
         predict_worker np_argsort router (task_features event)) with
  | Ok best_workers =>
      {| statusCode := 200; body := Routed best_workers None |}
  | Raise e => {| statusCode := 500; body := Failed e |}
  end.

End Persistence.

End Router.

(** * Properties *)

(** ** Lists, sums and comparisons *)

Lemma select_fmap {A B} (p : B → bool) (g : A → B) (xs : list A) :
  select xs (p <$> (g <$> xs)) = filter (λ x, p (g x) = true) xs.
Proof.
  unfold select. induction xs as [|x xs IH]; [reflexivity|].
  cbn [fmap list_fmap zip zip_with]. rewrite !filter_cons. cbn [snd].
  destruct (decide (p (g x) = true)); cbn [fmap list_fmap fst]; now rewrite <- IH.
Qed.

Lemma filter_length_mono {A} (P Q : A → Prop)
    `{∀ x, Decision (P x)} `{∀ x, Decision (Q x)} (l : list A) :
  (∀ x, P x → Q x) → (length (filter P l) ≤ length (filter Q l))%nat.
Proof.
  intros HPQ. induction l as [|x l IH]; [reflexivity|].
  rewrite !filter_cons.
  destruct (decide (P x)) as [HP|HP]; destruct (decide (Q x)) as [HQ|HQ];
    cbn [length]; try lia.
  exfalso. auto.
Qed.

Lemma filter_nil_of_none {A} (P : A → Prop) `{∀ x, Decision (P x)} (l : list A) :
  (∀ x, x ∈ l → ¬ P x) → filter P l = [].
Proof.
  intros HP. induction l as [|x l IH]; [reflexivity|].
  rewrite filter_cons. destruct (decide (P x)) as [Hx|Hx].
  - exfalso. apply (HP x); [left|assumption].
  - apply IH. intros y Hy. apply HP. now right.
Qed.

Lemma sum_const (v : R) (xs : list R) :
  (∀ x, x ∈ xs → x = v) → sum xs = INR (length xs) * v.
Proof.
  induction xs as [|x xs IH]; intros Hall.
  - cbn. lra.
  - change (sum (x :: xs)) with (x + sum xs).
    rewrite IH by (intros y Hy; apply Hall; now right).
    cbn [length]. rewrite S_INR, (Hall x) by left. lra.
Qed.

Lemma sum_zero (xs : list R) : (∀ x, x ∈ xs → x = 0) → sum xs = 0.
Proof. intros H. rewrite (sum_const 0 xs H). lra. Qed.

Lemma fltb_true (a b : fnum) :
  fltb a b = true ↔ ∃ x y, a = Fin x ∧ b = Fin y ∧ x < y.
Proof.
  split.
  - destruct a as [|x], b as [|y]; cbn; try discriminate.
    intros Hlt. apply bool_decide_eq_true in Hlt. eauto.
  - intros (x & y & -> & -> & Hlt). cbn. now apply bool_decide_eq_true.
Qed.

Lemma fltb_irrefl (a : fnum) : fltb a a = false.
Proof.
  destruct a as [|x]; [reflexivity|]. cbn. apply bool_decide_eq_false. lra.
Qed.

Lemma elem_of_unique (v : string) (l : list string) : v ∈ unique l ↔ v ∈ l.
Proof.
  unfold unique. rewrite merge_sort_Permutation. apply elem_of_remove_dups.
Qed.

Lemma NoDup_unique (l : list string) : NoDup (unique l).
Proof.
  unfold unique. rewrite merge_sort_Permutation. apply NoDup_remove_dups.
Qed.

(** ** The threshold detector *)

Section ThresholdProperties.
Import Threshold.

Lemma getitem_nonempty {A} (md : list MetricRecord) (name : string)
    (field : MetricRecord → A) :
  (0 < length md)%nat → name ∈ record_keys →
  getitem (pd_DataFrame md) name field = Ok (field <$> md).
Proof.
  intros Hlen Hin. unfold getitem, pd_DataFrame. cbn [columns rows].
  destruct md as [|r md]; [cbn in Hlen; lia|].
  now rewrite bool_decide_eq_true_2.
Qed.

Lemma getitem_mask_nonempty {A} (md : list MetricRecord) (mask : list bool)
    (name : string) (field : MetricRecord → A) :
  (0 < length md)%nat → name ∈ record_keys →
  getitem (getitem_mask (pd_DataFrame md) mask) name field
  = Ok (field <$> select md mask).
Proof.
  intros Hlen Hin. unfold getitem, getitem_mask, pd_DataFrame. cbn [columns rows].
  destruct md as [|r md]; [cbn in Hlen; lia|].
  now rewrite bool_decide_eq_true_2.
Qed.

Local Ltac in_keys := unfold record_keys; set_solver.

(** The upper threshold of lines 135-137, as a function of the batch. *)
Lemma response_time_anomalies_nonempty (md : list MetricRecord) (sigma : R) :
  (0 < length md)%nat →
  let col := IZR ∘ response_time_ms <$> md in
  let upper := fadd (mean col) (fmul (Fin sigma) (std col)) in
  response_time_anomalies (pd_DataFrame md) sigma
  = Ok (mean col, upper,
        {| columns := record_keys;
           rows := filter (λ r, fgtb (Fin (IZR (response_time_ms r))) upper = true)
                          md |}).
Proof.
  intros Hlen col upper. unfold response_time_anomalies.
  rewrite getitem_nonempty by (assumption || in_keys).
  cbn [mbind result_bind mret result_ret].
  assert (Hcol : IZR <$> (response_time_ms <$> md) = col)
    by (unfold col; now rewrite list_fmap_compose).
  rewrite Hcol. fold upper. unfold getitem_mask, pd_DataFrame. cbn [columns rows].
  rewrite (select_fmap (λ x, fgtb (Fin (IZR x)) upper) response_time_ms md).
  destruct md; [cbn in Hlen; lia|]. reflexivity.
Qed.

(** On a batch with at least one record no column lookup fails, so the
    detector returns, and its result is the three checks in order. *)
Lemma response_time_check_nonempty (md : list MetricRecord) (sigma : R) :
  (0 < length md)%nat →
  ∃ mu upper flagged,
    response_time_anomalies (pd_DataFrame md) sigma = Ok (mu, upper, flagged) ∧
    response_time_check (pd_DataFrame md) sigma
    = Ok (match rows flagged with
          | [] => []
          | _ => [HighResponseTime (length (rows flagged)) upper mu MEDIUM
                    (length (remove_dups (worker_id <$> rows flagged)))]
          end).
Proof.
  intros Hlen. unfold response_time_check.
  rewrite response_time_anomalies_nonempty by assumption.
  eexists _, _, _. split; [reflexivity|].
  cbn [mbind result_bind mret result_ret rows].
  destruct (filter _ md) as [|r rs] eqn:Hf; [reflexivity|].
  unfold getitem. cbn [columns rows].
  rewrite bool_decide_eq_true_2 by in_keys. reflexivity.
Qed.

Lemma accuracy_check_nonempty (md : list MetricRecord) :
  (0 < length md)%nat →
  let accuracy_rate := mean (of_bool ∘ is_accurate <$> md) in
  accuracy_check (pd_DataFrame md)
  = Ok (if fltb accuracy_rate (Fin 0.75)
        then [LowAccuracy accuracy_rate 0.75
                (if fltb accuracy_rate (Fin 0.6) then HIGH else MEDIUM)]
        else []).
Proof.
  intros Hlen acc. unfold accuracy_check.
  rewrite getitem_nonempty by (assumption || in_keys).
  cbn [mbind result_bind mret result_ret].
  rewrite <- list_fmap_compose. fold acc.
  now destruct (fltb acc (Fin 0.75)).
Qed.

Lemma content_type_check_nonempty (md : list MetricRecord) :
  (0 < length md)%nat →
  content_type_check (pd_DataFrame md)
  = Ok (mjoin (content_type_row ∘ stats_row md
                  <$> unique (content_type <$> md))).
Proof.
  intros Hlen. unfold content_type_check, content_type_stats.
  rewrite !getitem_nonempty by (assumption || in_keys).
  cbn [mbind result_bind mret result_ret].
  now rewrite list_fmap_compose.
Qed.

Lemma detect_anomalies_nonempty (md : list MetricRecord) (sensitivity : string) :
  (0 < length md)%nat →
  ∃ a1 a2,
    response_time_check (pd_DataFrame md) (sigma_threshold sensitivity) = Ok a1 ∧
    accuracy_check (pd_DataFrame md) = Ok a2 ∧
    _detect_anomalies md sensitivity
    = Ok (a1 ++ a2 ++ mjoin (content_type_row ∘ stats_row md
                                <$> unique (content_type <$> md))).
Proof.
  intros Hlen. unfold _detect_anomalies.
  destruct (response_time_check_nonempty md (sigma_threshold sensitivity) Hlen)
    as (mu & upper & flagged & _ & ->).
  rewrite accuracy_check_nonempty, content_type_check_nonempty by assumption.
  eexists _, _. repeat split.
Qed.

(** *** Empty batches *)

(** C3, as stated, fails: called on an empty batch, the detector does not
    return an empty list. The frame built from no record has no column, and
    the first column lookup raises a KeyError. *)
Lemma detect_empty_batch_raises :
  _detect_anomalies [] "medium" = Raise (KeyError "response_time_ms")
  ∧ _detect_anomalies [] "medium" ≠ Ok [].
Proof. split; [reflexivity | discriminate]. Qed.

Lemma detect_empty_batch_any (sensitivity : string) :
  _detect_anomalies [] sensitivity = Raise (KeyError "response_time_ms").
Proof. reflexivity. Qed.

(** C3, amended: when the metrics source yields an empty batch, the
    invocation reports success (status 200) with anomaliesDetected = 0 and
    calls no sink. It does so through the handler's own test for an empty
    batch, which returns before the detector is called. *)
Theorem handler_empty_batch
    (load_recent_metrics : nat → result (list MetricRecord))
    (ALERT_TOPIC_ARN ENVIRONMENT : string) (event : Event)
    (calls : list SinkCall) :
  load_recent_metrics
    (_get_lookback_hours (default "medium" (event_sensitivity event))) = Ok [] →
  lambda_handler load_recent_metrics ALERT_TOPIC_ARN ENVIRONMENT event calls
  = ({| statusCode := 200; body := NoMetrics 0 |}, calls).
Proof.
  intros Hload. unfold lambda_handler, handle, lift.
  cbn [mbind Py_bind]. now rewrite Hload.
Qed.

Lemma handler_empty_batch_witness :
  lambda_handler (λ _, Ok []) "" "dev" {| event_sensitivity := Some "high" |} []
  = ({| statusCode := 200; body := NoMetrics 0 |}, []).
Proof. apply handler_empty_batch. reflexivity. Defined.

(** *** Response times *)

Lemma std_nonneg (xs : list R) (sd : R) : std xs = Fin sd → 0 <= sd.
Proof.
  unfold std. destruct (var 1 xs) as [|v]; cbn; [discriminate|].
  intros [= <-]. apply sqrt_pos.
Qed.

Lemma content_type_row_type (row : string * GroupStats) (a : Anomaly) :
  a ∈ content_type_row row → anomaly_type a = CONTENT_TYPE_LOW_ACCURACY.
Proof.
  destruct row as [key stats]. unfold content_type_row.
  destruct (_ && _); [|now intros ?%elem_of_nil].
  now intros ->%list_elem_of_singleton.
Qed.

Lemma content_type_rows_type (rows : list (string * GroupStats)) (a : Anomaly) :
  a ∈ mjoin (content_type_row <$> rows) →
  anomaly_type a = CONTENT_TYPE_LOW_ACCURACY.
Proof.
  intros (l & Ha & Hl)%list_elem_of_join.
  apply list_elem_of_fmap in Hl as (row & -> & _).
  now apply content_type_row_type in Ha.
Qed.

(** The HIGH_RESPONSE_TIME anomalies of a run: one when some record lies
    above the upper threshold, none otherwise. *)
Lemma detect_high_response_time (md : list MetricRecord) (sensitivity : string) :
  (0 < length md)%nat →
  ∃ l mu upper flagged,
    _detect_anomalies md sensitivity = Ok l ∧
    response_time_anomalies (pd_DataFrame md) (sigma_threshold sensitivity)
    = Ok (mu, upper, flagged) ∧
    filter (λ a, anomaly_type a = HIGH_RESPONSE_TIME) l
    = match rows flagged with
      | [] => []
      | _ => [HighResponseTime (length (rows flagged)) upper mu MEDIUM
                (length (remove_dups (worker_id <$> rows flagged)))]
      end.
Proof.
  intros Hlen.
  destruct (detect_anomalies_nonempty md sensitivity Hlen)
    as (a1 & a2 & H1 & H2 & Hdet).
  destruct (response_time_check_nonempty md (sigma_threshold sensitivity) Hlen)
    as (mu & upper & flagged & Hrta & H1').
  rewrite H1' in H1. injection H1 as <-.
  rewrite accuracy_check_nonempty in H2 by assumption. injection H2 as <-.
  eexists _, mu, upper, flagged. split; [exact Hdet|]. split; [exact Hrta|].
  rewrite !filter_app.
  rewrite (filter_nil_of_none _ (mjoin _)); cycle 1.
  { intros a Ha. rewrite list_fmap_compose in Ha.
    apply content_type_rows_type in Ha. now rewrite Ha. }
  rewrite (filter_nil_of_none _ (if fltb _ _ then _ else _)); cycle 1.
  { intros a Ha. destruct (fltb _ (Fin 0.75)); [|now apply elem_of_nil in Ha].
    apply list_elem_of_singleton in Ha as ->. discriminate. }
  rewrite !app_nil_r. destruct (rows flagged); [reflexivity|].
  rewrite filter_cons. cbn [anomaly_type].
  now rewrite decide_True by reflexivity.
Qed.

Lemma flagged_antitone (mu sd : fnum) (s1 s2 x : R) :
  match sd with Fin v => 0 <= v | NaN => True end → s1 <= s2 →
  fgtb (Fin x) (fadd mu (fmul (Fin s2) sd)) = true →
  fgtb (Fin x) (fadd mu (fmul (Fin s1) sd)) = true.
Proof.
  intros Hsd Hs. destruct mu as [|m], sd as [|v]; cbn; try discriminate.
  intros H2%bool_decide_eq_true. apply bool_decide_eq_true. nra.
Qed.

(** The batch with one slow record: mean 101, deviation 3, so that the
    slow record lies above the threshold exactly when sigma is below 8/3. *)
Lemma outlier_batch_mean :
  mean (IZR ∘ response_time_ms <$> outlier_batch) = Fin 101.
Proof. vm_compute. f_equal. lra. Qed.

Lemma outlier_batch_std :
  std (IZR ∘ response_time_ms <$> outlier_batch) = Fin 3.
Proof.
  assert (Hvar : var 1 (IZR ∘ response_time_ms <$> outlier_batch) = Fin 9).
  { unfold var. rewrite outlier_batch_mean. vm_compute. f_equal. lra. }
  unfold std. rewrite Hvar. cbn [fsqrt]. f_equal.
  replace 9 with (3 * 3) by lra. apply sqrt_square. lra.
Qed.

Lemma outlier_batch_flagged (sigma : R) :
  0 <= sigma →
  response_time_anomalies (pd_DataFrame outlier_batch) sigma
  = Ok (Fin 101, Fin (101 + sigma * 3),
        {| columns := record_keys;
           rows := if bool_decide (101 + sigma * 3 < 109) then [timed 109]
                   else [] |}).
Proof.
  intros Hsigma.
  rewrite response_time_anomalies_nonempty by (vm_compute; lia). cbv zeta.
  rewrite outlier_batch_mean, outlier_batch_std. cbn [fadd fmul].
  do 2 f_equal. unfold outlier_batch. rewrite filter_app.
  rewrite filter_nil_of_none; cycle 1.
  { intros r [-> _]%elem_of_replicate. cbn.
    rewrite bool_decide_eq_false_2 by lra. discriminate. }
  rewrite filter_cons, filter_nil. cbn [app response_time_ms timed fgtb fltb].
  destruct (bool_decide (101 + sigma * 3 < 109)) eqn:Hb.
  - now rewrite decide_True by reflexivity.
  - now rewrite decide_False by discriminate.
Qed.

(** C6: on one batch, a larger sigma multiplier never flags more records
    than a smaller one, so a looser sensitivity never yields more
    HIGH_RESPONSE_TIME anomalies than a stricter one. On the empty batch
    the column lookup raises under every multiplier and no record is
    flagged at all; on any other batch both runs return, with the same
    mean. *)
Theorem response_time_threshold_monotone (md : list MetricRecord) (s1 s2 : R) :
  s1 <= s2 →
  (md = [] ∧
   response_time_anomalies (pd_DataFrame md) s1
   = Raise (KeyError "response_time_ms") ∧
   response_time_anomalies (pd_DataFrame md) s2
   = Raise (KeyError "response_time_ms") ∧
   ∀ se, _detect_anomalies md se = Raise (KeyError "response_time_ms"))
  ∨
  (md ≠ [] ∧
   (∃ mu u1 u2 f1 f2,
      response_time_anomalies (pd_DataFrame md) s1 = Ok (mu, u1, f1) ∧
      response_time_anomalies (pd_DataFrame md) s2 = Ok (mu, u2, f2) ∧
      (length (rows f2) ≤ length (rows f1))%nat) ∧
   (∀ se1 se2, sigma_threshold se1 = s1 → sigma_threshold se2 = s2 →
      ∃ l1 l2,
        _detect_anomalies md se1 = Ok l1 ∧ _detect_anomalies md se2 = Ok l2 ∧
        (length (filter (λ a, anomaly_type a = HIGH_RESPONSE_TIME) l2)
         ≤ length (filter (λ a, anomaly_type a = HIGH_RESPONSE_TIME) l1))%nat)).
Proof.
  intros Hs. destruct (decide (md = [])) as [-> | Hne].
  { left. repeat split; reflexivity. }
  right. split; [assumption|].
  assert (Hlen : (0 < length md)%nat) by (destruct md; [done | cbn; lia]).
  assert (Hmono : ∀ t1 t2, t1 <= t2 → ∃ mu u1 u2 f1 f2,
     response_time_anomalies (pd_DataFrame md) t1 = Ok (mu, u1, f1) ∧
     response_time_anomalies (pd_DataFrame md) t2 = Ok (mu, u2, f2) ∧
     (length (rows f2) ≤ length (rows f1))%nat).
  { intros t1 t2 Ht.
    rewrite !response_time_anomalies_nonempty by assumption.
    eexists _, _, _, _, _. split; [reflexivity|]. split; [reflexivity|].
    cbn [rows]. apply filter_length_mono. intros r.
    apply flagged_antitone; [|assumption].
    destruct (std _) as [|v] eqn:Hstd; [exact I|].
    now apply std_nonneg in Hstd. }
  split; [now apply Hmono|].
  intros se1 se2 H1 H2.
  destruct (detect_high_response_time md se1 Hlen)
    as (l1 & mu1 & u1 & f1 & Hd1 & Hr1 & Hc1).
  destruct (detect_high_response_time md se2 Hlen)
    as (l2 & mu2 & u2 & f2 & Hd2 & Hr2 & Hc2).
  exists l1, l2. split; [assumption|]. split; [assumption|].
  rewrite Hc1, Hc2.
  destruct (Hmono (sigma_threshold se1) (sigma_threshold se2))
    as (mu & v1 & v2 & g1 & g2 & Hg1 & Hg2 & Hle); [lra|].
  rewrite Hg1 in Hr1. rewrite Hg2 in Hr2.
  injection Hr1 as <- <- <-. injection Hr2 as _ <- <-.
  destruct (rows g2), (rows g1); cbn [length] in *; lia.
Qed.

(** On the batch with one slow record the two multipliers tell apart: 2
    (sensitivity high) flags the slow record, 3 (sensitivity low) flags
    none. *)
Lemma response_time_threshold_monotone_witness :
  (∃ mu u1 u2 f1 f2,
     response_time_anomalies (pd_DataFrame outlier_batch) 2 = Ok (mu, u1, f1) ∧
     response_time_anomalies (pd_DataFrame outlier_batch) 3 = Ok (mu, u2, f2) ∧
     (length (rows f2) ≤ length (rows f1))%nat ∧
     rows f1 = [timed 109] ∧ rows f2 = []) ∧
  (∃ l1 l2,
     _detect_anomalies outlier_batch "high" = Ok l1 ∧
     _detect_anomalies outlier_batch "low" = Ok l2 ∧
     (length (filter (λ a, anomaly_type a = HIGH_RESPONSE_TIME) l2)
      ≤ length (filter (λ a, anomaly_type a = HIGH_RESPONSE_TIME) l1))%nat ∧
     length (filter (λ a, anomaly_type a = HIGH_RESPONSE_TIME) l1) = 1%nat ∧
     length (filter (λ a, anomaly_type a = HIGH_RESPONSE_TIME) l2) = 0%nat).
Proof.
  assert (H2 : sigma_threshold "high" = 2) by (vm_compute; lra).
  assert (H3 : sigma_threshold "low" = 3) by (vm_compute; lra).
  assert (Hf2 := outlier_batch_flagged 2 ltac:(lra)).
  assert (Hf3 := outlier_batch_flagged 3 ltac:(lra)).
  rewrite bool_decide_eq_true_2 in Hf2 by lra.
  rewrite bool_decide_eq_false_2 in Hf3 by lra.
  destruct (response_time_threshold_monotone outlier_batch 2 3 ltac:(lra))
    as [(Hnil & _) | (_ & (mu & u1 & u2 & f1 & f2 & Hr1 & Hr2 & Hle) & Hdet)];
    [discriminate Hnil|].
  split.
  - exists mu, u1, u2, f1, f2. repeat split; try assumption.
    + rewrite Hf2 in Hr1. now injection Hr1 as _ _ <-.
    + rewrite Hf3 in Hr2. now injection Hr2 as _ _ <-.
  - destruct (Hdet "high" "low" H2 H3) as (l1 & l2 & Hd1 & Hd2 & Hcount).
    exists l1, l2. repeat split; try assumption.
    + destruct (detect_high_response_time outlier_batch "high"
                  ltac:(vm_compute; lia))
        as (l & m & u & f & Hd & Hr & Hc).
      rewrite Hd1 in Hd. injection Hd as <-.
      rewrite H2, Hf2 in Hr. injection Hr as _ _ <-. now rewrite Hc.
    + destruct (detect_high_response_time outlier_batch "low"
                  ltac:(vm_compute; lia))
        as (l & m & u & f & Hd & Hr & Hc).
      rewrite Hd2 in Hd. injection Hd as <-.
      rewrite H3, Hf3 in Hr. injection Hr as _ _ <-. now rewrite Hc.
Defined.

Lemma mean_const (v : R) (xs : list R) :
  (0 < length xs)%nat → (∀ x, x ∈ xs → x = v) → mean xs = Fin v.
Proof.
  intros Hlen Hall. unfold mean.
  destruct xs as [|x xs']; [cbn in Hlen; lia|].
  rewrite (sum_const v (x :: xs')) by assumption. f_equal. field.
  apply not_0_INR. cbn [length]. lia.
Qed.

(** The sample deviation of a constant series: undefined for one sample,
    zero otherwise. *)
Lemma std_const (v : R) (xs : list R) :
  (∀ x, x ∈ xs → x = v) → std xs = NaN ∨ std xs = Fin 0.
Proof.
  intros Hall. unfold std, var.
  destruct (decide (0 < length xs)%nat) as [Hlen|Hlen]; cycle 1.
  { destruct xs; [now left | cbn in Hlen; lia]. }
  rewrite (mean_const v) by assumption.
  destruct (bool_decide _); [now left | right]. cbn [fsqrt].
  rewrite sum_zero.
  - unfold Rdiv. now rewrite Rmult_0_l, sqrt_0.
  - intros y (x & -> & Hx)%list_elem_of_fmap. rewrite (Hall x Hx). lra.
Qed.

(** C10: when every record of a non-empty batch has the same response time
    (a single record included), the detector returns and reports no
    HIGH_RESPONSE_TIME anomaly: the deviation is zero, or undefined for one
    record, and no record lies strictly above the threshold. *)
Theorem constant_response_time_not_flagged (md : list MetricRecord)
    (sensitivity : string) (v : Z) :
  (0 < length md)%nat →
  (∀ r, r ∈ md → response_time_ms r = v) →
  ∃ l, _detect_anomalies md sensitivity = Ok l ∧
       filter (λ a, anomaly_type a = HIGH_RESPONSE_TIME) l = [].
Proof.
  intros Hlen Hall.
  destruct (detect_high_response_time md sensitivity Hlen)
    as (l & mu & upper & flagged & Hdet & Hrta & Hcount).
  exists l. split; [assumption|]. rewrite Hcount.
  rewrite response_time_anomalies_nonempty in Hrta by assumption.
  injection Hrta as _ _ <-. cbn [rows].
  rewrite filter_nil_of_none; [reflexivity|].
  intros r Hr. rewrite (Hall r Hr).
  set (col := IZR ∘ response_time_ms <$> md).
  assert (Hcol : ∀ x, x ∈ col → x = IZR v).
  { intros x (r' & -> & Hr')%list_elem_of_fmap. cbn. now rewrite (Hall r' Hr'). }
  rewrite (mean_const (IZR v)) by (unfold col; rewrite ?length_fmap; assumption).
  destruct (std_const (IZR v) col Hcol) as [-> | ->]; cbn.
  - discriminate.
  - rewrite bool_decide_eq_false_2 by lra. discriminate.
Qed.

Lemma constant_response_time_not_flagged_witness :
  ∃ l, _detect_anomalies
         [ {| task_id := "task0"; worker_id := "worker0";
              content_type := "text"; verification_method := "human";
              confidence_score := 0.9; response_time_ms := 250;
              is_accurate := true; timestamp := "2024-01-01T00:00:00" |} ]
         "high" = Ok l ∧
       filter (λ a, anomaly_type a = HIGH_RESPONSE_TIME) l = [].
Proof.
  apply (constant_response_time_not_flagged _ "high" 250%Z); [simpl; lia|].
  intros r Hr. apply list_elem_of_singleton in Hr. subst r. reflexivity.
Defined.

(** *** Accuracy per content type *)

Lemma content_type_row_filter (md : list MetricRecord) (ct key : string) :
  filter (λ a, anomaly_contentType a = Some ct)
         (content_type_row (stats_row md key))
  = if decide (key = ct) then content_type_row (stats_row md key) else [].
Proof.
  unfold content_type_row, stats_row.
  destruct (_ && _).
  - rewrite filter_cons. cbn [anomaly_contentType].
    destruct (decide (key = ct)) as [->|Hne].
    + now rewrite decide_True by reflexivity.
    + rewrite decide_False by congruence. reflexivity.
  - now destruct (decide (key = ct)).
Qed.

Lemma content_type_rows_filter (md : list MetricRecord) (ct : string)
    (keys : list string) :
  NoDup keys →
  filter (λ a, anomaly_contentType a = Some ct)
         (mjoin (content_type_row ∘ stats_row md <$> keys))
  = if decide (ct ∈ keys) then content_type_row (stats_row md ct) else [].
Proof.
  induction 1 as [|key keys Hnotin Hnodup IH].
  - now rewrite decide_False by apply not_elem_of_nil.
  - change (mjoin (content_type_row ∘ stats_row md <$> key :: keys))
      with (content_type_row (stats_row md key)
            ++ mjoin (content_type_row ∘ stats_row md <$> keys)).
    rewrite filter_app, IH, content_type_row_filter.
    destruct (decide (key = ct)) as [->|Hne].
    + rewrite (decide_False (P := ct ∈ keys)) by assumption.
      rewrite decide_True by left. apply app_nil_r.
    + destruct (decide (ct ∈ keys)) as [Hin|Hout].
      * rewrite decide_True by now right. reflexivity.
      * rewrite decide_False; [reflexivity|].
        intros [?|?]%elem_of_cons; congruence.
Qed.

(** The anomalies of a run that carry a given content type. *)
Lemma content_type_anomalies (md : list MetricRecord)
    (sensitivity ct : string) :
  (0 < length md)%nat →
  let g := group md ct in
  let acc := mean (of_bool ∘ is_accurate <$> g) in
  ∃ l, _detect_anomalies md sensitivity = Ok l ∧
    filter (λ a, anomaly_contentType a = Some ct) l
    = if bool_decide (10 ≤ length g)%nat && fltb acc (Fin 0.7)
      then [ContentTypeLowAccuracy ct acc (length g) 0.7
              (if fltb acc (Fin 0.5) then HIGH else MEDIUM)]
      else [].
Proof.
  intros Hlen g acc.
  destruct (detect_anomalies_nonempty md sensitivity Hlen)
    as (a1 & a2 & H1 & H2 & Hdet).
  destruct (response_time_check_nonempty md (sigma_threshold sensitivity) Hlen)
    as (mu & upper & flagged & _ & H1').
  rewrite H1' in H1. injection H1 as <-.
  rewrite accuracy_check_nonempty in H2 by assumption. injection H2 as <-.
  eexists. split; [exact Hdet|].
  rewrite !filter_app, content_type_rows_filter by apply NoDup_unique.
  rewrite (filter_nil_of_none _ (match rows flagged with [] => _ | _ => _ end));
    cycle 1.
  { intros a Ha. destruct (rows flagged); [now apply elem_of_nil in Ha|].
    apply list_elem_of_singleton in Ha as ->. discriminate. }
  rewrite (filter_nil_of_none _ (if fltb _ _ then _ else _)); cycle 1.
  { intros a Ha. destruct (fltb _ (Fin 0.75)); [|now apply elem_of_nil in Ha].
    apply list_elem_of_singleton in Ha as ->. discriminate. }
  cbn [app].
  destruct (decide (ct ∈ unique (content_type <$> md))) as [Hin|Hout].
  - reflexivity.
  - assert (Hg : g = []).
    { apply filter_nil_of_none. intros r Hr Hct. apply Hout.
      apply elem_of_unique, list_elem_of_fmap. eauto. }
    rewrite Hg. cbn [length].
    now rewrite bool_decide_eq_false_2 by lia.
Qed.

(** C7: for every content type, the run reports a CONTENT_TYPE_LOW_ACCURACY
    anomaly for it exactly when its group has at least 10 records and mean
    accuracy below 0.7, a single one, with severity HIGH when the mean is
    below 0.5 and MEDIUM otherwise; a group of fewer than 10 records is not
    reported whatever its accuracy. *)
Theorem content_type_low_accuracy_exact (md : list MetricRecord)
    (sensitivity ct : string) :
  (0 < length md)%nat →
  let g := group md ct in
  let acc := mean (of_bool ∘ is_accurate <$> g) in
  ∃ l, _detect_anomalies md sensitivity = Ok l ∧
    filter (λ a, anomaly_contentType a = Some ct) l
    = if bool_decide (10 ≤ length g)%nat && fltb acc (Fin 0.7)
      then [ContentTypeLowAccuracy ct acc (length g) 0.7
              (if fltb acc (Fin 0.5) then HIGH else MEDIUM)]
      else [].
Proof. apply content_type_anomalies. Qed.

Lemma content_type_low_accuracy_exact_witness :
  let r := {| task_id := "task0"; worker_id := "worker0";
              content_type := "video"; verification_method := "ai";
              confidence_score := 0.9; response_time_ms := 250;
              is_accurate := false; timestamp := "2024-01-01T00:00:00" |} in
  let g := group (replicate 9 r) "video" in
  let acc := mean (of_bool ∘ is_accurate <$> g) in
  ∃ l, _detect_anomalies (replicate 9 r) "medium" = Ok l ∧
    filter (λ a, anomaly_contentType a = Some "video") l
    = if bool_decide (10 ≤ length g)%nat && fltb acc (Fin 0.7)
      then [ContentTypeLowAccuracy "video" acc (length g) 0.7
              (if fltb acc (Fin 0.5) then HIGH else MEDIUM)]
      else [].
Proof.
  intros r. apply content_type_low_accuracy_exact. simpl. lia.
Defined.

(** The two cases the spec singles out: nine records at 0% accuracy are
    not reported; ten records at 40% accuracy are, with severity HIGH. *)
Example nine_records_never_flagged :
  ∃ l, _detect_anomalies (replicate 9 (sample "video" false)) "medium" = Ok l ∧
       filter (λ a, anomaly_contentType a = Some "video") l = [].
Proof.
  destruct (content_type_anomalies
              (replicate 9 (sample "video" false)) "medium" "video")
    as (l & Hdet & Hf); [simpl; lia|].
  exists l. split; [assumption|]. rewrite Hf. reflexivity.
Qed.

Example ten_records_at_40_percent_flagged_high :
  let md := replicate 4 (sample "image" true)
            ++ replicate 6 (sample "image" false) in
  ∃ l acc, _detect_anomalies md "medium" = Ok l ∧
       filter (λ a, anomaly_contentType a = Some "image") l
       = [ContentTypeLowAccuracy "image" (Fin acc) 10 0.7 HIGH] ∧ acc = 0.4.
Proof.
  intros md.
  destruct (content_type_anomalies md "medium" "image")
    as (l & Hdet & Hf); [simpl; lia|].
  exists l. eexists. split; [assumption|]. rewrite Hf.
  assert (Hg : group md "image" = md) by reflexivity. rewrite Hg.
  change (mean (of_bool ∘ is_accurate <$> md))
    with (Fin ((1 + (1 + (1 + (1 + (0 + (0 + (0 + (0 + (0 + (0 + 0))))))))))
               / INR 10)).
  assert (Hacc : (1 + (1 + (1 + (1 + (0 + (0 + (0 + (0 + (0 + (0 + 0))))))))))
                 / INR 10 = 0.4) by (simpl; lra).
  rewrite Hacc. cbn [fltb].
  rewrite !bool_decide_eq_true_2 by (simpl; lia || lra).
  split; reflexivity.
Qed.

End ThresholdProperties.

(** ** The model-based detector *)

Section ModelDetectorProperties.
Import ModelDetector.

(** [fit_transform] forgets whatever the scaler held: its result and the
    statistics it leaves are those of [X] alone. *)
Lemma StandardScaler_fit_transform_spec (X : Matrix) (sc : StandardScaler) :
  StandardScaler_fit_transform X sc
  = match scaling_of X with
    | Ok s => (Ok (scale_row s <$> X), Some s)
    | Raise e => (Raise e, None)
    end.
Proof.
  cbv [StandardScaler_fit_transform StandardScaler_fit StandardScaler_transform
       lift put get raise mbind Py_bind mret Py_ret].
  destruct X as [|row X']; reflexivity.
Qed.

(** What [preprocess_data] does to the two objects and what it returns. *)
Lemma preprocess_data_spec (o : Objects) :
  let acc := rolling_mean 10 (of_bool ∘ is_accurate <$> rows (frame o)) in
  let X := features (dropna (rows (frame o)) acc) in
  let df' := {| rows := rows (frame o); accuracy_rate := Some acc |} in
  preprocess_data o
  = match scaling_of X with
    | Ok s =>
        (Ok (scale_row s <$> X),
         {| self := {| model := model (self o); scaler := Some s |};
            frame := df' |})
    | Raise e =>
        (Raise e,
         {| self := {| model := model (self o); scaler := None |};
            frame := df' |})
    end.
Proof.
  intros acc X df'.
  change (preprocess_data o)
    with (let '(r, t) := StandardScaler_fit_transform X (scaler (self o)) in
          (r, {| self := {| model := model (self o); scaler := t |};
                 frame := df' |})).
  rewrite StandardScaler_fit_transform_spec.
  now destruct (scaling_of X).
Qed.

Lemma Py_bind_ok {S A B} (m : Py S A) (k : A → Py S B) (s s' : S) (a : A) :
  m s = (Ok a, s') → (m ≫= k) s = k a s'.
Proof. intros Hm. cbv [mbind Py_bind]. now rewrite Hm. Qed.

Lemma Py_bind_raise {S A B} (m : Py S A) (k : A → Py S B) (s s' : S) (e : exn) :
  m s = (Raise e, s') → (m ≫= k) s = (Raise e, s').
Proof. intros Hm. cbv [mbind Py_bind]. now rewrite Hm. Qed.

Lemma scaling_of_ok_nonempty (X : Matrix) (s : Scaling) :
  scaling_of X = Ok s → X ≠ [].
Proof. now destruct X. Qed.

Lemma scaling_of_raise (X : Matrix) (e : exn) :
  scaling_of X = Raise e → X = [] ∧ e = NoSamples "StandardScaler".
Proof. destruct X; [|discriminate]. now intros [= <-]. Qed.

Lemma predict_ok (m : IsolationForest) (f : Forest) (X : Matrix) :
  estimators_ m = Some f → X ≠ [] →
  predict m X
  = Ok ((λ x, if bool_decide (score_sample f x - offset_ f < 0)
              then (-1)%Z else 1%Z) <$> X).
Proof.
  intros Hf HX. unfold predict, IsolationForest_fitted. rewrite Hf.
  now destruct X.
Qed.

Lemma score_samples_ok (m : IsolationForest) (f : Forest) (X : Matrix) :
  estimators_ m = Some f → X ≠ [] →
  score_samples m X = Ok (score_sample f <$> X).
Proof.
  intros Hf HX. unfold score_samples, IsolationForest_fitted. rewrite Hf.
  now destruct X.
Qed.

(** The flag of a sample: its decision value is negative. *)
Lemma flags_of_predictions (f : Forest) (X : Matrix) :
  (λ p, bool_decide (p = (-1)%Z))
    <$> ((λ x, if bool_decide (score_sample f x - offset_ f < 0)
               then (-1)%Z else 1%Z) <$> X)
  = (λ x, bool_decide (score_sample f x - offset_ f < 0)) <$> X.
Proof.
  rewrite <- list_fmap_compose. apply list_fmap_ext. intros _ x _. cbn.
  now destruct (bool_decide (score_sample f x - offset_ f < 0)).
Qed.

(** A run of [detect_anomalies] with a fitted forest, when preprocessing
    leaves at least one row. *)
Lemma detect_anomalies_ok (o : Objects) (f : Forest) (s : Scaling) :
  let acc := rolling_mean 10 (of_bool ∘ is_accurate <$> rows (frame o)) in
  let X := features (dropna (rows (frame o)) acc) in
  estimators_ (model (self o)) = Some f →
  scaling_of X = Ok s →
  detect_anomalies o
  = (Ok ((λ x, bool_decide (score_sample f x - offset_ f < 0))
           <$> (scale_row s <$> X),
         score_sample f <$> (scale_row s <$> X)),
     {| self := {| model := model (self o); scaler := Some s |};
        frame := {| rows := rows (frame o); accuracy_rate := Some acc |} |}).
Proof.
  intros acc X Hf Hs. unfold detect_anomalies.
  erewrite Py_bind_ok; cycle 1.
  { rewrite preprocess_data_spec. fold acc. fold X. now rewrite Hs. }
  assert (HX : scale_row s <$> X ≠ []).
  { apply scaling_of_ok_nonempty in Hs. now destruct X. }
  cbv [mbind Py_bind get lift mret Py_ret]. cbn [self model].
  rewrite (predict_ok _ f), (score_samples_ok _ f) by assumption.
  now rewrite flags_of_predictions.
Qed.

(** When preprocessing leaves no row, the scaler refuses the empty matrix
    and [detect_anomalies] raises. *)
Lemma detect_anomalies_no_rows (o : Objects) :
  let acc := rolling_mean 10 (of_bool ∘ is_accurate <$> rows (frame o)) in
  features (dropna (rows (frame o)) acc) = [] →
  detect_anomalies o
  = (Raise (NoSamples "StandardScaler"),
     {| self := {| model := model (self o); scaler := None |};
        frame := {| rows := rows (frame o); accuracy_rate := Some acc |} |}).
Proof.
  intros acc HX. unfold detect_anomalies.
  erewrite Py_bind_raise; [reflexivity|].
  rewrite preprocess_data_spec. fold acc. now rewrite HX.
Qed.

(** *** The rolling window *)

Lemma dropna_cons (r : Row) (rs : list Row) (a : fnum) (acc : list fnum) :
  dropna (r :: rs) (a :: acc)
  = match a with
    | Fin x => (r, x) :: dropna rs acc
    | NaN => dropna rs acc
    end.
Proof. now destruct a. Qed.

Lemma dropna_window (w k : nat) (v : nat → R) (rs : list Row) :
  fst <$> dropna rs ((λ i, if bool_decide (w ≤ S i)%nat then Fin (v i) else NaN)
                       <$> seq k (length rs))
  = drop (w - 1 - k) rs.
Proof.
  revert k. induction rs as [|r rs IH]; intros k.
  - now rewrite drop_nil.
  - cbn [length seq]. rewrite fmap_cons, dropna_cons.
    destruct (bool_decide_reflect (w ≤ S k)%nat) as [Hle|Hgt].
    + rewrite fmap_cons, IH. cbn [fst].
      replace (w - 1 - k)%nat with 0%nat by lia.
      replace (w - 1 - S k)%nat with 0%nat by lia. reflexivity.
    + rewrite IH.
      replace (w - 1 - k)%nat with (S (w - 1 - S k)) by lia. reflexivity.
Qed.

(** Preprocessing keeps the records from position 9 on: the first
    window - 1 = 9 records have no full trailing window and are dropped. *)
Lemma dropna_rolling_mean (rs : list Row) :
  fst <$> dropna rs (rolling_mean 10 (of_bool ∘ is_accurate <$> rs)) = drop 9 rs.
Proof.
  unfold rolling_mean. rewrite length_fmap.
  apply (dropna_window 10 0
           (λ i, sum (take 10 (drop (S i - 10) (of_bool ∘ is_accurate <$> rs)))
                 / INR 10)).
Qed.

Lemma features_length (clean : list (Row * R)) :
  length (features clean) = length clean.
Proof. unfold features. apply length_fmap. Qed.

Lemma features_rolling_length (rs : list Row) :
  length (features (dropna rs (rolling_mean 10 (of_bool ∘ is_accurate <$> rs))))
  = (length rs - 9)%nat.
Proof.
  rewrite features_length, <- (length_fmap fst), dropna_rolling_mean.
  apply length_drop.
Qed.

Lemma detect_anomalies_full_window (o : Objects) (f : Forest) :
  estimators_ (model (self o)) = Some f →
  (10 ≤ length (rows (frame o)))%nat →
  let clean := dropna (rows (frame o))
                 (rolling_mean 10 (of_bool ∘ is_accurate <$> rows (frame o))) in
  ∃ s flags scores o',
    scaling_of (features clean) = Ok s ∧
    detect_anomalies o = (Ok (flags, scores), o') ∧
    scores = score_sample f <$> (scale_row s <$> features clean) ∧
    length flags = (length (rows (frame o)) - 9)%nat ∧
    length scores = (length (rows (frame o)) - 9)%nat.
Proof.
  intros Hf Hn clean.
  pose proof (features_rolling_length (rows (frame o))) as Hlen. fold clean in Hlen.
  destruct (scaling_of (features clean)) as [s|e] eqn:Hs; cycle 1.
  { apply scaling_of_raise in Hs as [HX _]. rewrite HX in Hlen. cbn in Hlen. lia. }
  eexists s, _, _, _. split; [reflexivity|].
  split; [exact (detect_anomalies_ok o f s Hf Hs)|].
  split; [reflexivity|]. rewrite !length_fmap. fold clean. lia.
Qed.

Lemma detect_anomalies_short (o : Objects) :
  (length (rows (frame o)) < 10)%nat →
  fst (detect_anomalies o) = Raise (NoSamples "StandardScaler").
Proof.
  intros Hn. rewrite detect_anomalies_no_rows; [reflexivity|].
  apply length_zero_iff_nil. rewrite features_rolling_length. lia.
Qed.

(** C4, as stated, fails twice over: ten records are fewer than window + 1
    and still give one flag and one score, and three records give an error,
    not an empty output. *)
Lemma short_batch_counterexample :
  let d := {| model := flat_forest; scaler := None |} in
  (∃ flags scores o',
     detect_anomalies {| self := d; frame := pd_DataFrame (replicate 10 (sample 250)) |}
     = (Ok (flags, scores), o') ∧
     (length (replicate 10 (sample 250)) < 10 + 1)%nat ∧
     length flags = 1%nat ∧ length scores = 1%nat)
  ∧ (length (replicate 3 (sample 250)) < 10 + 1)%nat
  ∧ fst (detect_anomalies {| self := d; frame := pd_DataFrame (replicate 3 (sample 250)) |})
    = Raise (NoSamples "StandardScaler").
Proof.
  intros d. split; [|split].
  - destruct (detect_anomalies_full_window
                {| self := d; frame := pd_DataFrame (replicate 10 (sample 250)) |}
                {| score_sample := λ _, 0; offset_ := - 0.5 |})
      as (s & flags & scores & o' & _ & Hrun & _ & Hflags & Hscores).
    + reflexivity.
    + cbn. lia.
    + exists flags, scores, o'. split; [exact Hrun|].
      split; [cbn; lia|]. split; assumption.
  - cbn. lia.
  - apply detect_anomalies_short. cbn. lia.
Qed.

(** C4, amended: with window 10, preprocessing drops exactly the first
    window - 1 = 9 records; a batch of n >= 10 records (ten included) is
    scored and yields n - 9 flags and n - 9 scores; a batch of fewer than 10
    records leaves no row and scoring raises (the scaler refuses an empty
    matrix) instead of returning an empty output. *)
Theorem detect_anomalies_window (o : Objects) (f : Forest) :
  estimators_ (model (self o)) = Some f →
  let n := length (rows (frame o)) in
  let clean := dropna (rows (frame o))
                 (rolling_mean 10 (of_bool ∘ is_accurate <$> rows (frame o))) in
  fst <$> clean = drop 9 (rows (frame o)) ∧
  ((10 ≤ n)%nat →
     ∃ s flags scores o',
       scaling_of (features clean) = Ok s ∧
       detect_anomalies o = (Ok (flags, scores), o') ∧
       scores = score_sample f <$> (scale_row s <$> features clean) ∧
       length flags = (n - 9)%nat ∧ length scores = (n - 9)%nat) ∧
  ((n < 10)%nat → fst (detect_anomalies o) = Raise (NoSamples "StandardScaler")).
Proof.
  intros Hf n clean. split; [apply dropna_rolling_mean|]. split.
  - intros Hn. now apply detect_anomalies_full_window.
  - apply detect_anomalies_short.
Qed.

Lemma detect_anomalies_window_witness :
  let o := {| self := {| model := flat_forest; scaler := None |};
              frame := pd_DataFrame (replicate 12 (sample 250)) |} in
  let n := length (rows (frame o)) in
  let clean := dropna (rows (frame o))
                 (rolling_mean 10 (of_bool ∘ is_accurate <$> rows (frame o))) in
  fst <$> clean = drop 9 (rows (frame o)) ∧
  ((10 ≤ n)%nat →
     ∃ s flags scores o',
       scaling_of (features clean) = Ok s ∧
       detect_anomalies o = (Ok (flags, scores), o') ∧
       scores = score_sample {| score_sample := λ _, 0; offset_ := - 0.5 |}
                  <$> (scale_row s <$> features clean) ∧
       length flags = (n - 9)%nat ∧ length scores = (n - 9)%nat) ∧
  ((n < 10)%nat → fst (detect_anomalies o) = Raise (NoSamples "StandardScaler")).
Proof.
  intros o. apply (detect_anomalies_window o). reflexivity.
Defined.

(** *** What the calls leave in the caller's frame *)

Lemma train_spec (fit : R → Matrix → Forest) (o : Objects) :
  let acc := rolling_mean 10 (of_bool ∘ is_accurate <$> rows (frame o)) in
  let X := features (dropna (rows (frame o)) acc) in
  let df' := {| rows := rows (frame o); accuracy_rate := Some acc |} in
  let c := contamination (model (self o)) in
  train fit o
  = match scaling_of X with
    | Ok s =>
        if bool_decide (0 < c) && bool_decide (c <= 0.5) then
          (Ok (),
           {| self := {| model := {| contamination := c;
                                     estimators_ := Some (fit c (scale_row s <$> X)) |};
                         scaler := Some s |};
              frame := df' |})
        else
          (Raise (InvalidParameterError "IsolationForest" "contamination"),
           {| self := {| model := model (self o); scaler := Some s |};
              frame := df' |})
    | Raise e =>
        (Raise e,
         {| self := {| model := model (self o); scaler := None |};
            frame := df' |})
    end.
Proof.
  intros acc X df' c. unfold train.
  pose proof (preprocess_data_spec o) as Hpre. cbv zeta in Hpre.
  fold acc in Hpre. fold X in Hpre. fold df' in Hpre.
  destruct (scaling_of X) as [s|e].
  - erewrite Py_bind_ok by exact Hpre.
    cbv [mbind Py_bind get]. cbn [self model]. fold c.
    now destruct (bool_decide (0 < c) && bool_decide (c <= 0.5)).
  - now erewrite Py_bind_raise by exact Hpre.
Qed.

Lemma detect_anomalies_frame (o : Objects) :
  frame (snd (detect_anomalies o))
  = {| rows := rows (frame o);
       accuracy_rate :=
         Some (rolling_mean 10 (of_bool ∘ is_accurate <$> rows (frame o))) |}.
Proof.
  unfold detect_anomalies.
  pose proof (preprocess_data_spec o) as Hpre. cbv zeta in Hpre.
  destruct (scaling_of _) as [s|e].
  - erewrite Py_bind_ok by exact Hpre.
    cbv [mbind Py_bind get lift mret Py_ret].
    destruct (predict _ _); [|reflexivity].
    now destruct (score_samples _ _).
  - now erewrite Py_bind_raise by exact Hpre.
Qed.

Lemma train_frame (fit : R → Matrix → Forest) (o : Objects) :
  frame (snd (train fit o))
  = {| rows := rows (frame o);
       accuracy_rate :=
         Some (rolling_mean 10 (of_bool ∘ is_accurate <$> rows (frame o))) |}.
Proof.
  pose proof (train_spec fit o) as Htrain. cbv zeta in Htrain. rewrite Htrain.
  destruct (scaling_of _); [|reflexivity].
  now destruct (bool_decide _ && bool_decide _).
Qed.

(** C9, as stated, fails for the model-based detector: after scoring, the
    caller's frame is not the frame that was passed, it has gained an
    [accuracy_rate] column; and a frame that came with such a column has it
    overwritten. *)
Lemma model_detector_mutates_frame :
  let d := {| model := flat_forest; scaler := None |} in
  let df := pd_DataFrame (replicate 10 (sample 250)) in
  let df2 := {| rows := [sample 250]; accuracy_rate := Some [Fin 1] |} in
  frame (snd (detect_anomalies {| self := d; frame := df |})) ≠ df
  ∧ accuracy_rate (frame (snd (detect_anomalies {| self := d; frame := df2 |})))
    = Some [NaN]
  ∧ Some [NaN] ≠ accuracy_rate df2.
Proof.
  intros d df df2. rewrite !detect_anomalies_frame. split; [|split].
  - discriminate.
  - reflexivity.
  - discriminate.
Qed.

(** C9, amended: the threshold detector leaves its input batch as it was.
    The model-based detector's [train] and [detect_anomalies] leave every
    record of the caller's frame as it was (same rows, same order) and
    assign one column in place: [accuracy_rate], the rolling mean of
    [is_accurate] over 10 records, added or overwritten. *)
Theorem detectors_effect_on_input (fit : R → Matrix → Forest) (o : Objects)
    (sensitivity : string) (md : list Threshold.MetricRecord) :
  let acc := rolling_mean 10 (of_bool ∘ is_accurate <$> rows (frame o)) in
  snd (Threshold.detect sensitivity md) = md
  ∧ rows (frame (snd (train fit o))) = rows (frame o)
  ∧ accuracy_rate (frame (snd (train fit o))) = Some acc
  ∧ rows (frame (snd (detect_anomalies o))) = rows (frame o)
  ∧ accuracy_rate (frame (snd (detect_anomalies o))) = Some acc.
Proof.
  intros acc. rewrite train_frame, detect_anomalies_frame.
  repeat split.
Qed.

Lemma rmean_single (a : R) : rmean [a] = a.
Proof. unfold rmean, sum. cbn. field. Qed.

Lemma pvar_single (a : R) : pvar [a] = 0.
Proof. unfold pvar. rewrite rmean_single. unfold sum. cbn. field. Qed.

(** A column of variance zero is under the scaler's constant mask. *)
Lemma is_constant_feature_zero (m : R) (n : nat) :
  is_constant_feature 0 m n = true.
Proof.
  unfold is_constant_feature. apply bool_decide_eq_true_2.
  rewrite Rmult_0_r, Rplus_0_l. apply pow2_ge_0.
Qed.

Lemma scaling_of_single (a b c d : R) :
  scaling_of [[a; b; c; d]]
  = Ok {| mean_ := [a; b; c; d]; var_ := [0; 0; 0; 0]; scale_ := [1; 1; 1; 1] |}.
Proof.
  unfold scaling_of. cbn [length seq fmap list_fmap column nth].
  rewrite !rmean_single, !pvar_single, !is_constant_feature_zero. reflexivity.
Qed.

Lemma features_ten (x : R) :
  features (dropna (replicate 10 (sample x))
              (rolling_mean 10 (of_bool ∘ is_accurate <$> replicate 10 (sample x))))
  = [[x; 0.5; 1; 1]].
Proof. vm_compute. repeat f_equal. lra. Qed.

(** Training on ten records with the default contamination succeeds. *)
Lemma train_ten_samples (fit : R → Matrix → Forest) (x : R) :
  fst (train fit {| self := init 0.1;
                    frame := pd_DataFrame (replicate 10 (sample x)) |}) = Ok ().
Proof.
  pose proof (train_spec fit {| self := init 0.1;
                frame := pd_DataFrame (replicate 10 (sample x)) |}) as Htrain.
  cbv zeta in Htrain.
  cbn [frame rows pd_DataFrame self model init contamination] in Htrain.
  rewrite features_ten, scaling_of_single in Htrain.
  rewrite !bool_decide_eq_true_2 in Htrain by lra.
  now rewrite Htrain.
Qed.

(** *** Saving and loading the model *)

(** Scoring reads only the forest of the detector and the records of the
    frame: the scaler held before the call and an [accuracy_rate] column
    already present play no part. *)
Lemma detect_anomalies_ext (o o' : Objects) :
  model (self o) = model (self o') → rows (frame o) = rows (frame o') →
  detect_anomalies o = detect_anomalies o'.
Proof.
  intros Hm Hr.
  assert (Hpre : preprocess_data o = preprocess_data o').
  { rewrite !preprocess_data_spec. cbv zeta. now rewrite Hm, Hr. }
  unfold detect_anomalies. cbv [mbind Py_bind]. now rewrite Hpre.
Qed.

(** C5: scoring a batch with the detector that was just trained, and
    scoring it in the handler with the model that the training script saved
    and the handler loaded, give the same flags and scores (or the same
    error), and the handler's response is built from them. *)
Theorem save_load_round_trip
    (fit : R → Matrix → Forest) (Artifact : Type)
    (joblib_dump : IsolationForest → Artifact)
    (joblib_load : Artifact → result IsolationForest)
    (train_df batch : DataFrame) (event : Event)
    (s3 : gmap (string * string) Artifact) (o1 : Objects) :
  (∀ m, joblib_load (joblib_dump m) = Ok m) →
  train fit {| self := init 0.1; frame := train_df |} = (Ok (), o1) →
  rows batch = verification_data event →
  let direct := detect_anomalies {| self := self o1; frame := batch |} in
  ∃ s3' o2,
    train_anomaly_detector fit Artifact joblib_dump train_df
      (model_bucket event) (model_key event) s3 = (Ok (), s3') ∧
    loaded_detector Artifact joblib_load event s3' = Ok o2 ∧
    fst (detect_anomalies o2) = fst direct ∧
    handle Artifact joblib_load event s3'
    = match direct with
      | (Ok (anomalies, scores), o') => response_data (frame o') anomalies scores
      | (Raise e, _) => Raise e
      end.
Proof.
  intros Hround Htrain Hrows direct.
  set (s3' := <[(model_bucket event, model_key event)
                := joblib_dump (model (self o1))]> s3).
  set (o2 := {| self := {| model := model (self o1); scaler := None |};
                frame := pd_DataFrame (verification_data event) |}).
  assert (Hload : loaded_detector Artifact joblib_load event s3' = Ok o2).
  { unfold loaded_detector, s3'. rewrite lookup_insert_eq.
    now rewrite Hround. }
  assert (Hsame : detect_anomalies o2 = direct).
  { apply detect_anomalies_ext; [reflexivity | symmetry; exact Hrows]. }
  exists s3', o2. split; [|split; [|split]].
  - unfold train_anomaly_detector. now rewrite Htrain.
  - exact Hload.
  - now rewrite Hsame.
  - unfold handle. rewrite Hload. cbn [mbind result_bind]. now rewrite Hsame.
Qed.

Lemma save_load_round_trip_witness :
  let trained :=
    train flat_fit {| self := init 0.1;
                      frame := pd_DataFrame (replicate 10 (sample 100)) |} in
  let direct :=
    detect_anomalies {| self := self (snd trained);
                        frame := pd_DataFrame (replicate 10 (sample 200)) |} in
  ∃ s3' o2,
    train_anomaly_detector flat_fit IsolationForest (λ m, m)
      (pd_DataFrame (replicate 10 (sample 100)))
      (model_bucket sample_event) (model_key sample_event) ∅ = (Ok (), s3') ∧
    loaded_detector IsolationForest Ok sample_event s3' = Ok o2 ∧
    fst (detect_anomalies o2) = fst direct ∧
    handle IsolationForest Ok sample_event s3'
    = match direct with
      | (Ok (anomalies, scores), o') => response_data (frame o') anomalies scores
      | (Raise e, _) => Raise e
      end.
Proof.
  intros trained.
  apply (save_load_round_trip flat_fit IsolationForest (λ m, m) Ok
           (pd_DataFrame (replicate 10 (sample 100)))
           (pd_DataFrame (replicate 10 (sample 200)))
           sample_event ∅ (snd trained)).
  - reflexivity.
  - apply injective_projections;
      [apply (train_ten_samples flat_fit 100) | reflexivity].
  - reflexivity.
Defined.

(** When training raises, the script stops before anything is saved. *)
Lemma train_failure_saves_nothing
    (fit : R → Matrix → Forest) (Artifact : Type)
    (joblib_dump : IsolationForest → Artifact) (train_df : DataFrame)
    (bucket key : string) (s3 : gmap (string * string) Artifact)
    (e : exn) (o : Objects) :
  train fit {| self := init 0.1; frame := train_df |} = (Raise e, o) →
  train_anomaly_detector fit Artifact joblib_dump train_df bucket key s3
  = (Raise e, s3).
Proof. intros Htrain. unfold train_anomaly_detector. now rewrite Htrain. Qed.

(** *** The scaler at scoring time *)

(** Whatever statistics the detector holds when [detect_anomalies] is
    called, the samples given to the forest are standardized with the
    statistics of the scoring batch, and these replace the ones held. *)
Lemma detect_anomalies_scaler (o : Objects) :
  let X := features (dropna (rows (frame o))
             (rolling_mean 10 (of_bool ∘ is_accurate <$> rows (frame o)))) in
  scaler (self (snd (detect_anomalies o)))
  = match scaling_of X with Ok s => Some s | Raise _ => None end.
Proof.
  intros X. unfold detect_anomalies.
  pose proof (preprocess_data_spec o) as Hpre. cbv zeta in Hpre. fold X in Hpre.
  destruct (scaling_of X) as [s|e].
  - erewrite Py_bind_ok by exact Hpre.
    cbv [mbind Py_bind get lift mret Py_ret].
    destruct (predict _ _); [|reflexivity].
    now destruct (score_samples _ _).
  - now erewrite Py_bind_raise by exact Hpre.
Qed.

(** C1 fails on the code. Train on ten records with response time 100, then
    score ten records with response time 200. Training leaves the mean 100
    in the scaler; scoring overwrites it with the mean 200 of the scoring
    batch and gives the forest the sample standardized by the batch's own
    statistics, the zero vector, where the training statistics would have
    given a sample with first coordinate 100. *)
Theorem scoring_refits_scaler (fit : R → Matrix → Forest) :
  let train_df := pd_DataFrame (replicate 10 (sample 100)) in
  let batch := pd_DataFrame (replicate 10 (sample 200)) in
  ∃ o1 o2 sA flags scores,
    train fit {| self := init 0.1; frame := train_df |} = (Ok (), o1) ∧
    scaler (self o1) = Some sA ∧
    mean_ sA = [100; 0.5; 1; 1] ∧
    detect_anomalies {| self := self o1; frame := batch |}
    = (Ok (flags, scores), o2) ∧
    (mean_ <$> scaler (self o2)) = Some [200; 0.5; 1; 1] ∧
    scores = [score_sample (fit 0.1 [[0; 0; 0; 0]]) [0; 0; 0; 0]] ∧
    scale_row sA [200; 0.5; 1; 1] = [100; 0; 0; 0].
Proof.
  intros train_df batch.
  assert (Hzero : ∀ x, scale_row
            {| mean_ := [x; 0.5; 1; 1]; var_ := [0; 0; 0; 0];
               scale_ := [1; 1; 1; 1] |} [x; 0.5; 1; 1] = [0; 0; 0; 0]).
  { intros x. cbn. repeat f_equal; lra. }
  pose proof (train_spec fit {| self := init 0.1; frame := train_df |}) as Htrain.
  cbv zeta in Htrain. cbn [frame rows train_df pd_DataFrame self model init
                           contamination] in Htrain.
  rewrite features_ten, scaling_of_single in Htrain.
  cbn [fmap list_fmap] in Htrain. rewrite Hzero in Htrain.
  rewrite !bool_decide_eq_true_2 in Htrain by lra. cbn [andb] in Htrain.
  eexists _, _, _, _, _. split; [exact Htrain|]. cbn [self scaler model].
  split; [reflexivity|]. split; [reflexivity|].
  split.
  { etransitivity.
    - eapply (detect_anomalies_ok _ (fit 0.1 [[0; 0; 0; 0]])); [reflexivity|].
      cbn [frame rows batch pd_DataFrame].
      rewrite features_ten. apply scaling_of_single.
    - reflexivity. }
  cbn [self scaler fmap option_fmap option_map mean_].
  split; [reflexivity|]. split.
  - cbn [frame rows batch pd_DataFrame]. rewrite features_ten.
    cbn [fmap list_fmap]. now rewrite Hzero.
  - cbn. repeat f_equal; lra.
Qed.

End ModelDetectorProperties.

(** ** The task router *)

Section RouterProperties.
Import Router.

Lemma index_of_seen (classes : list string) (v : string) :
  v ∈ classes → ∃ i, index_of classes v = Ok i.
Proof.
  intros Hin. unfold index_of.
  destruct (list_find_elem_of (λ c, c = v) classes v Hin eq_refl)
    as [[i c] Hfind].
  rewrite Hfind. eauto.
Qed.

Lemma index_of_unseen (classes : list string) (v : string) :
  v ∉ classes → index_of classes v = Raise (UnseenLabels v).
Proof.
  intros Hout. unfold index_of.
  destruct (list_find _ classes) as [[i c]|] eqn:Hfind; [|reflexivity].
  apply list_find_Some in Hfind as (Hc%list_elem_of_lookup_2 & -> & _).
  contradiction.
Qed.

Lemma transform_all_seen (classes values : list string) :
  (∀ v, v ∈ values → v ∈ classes) →
  ∃ codes, LabelEncoder_transform {| le_classes_ := classes |} values = Ok codes.
Proof.
  unfold LabelEncoder_transform. cbn [le_classes_].
  induction values as [|v values IH]; intros Hall.
  - now exists [].
  - destruct (index_of_seen classes v) as [i Hi]; [apply Hall; left|].
    destruct IH as [codes Hcodes]; [intros w Hw; apply Hall; now right|].
    exists (i :: codes). cbn [mapM]. rewrite Hi. cbn [mbind result_bind].
    now rewrite Hcodes.
Qed.

Lemma transform_one_seen (enc : LabelEncoder) (v : string) :
  v ∈ le_classes_ enc → ∃ i, LabelEncoder_transform enc [v] = Ok [i].
Proof.
  intros Hin. destruct (index_of_seen _ v Hin) as [i Hi]. exists i.
  unfold LabelEncoder_transform. cbn [mapM]. now rewrite Hi.
Qed.

Lemma transform_one_unseen (enc : LabelEncoder) (v : string) :
  v ∉ le_classes_ enc → LabelEncoder_transform enc [v] = Raise (UnseenLabels v).
Proof.
  intros Hout. unfold LabelEncoder_transform. cbn [mapM].
  now rewrite index_of_unseen.
Qed.

(** Fitting an encoder on a column never fails, and its classes are the
    distinct values of the column. *)
Lemma LabelEncoder_fit_transform_ok (values : list string) :
  ∃ codes, LabelEncoder_fit_transform values
           = Ok ({| le_classes_ := unique values |}, codes).
Proof.
  unfold LabelEncoder_fit_transform.
  destruct (transform_all_seen (unique values) values) as [codes Hcodes].
  { intros v Hv. now apply elem_of_unique. }
  exists codes. now rewrite Hcodes.
Qed.

(** What a successful [train] leaves in the router: the two encoders of the
    categorical feature columns, stored under the column names, a fitted
    scaler and a fitted forest. Nothing is stored under any other key. *)
Lemma train_ok_inv (fit : Matrix → list string → result Classifier)
    (data : list TrainingRow) (r0 r : TaskRouter) :
  train fit data r0 = (Ok (), r) →
  label_encoders r
  = <["verification_method" :=
        {| le_classes_ := unique (verification_method ∘ task <$> data) |}]>
      (<["content_type" :=
           {| le_classes_ := unique (content_type ∘ task <$> data) |}]>
         (label_encoders r0))
  ∧ (∃ s, scaler r = Some s) ∧ (∃ m, model r = Some m).
Proof.
  destruct (LabelEncoder_fit_transform_ok (content_type ∘ task <$> data))
    as [ct Hct].
  destruct (LabelEncoder_fit_transform_ok (verification_method ∘ task <$> data))
    as [vm Hvm].
  cbv [train preprocess_data encode_column mbind Py_bind lift modify mret
       Py_ret zoom].
  rewrite Hct, Hvm, StandardScaler_fit_transform_spec.
  destruct (scaling_of _) as [s|e]; [|discriminate].
  destruct (fit _ _) as [m|e]; [|discriminate].
  intros [= <-]. cbn. eauto.
Qed.

Lemma train_ok_lookup (fit : Matrix → list string → result Classifier)
    (data : list TrainingRow) (r0 r : TaskRouter) :
  train fit data r0 = (Ok (), r) →
  label_encoders r !! "content_type"
  = Some {| le_classes_ := unique (content_type ∘ task <$> data) |}
  ∧ label_encoders r !! "verification_method"
    = Some {| le_classes_ := unique (verification_method ∘ task <$> data) |}
  ∧ label_encoders r !! target_column = label_encoders r0 !! target_column.
Proof.
  intros Htrain.
  destruct (train_ok_inv fit data r0 r Htrain) as (-> & _ & _).
  split; [|split].
  - now rewrite lookup_insert_ne, lookup_insert_eq.
  - now rewrite lookup_insert_eq.
  - now rewrite !lookup_insert_ne.
Qed.

Lemma transform_fitted (s : Scaling) (row : list R) :
  fst (StandardScaler_transform [row] (Some s)) = Ok [scale_row s row].
Proof. reflexivity. Qed.

(** C2 fails on the code: a trained router has no encoder stored under
    ['best_worker'], so for a task whose categorical values were seen in
    training [predict_worker] passes the encoding, scaling and probability
    steps and then raises a KeyError instead of returning a ranked list. *)
Theorem predict_worker_trained_raises
    (np_argsort : list R → list nat)
    (fit : Matrix → list string → result Classifier)
    (data : list TrainingRow) (r0 r : TaskRouter) (task_features : TaskFeatures) :
  label_encoders r0 !! target_column = None →
  train fit data r0 = (Ok (), r) →
  content_type task_features ∈ (content_type ∘ task <$> data) →
  verification_method task_features ∈ (verification_method ∘ task <$> data) →
  predict_worker np_argsort r task_features = Raise (KeyError "best_worker").
Proof.
  intros Hnone Htrain Hct Hvm.
  destruct (train_ok_inv fit data r0 r Htrain) as (_ & [s Hs] & [m Hm]).
  destruct (train_ok_lookup fit data r0 r Htrain) as (Hect & Hevm & Hetarget).
  unfold predict_worker, dict_getitem. rewrite Hect, Hevm, Hetarget, Hs, Hm.
  cbn [mbind result_bind].
  destruct (transform_one_seen
              {| le_classes_ := unique (content_type ∘ task <$> data) |}
              (content_type task_features)) as [i Hi];
    [now apply elem_of_unique|].
  destruct (transform_one_seen
              {| le_classes_ := unique (verification_method ∘ task <$> data) |}
              (verification_method task_features)) as [j Hj];
    [now apply elem_of_unique|].
  rewrite Hi. cbn [mbind result_bind]. rewrite Hj. cbn [mbind result_bind].
  rewrite transform_fitted. cbn [mbind result_bind].
  now rewrite Hnone.
Qed.

Lemma predict_worker_trained_raises_witness :
  predict_worker insertion_argsort
    (snd (train even_fit sample_training init)) text_task
  = Raise (KeyError "best_worker").
Proof.
  apply (predict_worker_trained_raises insertion_argsort
           even_fit sample_training init).
  - reflexivity.
  - reflexivity.
  - vm_compute. left.
  - vm_compute. left.
Defined.

(** C8: when the content type or the verification method of the task was
    not seen in training, [predict_worker] raises the encoder's
    unseen-label error for that value and returns no prediction. *)
Theorem predict_worker_unseen_category
    (np_argsort : list R → list nat)
    (fit : Matrix → list string → result Classifier)
    (data : list TrainingRow) (r0 r : TaskRouter) (task_features : TaskFeatures) :
  train fit data r0 = (Ok (), r) →
  content_type task_features ∉ (content_type ∘ task <$> data)
  ∨ verification_method task_features ∉ (verification_method ∘ task <$> data) →
  ∃ v, predict_worker np_argsort r task_features = Raise (UnseenLabels v)
       ∧ is_EncodingError (UnseenLabels v) = true
       ∧ (v = content_type task_features
          ∨ v = verification_method task_features).
Proof.
  intros Htrain Hunseen.
  destruct (train_ok_lookup fit data r0 r Htrain) as (Hect & Hevm & _).
  unfold predict_worker, dict_getitem. rewrite Hect, Hevm.
  cbn [mbind result_bind].
  destruct (decide (content_type task_features
                    ∈ (content_type ∘ task <$> data))) as [Hct|Hct].
  - destruct Hunseen as [?|Hvm]; [contradiction|].
    destruct (transform_one_seen
                {| le_classes_ := unique (content_type ∘ task <$> data) |}
                (content_type task_features)) as [i Hi];
      [now apply elem_of_unique|].
    rewrite Hi. cbn [mbind result_bind].
    rewrite transform_one_unseen
      by (cbn [le_classes_]; rewrite elem_of_unique; assumption).
    eauto.
  - rewrite (transform_one_unseen _ (content_type task_features))
      by (cbn [le_classes_]; rewrite elem_of_unique; assumption).
    eauto.
Qed.

Lemma predict_worker_unseen_category_witness :
  ∃ v, predict_worker insertion_argsort
         (snd (train even_fit sample_training init)) video_task
       = Raise (UnseenLabels v)
       ∧ is_EncodingError (UnseenLabels v) = true
       ∧ (v = content_type video_task ∨ v = verification_method video_task).
Proof.
  apply (predict_worker_unseen_category insertion_argsort
           even_fit sample_training init).
  - reflexivity.
  - left. vm_compute. intros H. inversion H as [|? ? ? H']; subst.
    inversion H' as [|? ? ? H'']; subst. inversion H''.
Defined.

End RouterProperties.

(** ** More on the threshold detector *)

Section ThresholdConfiguration.
Import Threshold.

Lemma lower_ascii_idempotent (c : ascii) :
  lower_ascii (lower_ascii c) = lower_ascii c.
Proof. destruct c as [[] [] [] [] [] [] [] []]; reflexivity. Qed.

Lemma lower_idempotent (s : string) : lower (lower s) = lower s.
Proof.
  induction s as [|c s IH]; [reflexivity|].
  cbn [lower]. now rewrite lower_ascii_idempotent, IH.
Qed.

(** The two tables read alike: each sensitivity string selects one of three
    (lookback, sigma) pairs by its lower-case form, anything that is not
    low or high selecting the pair of medium. *)
Lemma sensitivity_cases (sensitivity : string) :
  (lower sensitivity = "low"
   ∧ _get_lookback_hours sensitivity = 24%nat ∧ sigma_threshold sensitivity = 3)
  ∨ (lower sensitivity = "high"
     ∧ _get_lookback_hours sensitivity = 4%nat ∧ sigma_threshold sensitivity = 2)
  ∨ (lower sensitivity ≠ "low" ∧ lower sensitivity ≠ "high"
     ∧ _get_lookback_hours sensitivity = 12%nat
     ∧ sigma_threshold sensitivity = 2.5).
Proof.
  unfold _get_lookback_hours, sigma_threshold.
  destruct (decide (lower sensitivity = "low")) as [->|Hlow].
  { left. split; [reflexivity|]. split; [reflexivity|]. vm_compute. lra. }
  destruct (decide (lower sensitivity = "high")) as [->|Hhigh].
  { right; left. split; [reflexivity|]. split; [reflexivity|]. vm_compute. lra. }
  right; right. split; [assumption|]. split; [assumption|].
  destruct (decide (lower sensitivity = "medium")) as [->|Hmedium].
  { split; reflexivity. }
  unfold sensitivity_map, threshold_map.
  rewrite !lookup_insert_ne, !lookup_singleton_ne by congruence.
  split; reflexivity.
Qed.

(** X1: the sensitivity is read case-insensitively by both tables, and they
    are consistent with each other: a sensitivity with a shorter lookback
    never has a larger sigma multiplier. Every sigma multiplier is at least
    2 and every lookback at least 4 hours. A string whose lower-case form
    is low selects (24 hours, 3 sigma), one whose lower-case form is high
    selects (4 hours, 2 sigma), and every other string, medium and unknown
    values alike, selects medium's pair (12 hours, 2.5 sigma) in both
    tables. *)
Theorem sensitivity_tables_consistent (s1 s2 : string) :
  _get_lookback_hours (lower s1) = _get_lookback_hours s1
  ∧ sigma_threshold (lower s1) = sigma_threshold s1
  ∧ ((_get_lookback_hours s1 ≤ _get_lookback_hours s2)%nat
     ↔ sigma_threshold s1 <= sigma_threshold s2)
  ∧ (2 <= sigma_threshold s1 ∧ (4 ≤ _get_lookback_hours s1)%nat)
  ∧ ((lower s1 = "low"
      ∧ _get_lookback_hours s1 = 24%nat ∧ sigma_threshold s1 = 3)
     ∨ (lower s1 = "high"
        ∧ _get_lookback_hours s1 = 4%nat ∧ sigma_threshold s1 = 2)
     ∨ (lower s1 ≠ "low" ∧ lower s1 ≠ "high"
        ∧ _get_lookback_hours s1 = 12%nat ∧ sigma_threshold s1 = 2.5
        ∧ _get_lookback_hours s1 = _get_lookback_hours "medium"
        ∧ sigma_threshold s1 = sigma_threshold "medium")).
Proof.
  split; [|split; [|split; [|split]]]; cycle 4.
  { destruct (sensitivity_cases s1) as [H|[H|(Hl & Hh & Hlook & Hsig)]];
      [now left | now right; left | right; right].
    split; [assumption|]. split; [assumption|]. split; [assumption|].
    split; [assumption|]. split; [now rewrite Hlook|].
    rewrite Hsig. vm_compute. lra. }
  - unfold _get_lookback_hours. now rewrite lower_idempotent.
  - unfold sigma_threshold. now rewrite lower_idempotent.
  - destruct (sensitivity_cases s1) as [(_ & -> & ->)|[(_ & -> & ->)|(_ & _ & -> & ->)]];
    destruct (sensitivity_cases s2) as [(_ & -> & ->)|[(_ & -> & ->)|(_ & _ & -> & ->)]];
    split; intros; try lia; lra.
  - destruct (sensitivity_cases s1) as [(_ & -> & ->)|[(_ & -> & ->)|(_ & _ & -> & ->)]];
    split; lra || lia.
Qed.

End ThresholdConfiguration.

Section ThresholdReports.
Import Threshold.

Lemma sum_of_bool (md : list MetricRecord) :
  sum (of_bool ∘ is_accurate <$> md)
  = INR (length (filter (λ r, is_accurate r = true) md)).
Proof.
  induction md as [|r md IH]; [reflexivity|].
  rewrite fmap_cons, filter_cons. change (sum (?x :: ?l)) with (x + sum l).
  rewrite IH. cbn [compose].
  destruct (is_accurate r); cbn [of_bool].
  - rewrite decide_True by reflexivity. cbn [length]. rewrite S_INR. lra.
  - rewrite decide_False by discriminate. lra.
Qed.

(** The accuracy rate of a batch is the share of accurate records. *)
Lemma accuracy_rate_ratio (md : list MetricRecord) :
  (0 < length md)%nat →
  mean (of_bool ∘ is_accurate <$> md)
  = Fin (INR (length (filter (λ r, is_accurate r = true) md)) / INR (length md)).
Proof.
  intros Hlen. unfold mean.
  destruct (of_bool ∘ is_accurate <$> md) as [|x xs] eqn:Hxs.
  { apply fmap_nil_inv in Hxs. subst md. cbn in Hlen. lia. }
  rewrite <- Hxs, sum_of_bool, length_fmap. reflexivity.
Qed.

Lemma ratio_below (k n a b : nat) :
  (0 < n)%nat → (0 < b)%nat →
  INR k / INR n < INR a / INR b ↔ (b * k < a * n)%nat.
Proof.
  intros Hn Hb.
  assert (0 < INR n) by now apply lt_0_INR.
  assert (0 < INR b) by now apply lt_0_INR.
  split.
  - intros Hlt. apply INR_lt. rewrite !mult_INR.
    apply (Rmult_lt_compat_r (INR n * INR b)) in Hlt; [|nra].
    replace (INR k / INR n * (INR n * INR b)) with (INR b * INR k) in Hlt
      by (field; lra).
    replace (INR a / INR b * (INR n * INR b)) with (INR a * INR n) in Hlt
      by (field; lra).
    exact Hlt.
  - intros Hlt%lt_INR. rewrite !mult_INR in Hlt.
    apply (Rmult_lt_reg_r (INR n * INR b)); [nra|].
    replace (INR k / INR n * (INR n * INR b)) with (INR b * INR k)
      by (field; lra).
    replace (INR a / INR b * (INR n * INR b)) with (INR a * INR n)
      by (field; lra).
    exact Hlt.
Qed.

Lemma below_075 (k n : nat) :
  (0 < n)%nat → INR k / INR n < 0.75 ↔ (4 * k < 3 * n)%nat.
Proof.
  intros Hn. rewrite <- (ratio_below k n 3 4) by lia.
  replace (INR 3 / INR 4) with 0.75 by (simpl; lra). reflexivity.
Qed.

Lemma below_06 (k n : nat) :
  (0 < n)%nat → INR k / INR n < 0.6 ↔ (5 * k < 3 * n)%nat.
Proof.
  intros Hn. rewrite <- (ratio_below k n 3 5) by lia.
  replace (INR 3 / INR 5) with 0.6 by (simpl; lra). reflexivity.
Qed.

(** The three parts of a run on a batch with at least one record. *)
Lemma detect_anomalies_parts (md : list MetricRecord) (sensitivity : string) :
  (0 < length md)%nat →
  ∃ mu upper flagged,
    response_time_anomalies (pd_DataFrame md) (sigma_threshold sensitivity)
    = Ok (mu, upper, flagged) ∧
    _detect_anomalies md sensitivity
    = Ok (match rows flagged with
          | [] => []
          | _ => [HighResponseTime (length (rows flagged)) upper mu MEDIUM
                    (length (remove_dups (worker_id <$> rows flagged)))]
          end
          ++ (let accuracy_rate := mean (of_bool ∘ is_accurate <$> md) in
              if fltb accuracy_rate (Fin 0.75)
              then [LowAccuracy accuracy_rate 0.75
                      (if fltb accuracy_rate (Fin 0.6) then HIGH else MEDIUM)]
              else [])
          ++ mjoin (content_type_row ∘ stats_row md
                      <$> unique (content_type <$> md))).
Proof.
  intros Hlen.
  destruct (detect_anomalies_nonempty md sensitivity Hlen)
    as (a1 & a2 & H1 & H2 & Hdet).
  destruct (response_time_check_nonempty md (sigma_threshold sensitivity) Hlen)
    as (mu & upper & flagged & Hrta & H1').
  rewrite H1' in H1. injection H1 as <-.
  rewrite accuracy_check_nonempty in H2 by assumption. injection H2 as <-.
  eauto.
Qed.

(** X2: on a batch of n >= 1 records of which k are accurate, a run reports
    LOW_ACCURACY exactly when 4k < 3n (accuracy below 75%), once, with the
    accuracy k/n as its value, and with severity HIGH exactly when 5k < 3n
    (below 60%). *)
Theorem low_accuracy_exact (md : list MetricRecord) (sensitivity : string) :
  (0 < length md)%nat →
  let n := length md in
  let k := length (filter (λ r, is_accurate r = true) md) in
  ∃ l, _detect_anomalies md sensitivity = Ok l ∧
    filter (λ a, anomaly_type a = LOW_ACCURACY) l
    = if decide (4 * k < 3 * n)%nat
      then [LowAccuracy (Fin (INR k / INR n)) 0.75
              (if decide (5 * k < 3 * n)%nat then HIGH else MEDIUM)]
      else [].
Proof.
  intros Hlen n k.
  destruct (detect_anomalies_parts md sensitivity Hlen)
    as (mu & upper & flagged & _ & Hdet).
  eexists. split; [exact Hdet|].
  rewrite !filter_app.
  rewrite (filter_nil_of_none _ (match rows flagged with [] => _ | _ => _ end));
    cycle 1.
  { intros a Ha. destruct (rows flagged); [now apply elem_of_nil in Ha|].
    apply list_elem_of_singleton in Ha as ->. discriminate. }
  rewrite (filter_nil_of_none _ (mjoin _)); cycle 1.
  { intros a Ha. rewrite list_fmap_compose in Ha.
    apply content_type_rows_type in Ha. now rewrite Ha. }
  rewrite app_nil_r. cbn [app]. cbv zeta.
  rewrite accuracy_rate_ratio by assumption. fold n k. cbn [fltb].
  destruct (decide (4 * k < 3 * n)%nat) as [H75|H75].
  - rewrite (bool_decide_eq_true_2 (_ < 0.75)) by now apply below_075.
    rewrite filter_cons. cbn [anomaly_type].
    rewrite decide_True by reflexivity. rewrite filter_nil.
    destruct (decide (5 * k < 3 * n)%nat) as [H6|H6].
    + now rewrite bool_decide_eq_true_2 by now apply below_06.
    + rewrite bool_decide_eq_false_2; [reflexivity|].
      intros Hlt. apply H6. now apply below_06.
  - rewrite bool_decide_eq_false_2; [reflexivity|].
    intros Hlt. apply H75. now apply below_075.
Qed.

Lemma low_accuracy_exact_witness :
  let md := replicate 50 (sample "text" true)
            ++ replicate 50 (sample "text" false) in
  let n := length md in
  let k := length (filter (λ r, is_accurate r = true) md) in
  ∃ l, _detect_anomalies md "high" = Ok l ∧
    filter (λ a, anomaly_type a = LOW_ACCURACY) l
    = if decide (4 * k < 3 * n)%nat
      then [LowAccuracy (Fin (INR k / INR n)) 0.75
              (if decide (5 * k < 3 * n)%nat then HIGH else MEDIUM)]
      else [].
Proof.
  intros md. apply (low_accuracy_exact md "high"). simpl. lia.
Defined.

End ThresholdReports.

Section ThresholdResponseTimes.
Import Threshold.

Lemma length_remove_dups_le {A} `{EqDecision A} (l : list A) :
  (length (remove_dups l) ≤ length l)%nat.
Proof.
  induction l as [|x l IH]; [reflexivity|].
  cbn [remove_dups length]. destruct (decide_rel _ x l); cbn [length]; lia.
Qed.

Lemma length_remove_dups_pos {A} `{EqDecision A} (l : list A) :
  (0 < length l)%nat → (0 < length (remove_dups l))%nat.
Proof.
  destruct l as [|x l]; [cbn; lia|]. intros _.
  assert (Hx : x ∈ remove_dups (x :: l)) by (apply elem_of_remove_dups; left).
  destruct (remove_dups (x :: l)); [now apply elem_of_nil in Hx | cbn; lia].
Qed.

(** Some value of a non-empty series is at most its mean. *)
Lemma exists_le_mean (xs : list R) (m : R) :
  (0 < length xs)%nat → sum xs <= INR (length xs) * m →
  ∃ x, x ∈ xs ∧ x <= m.
Proof.
  induction xs as [|x xs IH]; intros Hlen Hsum; [cbn in Hlen; lia|].
  destruct (Rle_dec x m) as [Hle|Hgt]; [exists x; split; [left|assumption]|].
  change (sum (x :: xs)) with (x + sum xs) in Hsum.
  cbn [length] in Hsum. rewrite S_INR in Hsum.
  destruct xs as [|y ys].
  - cbn in Hsum. lra.
  - destruct IH as (z & Hz & Hzm); [cbn; lia | lra |].
    exists z. split; [now right | assumption].
Qed.

Lemma mean_value (xs : list R) (mu : R) :
  mean xs = Fin mu → (0 < length xs)%nat ∧ mu = sum xs / INR (length xs).
Proof.
  unfold mean. destruct xs as [|x xs]; [discriminate|].
  intros [= <-]. split; [cbn; lia | reflexivity].
Qed.

(** X3: a run reports at most one HIGH_RESPONSE_TIME anomaly, always with
    severity MEDIUM. Its threshold lies at or above the mean, its count is
    the number of records strictly above the threshold, which is at least 1
    and less than the size of the batch (the records at or below the mean
    are never flagged), and the number of affected workers lies between 1
    and the count. *)
Theorem response_time_report (md : list MetricRecord) (sensitivity : string) :
  (0 < length md)%nat →
  ∃ l, _detect_anomalies md sensitivity = Ok l ∧
    (filter (λ a, anomaly_type a = HIGH_RESPONSE_TIME) l = []
     ∨ ∃ mu u c w,
         filter (λ a, anomaly_type a = HIGH_RESPONSE_TIME) l
         = [HighResponseTime c (Fin u) (Fin mu) MEDIUM w]
         ∧ mean (IZR ∘ response_time_ms <$> md) = Fin mu
         ∧ mu <= u
         ∧ c = length (filter (λ r, u < IZR (response_time_ms r)) md)
         ∧ (1 ≤ c)%nat ∧ (c < length md)%nat
         ∧ (1 ≤ w)%nat ∧ (w ≤ c)%nat).
Proof.
  intros Hlen.
  destruct (detect_high_response_time md sensitivity Hlen)
    as (l & mu0 & upper & flagged & Hdet & Hrta & Hcount).
  exists l. split; [exact Hdet|]. rewrite Hcount.
  rewrite response_time_anomalies_nonempty in Hrta by assumption.
  injection Hrta as Hmu0 Hupper Hflag. subst flagged. cbn [rows].
  rewrite Hupper.
  set (col := IZR ∘ response_time_ms <$> md) in *.
  assert (Hnan : upper = NaN →
            filter (λ r, fgtb (Fin (IZR (response_time_ms r))) upper = true) md = []).
  { intros ->. apply filter_nil_of_none. intros r _. discriminate. }
  destruct (mean col) as [|mu] eqn:Hmean.
  { left. subst upper. now rewrite Hnan. }
  destruct (std col) as [|sd] eqn:Hstd.
  { left. subst upper. now rewrite Hnan. }
  cbn [fadd fmul] in Hupper. subst mu0.
  set (u := mu + sigma_threshold sensitivity * sd) in *.
  assert (0 <= sd) by now apply std_nonneg in Hstd.
  assert (2 <= sigma_threshold sensitivity).
  { destruct (sensitivity_cases sensitivity)
      as [(_ & _ & ->)|[(_ & _ & ->)|(_ & _ & _ & ->)]]; lra. }
  assert (Hmu : mu <= u) by (unfold u; nra).
  assert (Hfilter : filter (λ r, fgtb (Fin (IZR (response_time_ms r))) upper = true) md
                    = filter (λ r, u < IZR (response_time_ms r)) md).
  { apply list_filter_iff. intros r. subst upper. cbn.
    now rewrite bool_decide_eq_true. }
  rewrite Hfilter.
  destruct (filter (λ r, u < IZR (response_time_ms r)) md) as [|r0 rs] eqn:Hflagged;
    [now left|]. right.
  exists mu, u, (length (r0 :: rs)), (length (remove_dups (worker_id <$> r0 :: rs))).
  subst upper.
  split; [reflexivity|]. split; [reflexivity|]. split; [assumption|].
  split; [now rewrite Hflagged|].
  split; [cbn; lia|]. split.
  - apply mean_value in Hmean as [Hpos Hmean].
    destruct (exists_le_mean col mu) as (x0 & Hx0 & Hle); [assumption | |].
    { rewrite Hmean. apply Req_le. field. apply not_0_INR. lia. }
    unfold col in Hx0. apply list_elem_of_fmap in Hx0 as (r1 & -> & Hr1).
    rewrite <- Hflagged.
    apply (length_filter_lt _ _ r1); [assumption|]. cbn in Hle. lra.
  - split.
    + apply length_remove_dups_pos. cbn. lia.
    + etransitivity; [apply length_remove_dups_le|]. now rewrite length_fmap.
Qed.

(** On the batch with one slow record and sensitivity high the report is
    there: one record above the threshold 107, mean 101, one worker. *)
Lemma response_time_report_witness :
  ∃ l, _detect_anomalies outlier_batch "high" = Ok l ∧
    ∃ mu u c w,
      filter (λ a, anomaly_type a = HIGH_RESPONSE_TIME) l
      = [HighResponseTime c (Fin u) (Fin mu) MEDIUM w]
      ∧ mean (IZR ∘ response_time_ms <$> outlier_batch) = Fin mu
      ∧ mu <= u
      ∧ c = length (filter (λ r, u < IZR (response_time_ms r)) outlier_batch)
      ∧ (1 ≤ c)%nat ∧ (c < length outlier_batch)%nat
      ∧ (1 ≤ w)%nat ∧ (w ≤ c)%nat
      ∧ mu = 101 ∧ u = 107 ∧ c = 1%nat ∧ w = 1%nat.
Proof.
  assert (H2 : sigma_threshold "high" = 2) by (vm_compute; lra).
  assert (Hf2 := outlier_batch_flagged 2 ltac:(lra)).
  rewrite bool_decide_eq_true_2 in Hf2 by lra.
  destruct (detect_high_response_time outlier_batch "high" ltac:(vm_compute; lia))
    as (l0 & m0 & u0 & f0 & Hd0 & Hr0 & Hc0).
  rewrite H2, Hf2 in Hr0. injection Hr0 as <- <- <-. cbn in Hc0.
  destruct (response_time_report outlier_batch "high" ltac:(vm_compute; lia))
    as (l & Hdet & [Hnil | (mu & u & c & w & Hf & Hmean & Hmu & Hc & Hrest)]).
  - rewrite Hd0 in Hdet. injection Hdet as <-.
    rewrite Hc0 in Hnil. discriminate Hnil.
  - exists l. split; [exact Hdet|]. exists mu, u, c, w.
    rewrite Hd0 in Hdet. injection Hdet as <-.
    pose proof Hf as Hf'. rewrite Hc0 in Hf'. injection Hf' as Hc' Hu Hm Hw.
    destruct Hrest as (? & ? & ? & ?).
    repeat (split; [first [assumption | congruence | lra]|]).
    congruence.
Defined.

End ThresholdResponseTimes.

Section ThresholdSinks.
Import Threshold.

Lemma content_type_row_length (row : string * GroupStats) :
  (length (content_type_row row) ≤ 1)%nat.
Proof.
  destruct row as [key stats]. unfold content_type_row.
  destruct (_ && _); cbn; lia.
Qed.

Lemma content_type_rows_length (rows : list (string * GroupStats)) :
  (length (mjoin (content_type_row <$> rows)) ≤ length rows)%nat.
Proof.
  induction rows as [|row rows IH]; [reflexivity|].
  change (mjoin (content_type_row <$> row :: rows))
    with (content_type_row row ++ mjoin (content_type_row <$> rows)).
  rewrite length_app. cbn [length].
  pose proof (content_type_row_length row). lia.
Qed.

(** X4: a run on a non-empty batch returns at most one anomaly of each of
    the two global kinds and at most one per distinct content type of the
    batch. *)
Theorem anomaly_count_bound (md : list MetricRecord) (sensitivity : string) :
  (0 < length md)%nat →
  ∃ l, _detect_anomalies md sensitivity = Ok l ∧
       (length l ≤ 2 + length (unique (content_type <$> md)))%nat.
Proof.
  intros Hlen.
  destruct (detect_anomalies_parts md sensitivity Hlen)
    as (mu & upper & flagged & _ & Hdet).
  eexists. split; [exact Hdet|].
  rewrite !length_app.
  pose proof (content_type_rows_length
                (stats_row md <$> unique (content_type <$> md))) as Hct.
  rewrite length_fmap, <- list_fmap_compose in Hct.
  destruct (rows flagged); cbv zeta; destruct (fltb _ (Fin 0.75));
    cbn [length] in *; lia.
Qed.

Lemma anomaly_count_bound_witness :
  ∃ l, _detect_anomalies [sample "text" false] "medium" = Ok l ∧
       (length l ≤ 2 + length (unique (content_type <$> [sample "text" false])))%nat.
Proof. apply anomaly_count_bound. simpl. lia. Defined.

Lemma anomaly_metrics_length (ENVIRONMENT : string) (a : Anomaly) :
  length (anomaly_metrics ENVIRONMENT a)
  = if decide (anomaly_type a = HIGH_RESPONSE_TIME) then 1%nat else 2%nat.
Proof. now destruct a. Qed.

Lemma anomaly_metrics_dimensions (ENVIRONMENT : string) (a : Anomaly)
    (d : MetricDatum) :
  d ∈ anomaly_metrics ENVIRONMENT a →
  head (Dimensions d) = Some ("Environment", ENVIRONMENT).
Proof.
  destruct a; cbn; intros Hd;
    repeat (apply elem_of_cons in Hd as [->|Hd]; [reflexivity|]);
    now apply elem_of_nil in Hd.
Qed.

(** X5: logging to the metric sink never raises and keeps the calls made so
    far. With no anomaly it makes no call. Otherwise it makes exactly one
    call, to the namespace Mindburn/AnomalyDetection, with one datum per
    anomaly plus one more for each anomaly other than HIGH_RESPONSE_TIME
    (the ones that carry a value), each datum having the environment as its
    first dimension. *)
Theorem log_anomalies_to_cloudwatch_calls (ENVIRONMENT : string)
    (anomalies : list Anomaly) (calls : list SinkCall) :
  ∃ data,
    _log_anomalies_to_cloudwatch ENVIRONMENT anomalies calls
    = (Ok (), calls ++ match anomalies with
                       | [] => []
                       | _ => [put_metric_data "Mindburn/AnomalyDetection" data]
                       end)
    ∧ length data
      = (length anomalies
         + length (filter (λ a, anomaly_type a ≠ HIGH_RESPONSE_TIME) anomalies))%nat
    ∧ Forall (λ d, head (Dimensions d) = Some ("Environment", ENVIRONMENT)) data.
Proof.
  exists (mjoin (anomaly_metrics ENVIRONMENT <$> anomalies)).
  split; [|split].
  - unfold _log_anomalies_to_cloudwatch.
    destruct anomalies as [|a anomalies].
    + cbn. now rewrite app_nil_r.
    + destruct a; reflexivity.
  - induction anomalies as [|a anomalies IH]; [reflexivity|].
    change (mjoin (anomaly_metrics ENVIRONMENT <$> a :: anomalies))
      with (anomaly_metrics ENVIRONMENT a
            ++ mjoin (anomaly_metrics ENVIRONMENT <$> anomalies)).
    rewrite length_app, IH, anomaly_metrics_length, filter_cons.
    destruct (decide (anomaly_type a = HIGH_RESPONSE_TIME)) as [Ha|Ha].
    + rewrite decide_False by (intros Hne; now apply Hne). cbn [length]. lia.
    + rewrite decide_True by assumption. cbn [length]. lia.
  - apply Forall_forall. intros d (ds & Hd & Hds)%list_elem_of_join.
    apply list_elem_of_fmap in Hds as (a & -> & _).
    now apply anomaly_metrics_dimensions in Hd.
Qed.

Lemma alert_run (ALERT_TOPIC_ARN ENVIRONMENT : string)
    (anomalies : list Anomaly) (calls : list SinkCall) :
  _send_anomaly_alert ALERT_TOPIC_ARN ENVIRONMENT anomalies calls
  = (Ok (),
     calls ++ if decide (Exists (λ a, anomaly_severity a = HIGH) anomalies)
              then [sns_publish ALERT_TOPIC_ARN ENVIRONMENT
                      (filter (λ a, anomaly_severity a = HIGH) anomalies)]
              else []).
Proof.
  unfold _send_anomaly_alert.
  destruct (filter _ anomalies) as [|a high] eqn:Hhigh.
  - rewrite decide_False; [cbn; now rewrite app_nil_r|].
    intros (a & Ha & Hsev)%Exists_exists.
    assert (Hin : a ∈ filter (λ a, anomaly_severity a = HIGH) anomalies)
      by now apply list_elem_of_filter.
    rewrite Hhigh in Hin. now apply elem_of_nil in Hin.
  - rewrite decide_True; [reflexivity|].
    apply Exists_exists. exists a.
    assert (Hin : a ∈ filter (λ a, anomaly_severity a = HIGH) anomalies)
      by (rewrite Hhigh; left).
    apply list_elem_of_filter in Hin as [? ?]. now split.
Qed.

(** X6: the alert is published exactly when some anomaly has severity HIGH;
    it is then a single message carrying the HIGH anomalies, in order, and
    nothing else. It never raises and keeps the calls made so far. *)
Theorem send_anomaly_alert_calls (ALERT_TOPIC_ARN ENVIRONMENT : string)
    (anomalies : list Anomaly) (calls : list SinkCall) :
  _send_anomaly_alert ALERT_TOPIC_ARN ENVIRONMENT anomalies calls
  = (Ok (),
     calls ++ if decide (Exists (λ a, anomaly_severity a = HIGH) anomalies)
              then [sns_publish ALERT_TOPIC_ARN ENVIRONMENT
                      (filter (λ a, anomaly_severity a = HIGH) anomalies)]
              else []).
Proof.
  unfold _send_anomaly_alert.
  destruct (filter _ anomalies) as [|a high] eqn:Hhigh.
  - rewrite decide_False; [cbn; now rewrite app_nil_r|].
    intros (a & Ha & Hsev)%Exists_exists.
    assert (Hin : a ∈ filter (λ a, anomaly_severity a = HIGH) anomalies)
      by now apply list_elem_of_filter.
    rewrite Hhigh in Hin. now apply elem_of_nil in Hin.
  - rewrite decide_True; [reflexivity|].
    apply Exists_exists. exists a.
    assert (Hin : a ∈ filter (λ a, anomaly_severity a = HIGH) anomalies)
      by (rewrite Hhigh; left).
    apply list_elem_of_filter in Hin as [? ?]. now split.
Qed.

End ThresholdSinks.

Section ThresholdHandler.
Import Threshold.

Lemma log_run (ENVIRONMENT : string) (a : Anomaly) (anomalies : list Anomaly)
    (calls : list SinkCall) :
  _log_anomalies_to_cloudwatch ENVIRONMENT (a :: anomalies) calls
  = (Ok (), calls ++ [put_metric_data "Mindburn/AnomalyDetection"
                        (mjoin (anomaly_metrics ENVIRONMENT <$> a :: anomalies))]).
Proof. destruct a; reflexivity. Qed.

(** X7: when the metrics source yields a batch with at least one record,
    the invocation succeeds with status 200 and reports the size of the
    batch and the number of anomalies the detector returned. It emits
    metrics exactly when there is an anomaly, and after that publishes one
    alert exactly when a topic is configured and some anomaly has severity
    HIGH; the calls made before the invocation are kept. *)
Theorem handler_nonempty_batch
    (load_recent_metrics : nat → result (list MetricRecord))
    (ALERT_TOPIC_ARN ENVIRONMENT : string) (event : Event)
    (calls : list SinkCall) (md : list MetricRecord) :
  let sensitivity := default "medium" (event_sensitivity event) in
  load_recent_metrics (_get_lookback_hours sensitivity) = Ok md →
  (0 < length md)%nat →
  ∃ l, _detect_anomalies md sensitivity = Ok l ∧
    lambda_handler load_recent_metrics ALERT_TOPIC_ARN ENVIRONMENT event calls
    = ({| statusCode := 200;
          body := Analyzed (length md) (length l) sensitivity |},
       calls ++ match l with
                | [] => []
                | _ =>
                    put_metric_data "Mindburn/AnomalyDetection"
                      (mjoin (anomaly_metrics ENVIRONMENT <$> l))
                    :: (if decide (ALERT_TOPIC_ARN ≠ ""
                                   ∧ Exists (λ a, anomaly_severity a = HIGH) l)
                        then [sns_publish ALERT_TOPIC_ARN ENVIRONMENT
                                (filter (λ a, anomaly_severity a = HIGH) l)]
                        else [])
                end).
Proof.
  intros sensitivity Hload Hlen.
  destruct (detect_anomalies_nonempty md sensitivity Hlen)
    as (a1 & a2 & _ & _ & Hdet).
  eexists. split; [exact Hdet|].
  unfold lambda_handler, handle. fold sensitivity.
  cbv [mbind Py_bind lift]. rewrite Hload.
  destruct md as [|r md]; [cbn in Hlen; lia|]. rewrite Hdet.
  destruct (a1 ++ _) as [|a l]; [cbn; now rewrite app_nil_r|].
  rewrite log_run.
  destruct (bool_decide_reflect (ALERT_TOPIC_ARN = "")) as [Harn|Harn].
  - cbn [mret Py_ret]. rewrite decide_False by (intros [? _]; contradiction).
    reflexivity.
  - rewrite alert_run, <- app_assoc. cbn [app].
    destruct (decide (Exists _ (a :: l))) as [Hex|Hex].
    + now rewrite decide_True by (split; assumption).
    + rewrite decide_False by (intros [_ ?]; contradiction). reflexivity.
Qed.

Lemma handler_nonempty_batch_witness :
  let md := [sample "text" false] in
  ∃ l, _detect_anomalies md "medium" = Ok l ∧
    lambda_handler (λ _, Ok md) "arn:alerts" "dev"
      {| event_sensitivity := None |} []
    = ({| statusCode := 200; body := Analyzed (length md) (length l) "medium" |},
       [] ++ match l with
             | [] => []
             | _ =>
                 put_metric_data "Mindburn/AnomalyDetection"
                   (mjoin (anomaly_metrics "dev" <$> l))
                 :: (if decide ("arn:alerts" ≠ ""
                                ∧ Exists (λ a, anomaly_severity a = HIGH) l)
                     then [sns_publish "arn:alerts" "dev"
                             (filter (λ a, anomaly_severity a = HIGH) l)]
                     else [])
             end).
Proof.
  intros md.
  apply (handler_nonempty_batch (λ _, Ok md) "arn:alerts" "dev"
           {| event_sensitivity := None |} [] md).
  - reflexivity.
  - simpl. lia.
Defined.

(** X8: the status of an invocation, for any request and relative to sinks
    that accept every call. A ['sensitivity'] that is present and not a
    string (null, a number, ...) makes the handler answer 500 with the
    AttributeError of [.lower()], before the metrics source is queried and
    without any sink call. Otherwise the sensitivity is the string given,
    or medium when the key is absent: when the metrics source raises, the
    handler answers 500 with that error and calls no sink; when it returns
    a batch, empty or not, the handler answers 200. *)
Theorem handler_status
    (load_recent_metrics : nat → result (list MetricRecord))
    (ALERT_TOPIC_ARN ENVIRONMENT : string) (request : Request)
    (calls : list SinkCall) :
  let response :=
    lambda_handler_request load_recent_metrics ALERT_TOPIC_ARN ENVIRONMENT
      request calls in
  let outcome (sensitivity : string) :=
    match load_recent_metrics (_get_lookback_hours sensitivity) with
    | Raise e => response = ({| statusCode := 500; body := Failed e |}, calls)
    | Ok _ => statusCode (fst response) = 200%nat
    end in
  match request_sensitivity request with
  | None => outcome "medium"
  | Some (JString s) => outcome s
  | Some v =>
      response
      = ({| statusCode := 500;
            body := Failed (AttributeError (json_type_name v) "lower") |}, calls)
  end.
Proof.
  intros response outcome.
  assert (Htyped : ∀ event,
    match load_recent_metrics
            (_get_lookback_hours (default "medium" (event_sensitivity event))) with
    | Raise e =>
        lambda_handler load_recent_metrics ALERT_TOPIC_ARN ENVIRONMENT event calls
        = ({| statusCode := 500; body := Failed e |}, calls)
    | Ok _ =>
        statusCode (fst (lambda_handler load_recent_metrics ALERT_TOPIC_ARN
                           ENVIRONMENT event calls)) = 200%nat
    end).
  { intros event.
    destruct (load_recent_metrics _) as [md|e] eqn:Hload.
    - destruct (decide (0 < length md)%nat) as [Hlen|Hlen].
      + destruct (detect_anomalies_nonempty md
                    (default "medium" (event_sensitivity event)) Hlen)
          as (a1 & a2 & _ & _ & Hdet).
        unfold lambda_handler, handle.
        cbv [mbind Py_bind lift]. rewrite Hload.
        destruct md as [|r md]; [cbn in Hlen; lia|]. rewrite Hdet.
        destruct (a1 ++ _) as [|a l]; [reflexivity|].
        rewrite log_run.
        destruct (bool_decide _); [reflexivity|]. now rewrite alert_run.
      + destruct md; [|cbn in Hlen; lia].
        unfold lambda_handler, handle.
        cbv [mbind Py_bind lift]. now rewrite Hload.
    - unfold lambda_handler, handle.
      cbv [mbind Py_bind lift]. now rewrite Hload. }
  subst outcome response. unfold lambda_handler_request. cbv beta.
  destruct (request_sensitivity request) as [[| | | |s| |]|]; try reflexivity.
  - exact (Htyped {| event_sensitivity := Some s |}).
  - exact (Htyped {| event_sensitivity := None |}).
Qed.

(** A request whose sensitivity is null is answered with status 500. *)
Example null_sensitivity_fails
    (load_recent_metrics : nat → result (list MetricRecord)) :
  lambda_handler_request load_recent_metrics "" "dev"
    {| request_sensitivity := Some JNull |} []
  = ({| statusCode := 500;
        body := Failed (AttributeError "NoneType" "lower") |}, []).
Proof. reflexivity. Qed.

End ThresholdHandler.

(** ** More on the model-based detector *)

Section ModelDetectorRuns.
Import ModelDetector.

Lemma scaling_of_nonempty (X : Matrix) :
  (0 < length X)%nat → ∃ s, scaling_of X = Ok s.
Proof. destruct X; [cbn; lia | intros _; cbn; eauto]. Qed.

Lemma scaling_of_window (rs : list Row) :
  (10 ≤ length rs)%nat →
  ∃ s, scaling_of (features (dropna rs (rolling_mean 10 (of_bool ∘ is_accurate <$> rs))))
       = Ok s.
Proof.
  intros Hn. apply scaling_of_nonempty. rewrite features_rolling_length. lia.
Qed.

(** X9: scoring with a forest that was never fitted raises NotFittedError,
    but only after the caller's frame has received its [accuracy_rate]
    column and the scaler has been fitted on the batch; with fewer than 10
    records the scaler's error comes first. *)
Theorem detect_anomalies_unfitted (o : Objects) :
  estimators_ (model (self o)) = None →
  (10 ≤ length (rows (frame o)))%nat →
  let acc := rolling_mean 10 (of_bool ∘ is_accurate <$> rows (frame o)) in
  ∃ s, scaling_of (features (dropna (rows (frame o)) acc)) = Ok s ∧
    detect_anomalies o
    = (Raise (NotFittedError "IsolationForest"),
       {| self := {| model := model (self o); scaler := Some s |};
          frame := {| rows := rows (frame o); accuracy_rate := Some acc |} |}).
Proof.
  intros Hnone Hn acc.
  destruct (scaling_of_window (rows (frame o)) Hn) as [s Hs].
  exists s. split; [exact Hs|].
  unfold detect_anomalies.
  erewrite Py_bind_ok; cycle 1.
  { rewrite preprocess_data_spec. cbv zeta. now rewrite Hs. }
  cbv [mbind Py_bind get lift]. cbn [self model].
  unfold predict, IsolationForest_fitted. now rewrite Hnone.
Qed.

Lemma detect_anomalies_unfitted_witness :
  let o := {| self := init 0.1; frame := pd_DataFrame (replicate 10 (sample 250)) |} in
  let acc := rolling_mean 10 (of_bool ∘ is_accurate <$> rows (frame o)) in
  ∃ s, scaling_of (features (dropna (rows (frame o)) acc)) = Ok s ∧
    detect_anomalies o
    = (Raise (NotFittedError "IsolationForest"),
       {| self := {| model := model (self o); scaler := Some s |};
          frame := {| rows := rows (frame o); accuracy_rate := Some acc |} |}).
Proof.
  intros o. apply (detect_anomalies_unfitted o); [reflexivity | simpl; lia].
Defined.

(** X10: with a fitted forest and at least 10 records, scoring returns one
    flag per score, and a sample is flagged exactly when its score lies
    below the forest's offset. *)
Theorem flags_follow_scores (o : Objects) (f : Forest) :
  estimators_ (model (self o)) = Some f →
  (10 ≤ length (rows (frame o)))%nat →
  ∃ flags scores o',
    detect_anomalies o = (Ok (flags, scores), o') ∧
    flags = (λ sc, bool_decide (sc < offset_ f)) <$> scores.
Proof.
  intros Hf Hn.
  destruct (scaling_of_window (rows (frame o)) Hn) as [s Hs].
  eexists _, _, _. split; [exact (detect_anomalies_ok o f s Hf Hs)|].
  rewrite <- (list_fmap_compose (score_sample f)).
  apply list_fmap_ext. intros _ x _. cbn.
  apply bool_decide_ext. lra.
Qed.

Lemma flags_follow_scores_witness :
  let o := {| self := {| model := flat_forest; scaler := None |};
              frame := pd_DataFrame (replicate 11 (sample 250)) |} in
  ∃ flags scores o',
    detect_anomalies o = (Ok (flags, scores), o') ∧
    flags = (λ sc, bool_decide (sc < - 0.5)) <$> scores.
Proof.
  intros o.
  apply (flags_follow_scores o {| score_sample := λ _, 0; offset_ := - 0.5 |});
    [reflexivity | simpl; lia].
Defined.

(** X11: scoring is repeatable. Scoring again with the objects the first
    call left behind (the detector with its refitted scaler, the frame with
    its new column) gives the same result and leaves the same objects. *)
Theorem detect_anomalies_repeatable (o : Objects) :
  detect_anomalies (snd (detect_anomalies o)) = detect_anomalies o.
Proof.
  apply detect_anomalies_ext.
  - unfold detect_anomalies.
    pose proof (preprocess_data_spec o) as Hpre. cbv zeta in Hpre.
    destruct (scaling_of _) as [s|e].
    + erewrite Py_bind_ok by exact Hpre.
      cbv [mbind Py_bind get lift mret Py_ret].
      destruct (predict _ _); [|reflexivity].
      now destruct (score_samples _ _).
    + now erewrite Py_bind_raise by exact Hpre.
  - now rewrite detect_anomalies_frame.
Qed.

(** X12: training succeeds exactly when the frame has at least 10 records
    and the detector's contamination lies in (0, 0.5]. On success the
    detector holds the forest fitted on the standardized rows, with the
    contamination it was created with, and the scaler fitted on them. With
    at least 10 records and a contamination outside (0, 0.5] the fit of the
    forest refuses the parameter: the scaler is fitted and the forest is as
    it was. On a shorter frame the scaler raises, the forest is as it was
    and the scaler is unfitted. In all three cases the caller's frame has
    received its [accuracy_rate] column. *)
Theorem train_outcome (fit : R → Matrix → Forest) (o : Objects) :
  let acc := rolling_mean 10 (of_bool ∘ is_accurate <$> rows (frame o)) in
  let X := features (dropna (rows (frame o)) acc) in
  let df' := {| rows := rows (frame o); accuracy_rate := Some acc |} in
  let c := contamination (model (self o)) in
  ((10 ≤ length (rows (frame o)))%nat → 0 < c <= 0.5 →
     ∃ s, scaling_of X = Ok s ∧
       train fit o
       = (Ok (),
          {| self := {| model := {| contamination := c;
                                    estimators_ := Some (fit c (scale_row s <$> X)) |};
                        scaler := Some s |};
             frame := df' |}))
  ∧ ((10 ≤ length (rows (frame o)))%nat → ¬ (0 < c <= 0.5) →
       ∃ s, scaling_of X = Ok s ∧
         train fit o
         = (Raise (InvalidParameterError "IsolationForest" "contamination"),
            {| self := {| model := model (self o); scaler := Some s |};
               frame := df' |}))
  ∧ ((length (rows (frame o)) < 10)%nat →
       train fit o
       = (Raise (NoSamples "StandardScaler"),
          {| self := {| model := model (self o); scaler := None |};
             frame := df' |})).
Proof.
  intros acc X df' c.
  pose proof (train_spec fit o) as Htrain. cbv zeta in Htrain.
  fold acc X df' c in Htrain.
  pose proof (features_rolling_length (rows (frame o))) as Hlen. fold acc X in Hlen.
  assert (Hfit : (10 ≤ length (rows (frame o)))%nat → ∃ s, scaling_of X = Ok s).
  { intros Hn. destruct (scaling_of X) as [s|e] eqn:Hs; [eauto|].
    apply scaling_of_raise in Hs as [HX _]. rewrite HX in Hlen. cbn in Hlen. lia. }
  split; [|split].
  - intros Hn [Hc1 Hc2]. destruct (Hfit Hn) as [s Hs]. exists s.
    split; [assumption|]. rewrite Hs in Htrain.
    now rewrite !bool_decide_eq_true_2 in Htrain by assumption.
  - intros Hn Hc. destruct (Hfit Hn) as [s Hs]. exists s.
    split; [assumption|]. rewrite Hs in Htrain. rewrite Htrain.
    destruct (bool_decide_reflect (0 < c)) as [Hc1|Hc1]; [|reflexivity].
    destruct (bool_decide_reflect (c <= 0.5)) as [Hc2|Hc2]; [|reflexivity].
    exfalso. apply Hc. now split.
  - intros Hn. destruct (scaling_of X) as [s|e] eqn:Hs.
    + apply scaling_of_ok_nonempty in Hs. destruct X; [contradiction|].
      cbn in Hlen. lia.
    + now apply scaling_of_raise in Hs as [_ ->].
Qed.

(** Ten records with the default contamination 0.1 are trained on; the
    same records with contamination 0.7 are refused by the fit. *)
Lemma train_outcome_witness :
  let df := pd_DataFrame (replicate 10 (sample 250)) in
  let acc := rolling_mean 10 (of_bool ∘ is_accurate <$> rows df) in
  let X := features (dropna (rows df) acc) in
  let df' := {| rows := rows df; accuracy_rate := Some acc |} in
  (∃ s, scaling_of X = Ok s ∧
     train flat_fit {| self := init 0.1; frame := df |}
     = (Ok (),
        {| self := {| model := {| contamination := 0.1;
                                  estimators_ :=
                                    Some (flat_fit 0.1 (scale_row s <$> X)) |};
                      scaler := Some s |};
           frame := df' |}))
  ∧ (∃ s, scaling_of X = Ok s ∧
       train flat_fit {| self := init 0.7; frame := df |}
       = (Raise (InvalidParameterError "IsolationForest" "contamination"),
          {| self := {| model := model (init 0.7); scaler := Some s |};
             frame := df' |})).
Proof.
  intros df acc X df'. split.
  - apply (train_outcome flat_fit {| self := init 0.1; frame := df |});
      [simpl; lia | simpl; lra].
  - apply (train_outcome flat_fit {| self := init 0.7; frame := df |});
      [simpl; lia | simpl; lra].
Defined.

End ModelDetectorRuns.

Section Standardization.
Import ModelDetector.

Lemma sum_standardized (m sc : R) (xs : list R) :
  sum ((λ x, (x - m) / sc) <$> xs) = (sum xs - INR (length xs) * m) / sc.
Proof.
  induction xs as [|x xs IH].
  - cbn. unfold Rdiv. ring.
  - rewrite fmap_cons. change (sum (?y :: ?l)) with (y + sum l).
    rewrite IH. cbn [length]. rewrite S_INR. unfold Rdiv. ring.
Qed.

Lemma sum_centered (sc : R) (xs : list R) :
  (0 < length xs)%nat → sum ((λ x, (x - rmean xs) / sc) <$> xs) = 0.
Proof.
  intros Hlen. rewrite sum_standardized. unfold rmean.
  replace (INR (length xs) * (sum xs / INR (length xs))) with (sum xs)
    by (field; apply not_0_INR; lia).
  unfold Rdiv. ring.
Qed.

(** The standardized feature matrix, column by column. *)
Lemma scaled_feature_column (clean : list (Row * R)) (s : Scaling) (j : nat) :
  scaling_of (features clean) = Ok s → (j < 4)%nat →
  column j (scale_row s <$> features clean)
  = (λ x, (x - rmean (column j (features clean))) / nth j (scale_ s) 0)
      <$> column j (features clean).
Proof.
  intros Hs Hj. destruct clean as [|p clean]; [discriminate|].
  unfold scaling_of in Hs. cbn [features fmap list_fmap length seq] in Hs.
  injection Hs as <-. fold (features clean).
  set (X := features (p :: clean)).
  change ([to_R (response_time_ms p.1); to_R (confidence_score p.1);
           to_R (cost p.1); p.2]
          :: features clean) with X.
  unfold column, X, features.
  rewrite <- !list_fmap_compose. apply list_fmap_ext. intros _ q _.
  destruct j as [|[|[|[|j]]]]; [reflexivity.. | lia].
Qed.

(** X13: on a frame of n >= 10 records, preprocessing returns n - 9
    standardized rows, and each of the four feature columns of the result
    has mean zero (its values sum to 0). *)
Theorem standardized_columns_centered (o : Objects) :
  (10 ≤ length (rows (frame o)))%nat →
  ∃ X' o',
    preprocess_data o = (Ok X', o') ∧
    length X' = (length (rows (frame o)) - 9)%nat ∧
    ∀ j, (j < 4)%nat → sum (column j X') = 0.
Proof.
  intros Hn.
  destruct (scaling_of_window (rows (frame o)) Hn) as [s Hs].
  pose proof (preprocess_data_spec o) as Hpre. cbv zeta in Hpre.
  rewrite Hs in Hpre.
  eexists _, _. split; [exact Hpre|]. split.
  - now rewrite length_fmap, features_rolling_length.
  - intros j Hj. rewrite (scaled_feature_column _ s j Hs Hj).
    apply sum_centered. unfold column.
    rewrite length_fmap, features_rolling_length. lia.
Qed.

Lemma standardized_columns_centered_witness :
  let o := {| self := init 0.1; frame := pd_DataFrame (replicate 12 (sample 250)) |} in
  ∃ X' o',
    preprocess_data o = (Ok X', o') ∧
    length X' = (length (rows (frame o)) - 9)%nat ∧
    ∀ j, (j < 4)%nat → sum (column j X') = 0.
Proof.
  intros o. apply (standardized_columns_centered o). simpl. lia.
Defined.

End Standardization.

Section ScoringHandler.
Import ModelDetector.

Lemma select_cons {A} (x : A) (xs : list A) (b : bool) (mask : list bool) :
  select (x :: xs) (b :: mask)
  = if b then x :: select xs mask else select xs mask.
Proof.
  unfold select. cbn [zip zip_with]. rewrite filter_cons. cbn [snd].
  destruct b.
  - now rewrite decide_True by reflexivity.
  - now rewrite decide_False by discriminate.
Qed.

Lemma select_nil_mask {A} (xs : list A) : select xs [] = [].
Proof. unfold select. now destruct xs. Qed.

(** The pairs of position and score that the response is built from: each
    is a flagged position together with the score at that position. *)
Lemma flagged_pairs {A} (k : nat) (flags : list bool) (scores : list A) :
  length scores = length flags →
  Forall (λ p, (k ≤ fst p)%nat
               ∧ scores !! (fst p - k)%nat = Some (snd p)
               ∧ flags !! (fst p - k)%nat = Some true)
         (zip (select (seq k (length flags)) flags) (select scores flags)).
Proof.
  revert k scores. induction flags as [|b flags IH]; intros k scores Hlen.
  - cbn. constructor.
  - destruct scores as [|sc scores]; [discriminate|].
    injection Hlen as Hlen. cbn [length seq]. rewrite !select_cons.
    assert (Hrest : Forall (λ p, (k ≤ fst p)%nat
                      ∧ (sc :: scores) !! (fst p - k)%nat = Some (snd p)
                      ∧ (b :: flags) !! (fst p - k)%nat = Some true)
              (zip (select (seq (S k) (length flags)) flags) (select scores flags))).
    { eapply Forall_impl; [apply (IH (S k) scores Hlen)|].
      intros p (Hk & Hsc & Hfl).
      replace (fst p - k)%nat with (S (fst p - S k)) by lia.
      split; [lia|]. now split. }
    destruct b; [|exact Hrest].
    cbn [zip zip_with]. constructor; [|exact Hrest].
    cbn [fst snd]. rewrite Nat.sub_diag. split; [lia|]. now split.
Qed.

Lemma flagged_pairs_length {A} (k : nat) (flags : list bool) (scores : list A) :
  length scores = length flags →
  length (zip (select (seq k (length flags)) flags) (select scores flags))
  = length (select (seq k (length flags)) flags).
Proof.
  revert k scores. induction flags as [|b flags IH]; intros k scores Hlen.
  - reflexivity.
  - destruct scores as [|sc scores]; [discriminate|].
    injection Hlen as Hlen. cbn [length seq]. rewrite !select_cons.
    destruct b; cbn [zip zip_with length]; now rewrite (IH (S k) scores Hlen).
Qed.

Lemma select_length_le {A} (xs : list A) (mask : list bool) :
  (length (select xs mask) ≤ length xs)%nat.
Proof.
  revert mask. induction xs as [|x xs IH]; intros mask.
  - unfold select. cbn. lia.
  - destruct mask as [|b mask]; [rewrite select_nil_mask; cbn; lia|].
    rewrite select_cons. specialize (IH mask). destruct b; cbn [length]; lia.
Qed.

Lemma mapM_result_ok {A B} (f : A → result B) (l : list A) :
  Forall (λ x, ∃ y, f x = Ok y) l →
  ∃ ys, mapM f l = Ok ys ∧ Forall2 (λ x y, f x = Ok y) l ys.
Proof.
  induction 1 as [|x l [y Hy] _ (ys & Hys & Hall)].
  - exists []. split; [reflexivity | constructor].
  - exists (y :: ys). split.
    + cbn [mapM]. rewrite Hy. cbn [mbind result_bind]. now rewrite Hys.
    + now constructor.
Qed.

Lemma Forall2_transfer {A B} (R : A → B → Prop) (P : A → Prop) (Q : B → Prop)
    (l : list A) (k : list B) :
  (∀ x y, R x y → P x → Q y) → Forall2 R l k → Forall P l → Forall Q k.
Proof.
  intros HPQ HR. induction HR as [|x y l k Hxy _ IH]; intros HP.
  - constructor.
  - apply Forall_cons in HP as [Hx Hl]. constructor; eauto.
Qed.

(** The number of flagged positions is the number of samples that meet
    the flagging condition. *)
Lemma select_seq_count {A} (P : A → Prop) `{∀ x, Decision (P x)}
    (k : nat) (l : list A) :
  length (select (seq k (length ((λ x, bool_decide (P x)) <$> l)))
                 ((λ x, bool_decide (P x)) <$> l))
  = length (filter P l).
Proof.
  revert k. induction l as [|x l IH]; intros k; [reflexivity|].
  cbn [fmap list_fmap length seq]. rewrite select_cons, filter_cons.
  specialize (IH (S k)). cbn [fmap] in IH.
  destruct (decide (P x)) as [Hx|Hx].
  - rewrite bool_decide_eq_true_2 by assumption. cbn [length]. now rewrite IH.
  - rewrite bool_decide_eq_false_2 by assumption. exact IH.
Qed.

Lemma filter_all {A} (P : A → Prop) `{∀ x, Decision (P x)} (l : list A) :
  (∀ x, P x) → filter P l = l.
Proof.
  intros HP. induction l as [|x l IH]; [reflexivity|].
  rewrite filter_cons_True by apply HP. now rewrite IH.
Qed.

(** The value read from a column is a float unless the column is of type
    [int64], and then it is an [np.int64] in every row. *)
Lemma cell_float64 (df : DataFrame) (col : Row → number) (r : Row) :
  int64_column col df = false → json_serializable (cell df col r) = true.
Proof. intros H. unfold cell. rewrite H. now destruct (col r). Qed.

Lemma cell_int64 (df : DataFrame) (col : Row → number) (r : Row) :
  r ∈ rows df → int64_column col df = true →
  json_serializable (cell df col r) = false.
Proof.
  intros Hr H. unfold cell. rewrite H.
  unfold int64_column in H. rewrite forallb_forall in H.
  specialize (H r (proj1 (list_elem_of_In _ _) Hr)). cbn in H.
  now destruct (col r).
Qed.

(** The JSON encoding of the response fails exactly when there is an entry
    and one of the columns it reads is of type [int64]. *)
Lemma json_dumps_entries (df : DataFrame) (entries : list AnomalyEntry) :
  Forall (λ e, ∃ r a,
            r ∈ rows df
            ∧ entry_metrics e
              = zip feature_columns
                  [cell df response_time_ms r; cell df confidence_score r;
                   cell df cost r; np_float64 a]) entries →
  json_dumps entries
  = match entries with
    | [] => Ok tt
    | _ :: _ => if int64_columns df then Raise (TypeError "int64") else Ok tt
    end.
Proof.
  intros Hall. unfold json_dumps.
  destruct (int64_columns df) eqn:Hint.
  - destruct entries as [|e es]; [reflexivity|].
    apply Forall_cons in Hall as [(r & a & Hr & Hm) _].
    cbn [forallb]. rewrite Hm.
    cbn [feature_columns zip zip_with forallb compose snd].
    unfold int64_columns in Hint.
    apply orb_true_iff in Hint as [Hint|Hint];
      [apply orb_true_iff in Hint as [Hint|Hint]|].
    + now rewrite (cell_int64 df response_time_ms r Hr Hint).
    + rewrite (cell_int64 df confidence_score r Hr Hint).
      now destruct (json_serializable _).
    + rewrite (cell_int64 df cost r Hr Hint).
      now destruct (json_serializable _), (json_serializable _).
  - unfold int64_columns in Hint.
    apply orb_false_iff in Hint as [Hint H3].
    apply orb_false_iff in Hint as [H1 H2].
    assert (Hok : forallb (λ e, forallb (json_serializable ∘ snd) (entry_metrics e))
                    entries = true).
    { induction Hall as [|e es (r & a & _ & Hm) _ IH]; [reflexivity|].
      cbn [forallb]. rewrite IH, Hm.
      cbn [feature_columns zip zip_with forallb compose snd].
      now rewrite !cell_float64 by assumption. }
    rewrite Hok. now destruct entries.
Qed.

(** X14: when the stored artifact loads to a fitted forest and the request
    holds n >= 10 records, the scoring handler builds one entry per flagged
    sample, that is per scored sample whose score lies below the forest's
    offset, at most n - 9 of them. With no entry it answers 200 and
    [anomaly_count] 0. With at least one entry it answers 200 with the
    entries, unless one of the columns response_time_ms, confidence_score
    and cost holds integers only: the values read from such a column are
    [np.int64], the JSON encoding of the response raises, and the answer is
    500. An entry with index k carries the score of the k-th scored sample,
    which is built from record k + 9 of the request (the first 9 records
    are dropped before scoring); but its timestamp and metrics are read at
    position k of the request frame, that is from the record 9 places
    earlier. *)
Theorem scoring_handler_response (Artifact : Type)
    (joblib_load : Artifact → result IsolationForest)
    (event : Event) (s3 : gmap (string * string) Artifact)
    (blob : Artifact) (m : IsolationForest) (f : Forest) :
  s3 !! (model_bucket event, model_key event) = Some blob →
  joblib_load blob = Ok m →
  estimators_ m = Some f →
  (10 ≤ length (verification_data event))%nat →
  let data := verification_data event in
  let df := pd_DataFrame data in
  let acc := rolling_mean 10 (of_bool ∘ is_accurate <$> data) in
  let clean := dropna data acc in
  ∃ s entries,
    scaling_of (features clean) = Ok s ∧
    lambda_handler Artifact joblib_load event s3
    = match entries with
      | [] => {| statusCode := 200; body := Detected 0 [] |}
      | _ :: _ =>
          if int64_columns df
          then {| statusCode := 500; body := Failed (TypeError "int64") |}
          else {| statusCode := 200;
                  body := Detected (length entries) entries |}
      end ∧
    length entries
    = length (filter (λ x, score_sample f x < offset_ f)
                     (scale_row s <$> features clean)) ∧
    (length entries ≤ length data - 9)%nat ∧
    Forall (λ e, ∃ r r' a',
              data !! entry_index e = Some r
              ∧ entry_timestamp e = timestamp r
              ∧ entry_metrics e
                = zip feature_columns
                    [cell df response_time_ms r; cell df confidence_score r;
                     cell df cost r;
                     np_float64 (default NaN (acc !! entry_index e))]
              ∧ clean !! entry_index e = Some (r', a')
              ∧ data !! (entry_index e + 9)%nat = Some r'
              ∧ entry_score e
                = score_sample f
                    (scale_row s [to_R (response_time_ms r');
                                  to_R (confidence_score r');
                                  to_R (cost r'); a'])
              ∧ entry_score e < offset_ f) entries.
Proof.
  intros Hblob Hload Hf Hn.
  assert (Hreq : lambda_handler Artifact joblib_load event s3
                 = match handle Artifact joblib_load event s3 with
                   | Ok b => {| statusCode := 200; body := b |}
                   | Raise e => {| statusCode := 500; body := Failed e |}
                   end).
  { unfold lambda_handler.
    destruct (verification_data event); [cbn in Hn; lia | reflexivity]. }
  intros data df acc clean.
  destruct (scaling_of_window data Hn) as [s Hs]. fold acc clean in Hs.
  set (o0 := {| self := {| model := m; scaler := None |};
                frame := pd_DataFrame data |}).
  set (df1 := {| rows := data; accuracy_rate := Some acc |}).
  set (X' := scale_row s <$> features clean).
  set (flags := (λ x, bool_decide (score_sample f x - offset_ f < 0)) <$> X').
  set (scores := score_sample f <$> X').
  assert (Hrun : detect_anomalies o0
                 = (Ok (flags, scores),
                    {| self := {| model := m; scaler := Some s |};
                       frame := df1 |}))
    by exact (detect_anomalies_ok o0 f s Hf Hs).
  assert (Hlen : length scores = length flags)
    by (unfold scores, flags; now rewrite !length_fmap).
  assert (Hflags : length flags = (length data - 9)%nat).
  { unfold flags, X'. rewrite !length_fmap. apply features_rolling_length. }
  set (pairs := zip (select (seq 0 (length flags)) flags) (select scores flags)).
  pose proof (flagged_pairs 0 flags scores Hlen) as Hpairs. fold pairs in Hpairs.
  set (entry := λ p : nat * R,
         iloc df1 (fst p)
         ≫= λ '(r, a),
              mret {| entry_index := fst p; entry_score := snd p;
                      entry_timestamp := timestamp r;
                      entry_metrics :=
                        zip feature_columns
                          [cell df1 response_time_ms r;
                           cell df1 confidence_score r;
                           cell df1 cost r; np_float64 a] |}).
  assert (Hiloc : ∀ p, p ∈ pairs → ∃ r,
            data !! fst p = Some r
            ∧ iloc df1 (fst p) = Ok (r, default NaN (acc !! fst p))).
  { intros p Hp. apply (proj1 (Forall_forall _ _) Hpairs) in Hp as (_ & _ & Hfl).
    apply lookup_lt_Some in Hfl. rewrite Nat.sub_0_r in Hfl.
    destruct (lookup_lt_is_Some_2 data (fst p)) as [r Hr]; [lia|].
    exists r. split; [exact Hr|]. unfold iloc, df1. cbn [rows accuracy_rate].
    now rewrite Hr. }
  destruct (mapM_result_ok entry pairs) as (entries & Hentries & Hall).
  { apply Forall_forall. intros p Hp. destruct (Hiloc p Hp) as (r & _ & Hr).
    unfold entry. rewrite Hr. cbn. eauto. }
  exists s, entries. split; [exact Hs|].
  assert (Hcount : length entries = length (select (seq 0 (length flags)) flags)).
  { rewrite <- (Forall2_length _ _ _ Hall). unfold pairs.
    now apply flagged_pairs_length. }
  assert (Hfacts : Forall (λ e, ∃ r r' a',
              data !! entry_index e = Some r
              ∧ entry_timestamp e = timestamp r
              ∧ entry_metrics e
                = zip feature_columns
                    [cell df1 response_time_ms r; cell df1 confidence_score r;
                     cell df1 cost r;
                     np_float64 (default NaN (acc !! entry_index e))]
              ∧ clean !! entry_index e = Some (r', a')
              ∧ data !! (entry_index e + 9)%nat = Some r'
              ∧ entry_score e
                = score_sample f
                    (scale_row s [to_R (response_time_ms r');
                                  to_R (confidence_score r');
                                  to_R (cost r'); a'])
              ∧ entry_score e < offset_ f) entries).
  { assert (Hpairs' : Forall (λ p, p ∈ pairs
                        ∧ scores !! fst p = Some (snd p)
                        ∧ flags !! fst p = Some true) pairs).
    { apply Forall_forall. intros p Hp. split; [exact Hp|].
      apply (proj1 (Forall_forall _ _) Hpairs) in Hp as (_ & Hsc & Hfl).
      rewrite Nat.sub_0_r in Hsc, Hfl. now split. }
    refine (Forall2_transfer _ _ _ _ _ _ Hall Hpairs').
    intros p e He (Hp & Hsc & Hfl).
    destruct (Hiloc p Hp) as (r & Hr & Hrow).
    unfold entry in He. rewrite Hrow in He. cbn in He. injection He as <-.
    cbn [entry_index entry_score entry_timestamp entry_metrics].
    unfold scores in Hsc. rewrite list_lookup_fmap in Hsc.
    destruct (X' !! fst p) as [x'|] eqn:Hx'; [|discriminate].
    injection Hsc as Hsc.
    unfold flags in Hfl. rewrite list_lookup_fmap, Hx' in Hfl.
    injection Hfl as Hfl. apply bool_decide_eq_true in Hfl.
    unfold X', features in Hx'. rewrite !list_lookup_fmap in Hx'.
    destruct (clean !! fst p) as [[r' a']|] eqn:Hclean; [|discriminate].
    injection Hx' as <-. cbn [fst snd] in Hsc.
    exists r, r', a'.
    split; [exact Hr|]. split; [reflexivity|]. split; [reflexivity|].
    split; [reflexivity|]. split.
    + assert (Hfst : (fst <$> clean) !! fst p = Some r')
        by now rewrite list_lookup_fmap, Hclean.
      unfold clean, acc in Hfst. rewrite dropna_rolling_mean, lookup_drop in Hfst.
      now rewrite Nat.add_comm.
    + split; [now rewrite <- Hsc|]. rewrite <- Hsc. lra. }
  assert (Hjson : json_dumps entries
                  = match entries with
                    | [] => Ok tt
                    | _ :: _ => if int64_columns df1
                                then Raise (TypeError "int64") else Ok tt
                    end).
  { apply json_dumps_entries. eapply Forall_impl; [exact Hfacts|].
    intros e (r & _ & _ & Hr & _ & Hm & _). exists r. eexists.
    split; [|exact Hm]. now apply list_elem_of_lookup_2 in Hr. }
  split; [|split; [|split]].
  - rewrite Hreq. unfold handle, loaded_detector.
    rewrite Hblob, Hload.
    cbn [mbind result_bind mret result_ret scaler init].
    fold data. fold o0. rewrite Hrun.
    unfold response_data. cbn [frame]. fold pairs. fold entry.
    rewrite Hentries. cbn [mbind result_bind mret result_ret].
    rewrite Hjson, <- Hcount.
    destruct entries as [|e es]; [reflexivity|].
    change (int64_columns df) with (int64_columns df1).
    now destruct (int64_columns df1).
  - rewrite Hcount. unfold flags. rewrite select_seq_count.
    f_equal. apply list_filter_iff. intros x. lra.
  - rewrite Hcount, <- Hflags.
    etransitivity; [apply select_length_le|]. now rewrite length_seq.
  - exact Hfacts.
Qed.

(** Two requests of ten records scored by a forest that flags every
    sample: with float columns the answer is 200 with one entry, at index
    0 and with score -1; with integer response times and costs the encoding
    of the response raises and the answer is 500. *)
Lemma scoring_handler_response_witness :
  let s3 : gmap (string * string) IsolationForest :=
    <[("models", "anomaly_detector/model.joblib") := alarm_forest]> ∅ in
  (∃ e, lambda_handler IsolationForest Ok sample_event s3
        = {| statusCode := 200; body := Detected 1 [e] |}
        ∧ entry_index e = 0%nat ∧ entry_score e = - 1)
  ∧ lambda_handler IsolationForest Ok integer_event s3
    = {| statusCode := 500; body := Failed (TypeError "int64") |}.
Proof.
  intros s3.
  set (f := {| score_sample := λ _ : list R, - 1; offset_ := - 0.5 |}).
  assert (Hone : ∀ (data : list Row) (s : Scaling) (entries : list AnomalyEntry),
            length data = 10%nat →
            length entries
            = length (filter (λ x, score_sample f x < offset_ f)
                (scale_row s <$> features
                   (dropna data (rolling_mean 10 (of_bool ∘ is_accurate <$> data))))) →
            length entries = 1%nat).
  { intros data s entries Hdata ->.
    rewrite filter_all by (intros x; cbn; lra).
    now rewrite length_fmap, features_rolling_length, Hdata. }
  split.
  - destruct (scoring_handler_response IsolationForest Ok sample_event s3
                alarm_forest alarm_forest f)
      as (s & entries & _ & Hresp & Hcount & _ & Hall);
      [apply lookup_insert_eq | reflexivity | reflexivity | simpl; lia |].
    apply Hone in Hcount; [|reflexivity].
    destruct entries as [|e [|e' es]]; try discriminate Hcount.
    exists e. split; [exact Hresp|].
    apply Forall_cons in Hall as [(r & r' & a' & _ & _ & _ & Hclean & _ & Hscore & _) _].
    split; [|exact Hscore].
    apply lookup_lt_Some in Hclean.
    rewrite <- features_length, features_rolling_length in Hclean.
    cbn in Hclean. lia.
  - destruct (scoring_handler_response IsolationForest Ok integer_event s3
                alarm_forest alarm_forest f)
      as (s & entries & _ & Hresp & Hcount & _ & _);
      [apply lookup_insert_eq | reflexivity | reflexivity | simpl; lia |].
    apply Hone in Hcount; [|reflexivity].
    destruct entries as [|e es]; [discriminate Hcount|]. exact Hresp.
Defined.

(** X15: a request with fewer than 10 records is never answered with
    success: the handler returns status 500 whatever the store holds. When
    the model loads, the error of a request with 1 to 9 records is the
    scaler's refusal of an empty matrix, and the error of a request with no
    record is the KeyError of the first column access, the frame built from
    no record having no column. *)
Theorem scoring_handler_short_batch (Artifact : Type)
    (joblib_load : Artifact → result IsolationForest)
    (event : Event) (s3 : gmap (string * string) Artifact) :
  (length (verification_data event) < 10)%nat →
  statusCode (lambda_handler Artifact joblib_load event s3) = 500%nat
  ∧ ∀ blob m,
      s3 !! (model_bucket event, model_key event) = Some blob →
      joblib_load blob = Ok m →
      lambda_handler Artifact joblib_load event s3
      = {| statusCode := 500;
           body := Failed (match verification_data event with
                           | [] => KeyError "is_accurate"
                           | _ :: _ => NoSamples "StandardScaler"
                           end) |}.
Proof.
  intros Hn.
  assert (Hloaded : ∀ blob m,
            s3 !! (model_bucket event, model_key event) = Some blob →
            joblib_load blob = Ok m →
            lambda_handler Artifact joblib_load event s3
            = {| statusCode := 500;
                 body := Failed (match verification_data event with
                                 | [] => KeyError "is_accurate"
                                 | _ :: _ => NoSamples "StandardScaler"
                                 end) |}).
  { intros blob m Hblob Hload.
    unfold lambda_handler, handle, loaded_detector.
    rewrite Hblob, Hload. cbn [mbind result_bind mret result_ret].
    destruct (verification_data event) as [|r rs] eqn:Hdata; [reflexivity|].
    rewrite detect_anomalies_no_rows; [reflexivity|].
    apply length_zero_iff_nil. cbn [frame rows pd_DataFrame].
    rewrite features_rolling_length. lia. }
  split; [|exact Hloaded].
  destruct (s3 !! (model_bucket event, model_key event)) as [blob|] eqn:Hblob.
  - destruct (joblib_load blob) as [m|e] eqn:Hload.
    + now rewrite (Hloaded blob m).
    + unfold lambda_handler, handle, loaded_detector.
      rewrite Hblob, Hload. now destruct (verification_data event).
  - unfold lambda_handler, handle, loaded_detector.
    rewrite Hblob. now destruct (verification_data event).
Qed.

(** With a stored model that loads: nine records meet the scaler's refusal,
    no record meets the missing column. *)
Lemma scoring_handler_short_batch_witness :
  let s3 : gmap (string * string) IsolationForest :=
    <[("models", "anomaly_detector/model.joblib") := flat_forest]> ∅ in
  lambda_handler IsolationForest Ok short_event s3
  = {| statusCode := 500; body := Failed (NoSamples "StandardScaler") |}
  ∧ lambda_handler IsolationForest Ok empty_event s3
    = {| statusCode := 500; body := Failed (KeyError "is_accurate") |}.
Proof.
  intros s3. split.
  - destruct (scoring_handler_short_batch IsolationForest Ok short_event s3)
      as [_ Hloaded]; [simpl; lia|].
    apply (Hloaded flat_forest flat_forest);
      [apply lookup_insert_eq | reflexivity].
  - destruct (scoring_handler_short_batch IsolationForest Ok empty_event s3)
      as [_ Hloaded]; [simpl; lia|].
    apply (Hloaded flat_forest flat_forest);
      [apply lookup_insert_eq | reflexivity].
Defined.

End ScoringHandler.

(** ** More on the task router *)

Lemma string_le_total : Total string_le.
Proof.
  intros x y. unfold string_le.
  destruct (String.leb_total x y) as [H|H]; rewrite H; [left|right]; exact I.
Qed.

Section Encoders.
Import Router.

Lemma index_of_lookup (classes : list string) (v : string) (i : nat) :
  index_of classes v = Ok i → classes !! i = Some v.
Proof.
  unfold index_of.
  destruct (list_find _ classes) as [[j c]|] eqn:Hfind; [|discriminate].
  intros [= <-]. now apply list_find_Some in Hfind as (Hc & -> & _).
Qed.

Lemma transform_lookup (classes values : list string) (codes : list nat) :
  LabelEncoder_transform {| le_classes_ := classes |} values = Ok codes →
  Forall2 (λ v i, classes !! i = Some v) values codes.
Proof.
  unfold LabelEncoder_transform. cbn [le_classes_].
  revert codes. induction values as [|v values IH]; intros codes.
  - intros [= <-]. constructor.
  - cbn [mapM]. destruct (index_of classes v) as [i|e] eqn:Hi; [|discriminate].
    cbn [mbind result_bind].
    destruct (mapM (index_of classes) values) as [cs|e]; [|discriminate].
    intros [= <-]. constructor; [now apply index_of_lookup | now apply IH].
Qed.

(** X16: fitting a label encoder on a column never fails. Its classes are
    the values of the column, each once, in sorted order; the codes it
    returns are positions in the classes that decode back to the values of
    the column, so equal codes mean equal values. *)
Theorem label_encoder_round_trip (values : list string) :
  ∃ codes,
    LabelEncoder_fit_transform values
    = Ok ({| le_classes_ := unique values |}, codes)
    ∧ Forall2 (λ v i, unique values !! i = Some v) values codes
    ∧ NoDup (unique values)
    ∧ Sorted string_le (unique values)
    ∧ ∀ v, v ∈ unique values ↔ v ∈ values.
Proof.
  destruct (LabelEncoder_fit_transform_ok values) as [codes Hcodes].
  exists codes. split; [exact Hcodes|]. split.
  - unfold LabelEncoder_fit_transform in Hcodes.
    destruct (LabelEncoder_transform _ values) as [cs|e] eqn:Htr; [|discriminate].
    injection Hcodes as <-. now apply transform_lookup.
  - split; [apply NoDup_unique|]. split.
    + unfold unique. apply Sorted_merge_sort. apply string_le_total.
    + intros v. apply elem_of_unique.
Qed.

End Encoders.

Section Ranking.
Import Router.

Lemma comes_before_trans (xs : list R) (i j k : nat) :
  comes_before xs i j → comes_before xs j k → comes_before xs i k.
Proof. unfold comes_before. intros [?|[? ?]] [?|[? ?]]; [left; lra.. | right; split; [lra | lia]]. Qed.

Lemma argsort_insert_perm (xs : list R) (i : nat) (sorted : list nat) :
  argsort_insert xs i sorted ≡ₚ i :: sorted.
Proof.
  induction sorted as [|j rest IH]; [reflexivity|].
  cbn [argsort_insert]. destruct (bool_decide _); [|reflexivity].
  rewrite IH. apply Permutation_swap.
Qed.

Lemma argsort_insert_sorted (xs : list R) (i : nat) (sorted : list nat) :
  StronglySorted (comes_before xs) sorted →
  Forall (λ j, (i < j)%nat) sorted →
  StronglySorted (comes_before xs) (argsort_insert xs i sorted).
Proof.
  induction sorted as [|j rest IH]; intros Hsorted Hlt.
  - repeat constructor.
  - apply StronglySorted_cons in Hsorted as [Hj Hrest].
    apply Forall_cons in Hlt as [Hij Hlt].
    cbn [argsort_insert].
    destruct (bool_decide_reflect (nth j xs 0 < nth i xs 0)) as [Hji|Hji].
    + apply StronglySorted_cons. split; [|now apply IH].
      rewrite argsort_insert_perm. constructor; [now left | assumption].
    + assert (Hbefore : comes_before xs i j).
      { unfold comes_before.
        destruct (Rlt_dec (nth i xs 0) (nth j xs 0)); [now left|].
        right. split; [lra | assumption]. }
      apply StronglySorted_cons. split.
      * constructor; [assumption|].
        eapply Forall_impl; [exact Hj|].
        intros k Hk. eapply comes_before_trans; eassumption.
      * now apply StronglySorted_cons.
Qed.

Lemma argsort_fold_perm (xs : list R) (l : list nat) :
  foldr (argsort_insert xs) [] l ≡ₚ l.
Proof.
  induction l as [|i l IH]; [reflexivity|].
  cbn [foldr]. now rewrite argsort_insert_perm, IH.
Qed.

Lemma argsort_fold_sorted (xs : list R) (k m : nat) :
  StronglySorted (comes_before xs) (foldr (argsort_insert xs) [] (seq k m)).
Proof.
  revert k. induction m as [|m IH]; intros k; [constructor|].
  cbn [seq foldr]. apply argsort_insert_sorted; [apply IH|].
  rewrite argsort_fold_perm. apply Forall_forall.
  intros j Hj%elem_of_seq. lia.
Qed.

Lemma StronglySorted_weaken {A} (R1 R2 : relation A) (l : list A) :
  (∀ x y, R1 x y → R2 x y) → StronglySorted R1 l → StronglySorted R2 l.
Proof.
  intros HR. induction 1 as [|x l _ IH Hx]; constructor; [assumption|].
  eapply Forall_impl; [exact Hx|]. intros y. apply HR.
Qed.

(** Insertion sort keeps the promise of [np.argsort]. *)
Lemma insertion_argsort_sorts (xs : list R) : sorts xs (insertion_argsort xs).
Proof.
  split; [apply argsort_fold_perm|].
  apply (StronglySorted_weaken (comes_before xs)); [|apply argsort_fold_sorted].
  unfold comes_before. intros i j [?|[? _]]; lra.
Qed.

Lemma StronglySorted_lookup {A} (R : relation A) (l : list A) (a b : nat)
    (x y : A) :
  StronglySorted R l → (a < b)%nat →
  l !! a = Some x → l !! b = Some y → R x y.
Proof.
  intros Hsorted Hab Ha Hb. rewrite <- (take_drop b l) in Hsorted.
  apply (StronglySorted_app_1_elem_of R _ _ x y Hsorted).
  - apply elem_of_take. eauto.
  - apply (list_elem_of_lookup_2 _ 0). rewrite lookup_drop.
    now rewrite Nat.add_0_r.
Qed.

(** X17: whatever order [np.argsort] gives to equal values, as long as it
    returns the positions of the array in an order that sorts the values
    ascending, the ranking expression [np.argsort(p)[-3:][::-1]] returns
    min(3, n) distinct class positions, all valid. Along the list the
    probability never increases, and every position left out has a
    probability no larger than each position returned. *)
Theorem top_indices_ranking (np_argsort : list R → list nat) (p : list R) :
  sorts p (np_argsort p) →
  let top := top_indices np_argsort p in
  length top = min 3 (length p)
  ∧ NoDup top
  ∧ (∀ i, i ∈ top → (i < length p)%nat)
  ∧ (∀ a b i j, (a < b)%nat → top !! a = Some i → top !! b = Some j →
       nth j p 0 <= nth i p 0)
  ∧ (∀ k i, (k < length p)%nat → k ∉ top → i ∈ top → nth k p 0 <= nth i p 0).
Proof.
  intros [Hperm Hsorted] top. unfold top, top_indices.
  set (order := np_argsort p) in *.
  assert (Hlen : length order = length p).
  { now rewrite Hperm, length_seq. }
  assert (Hnodup : NoDup order).
  { rewrite Hperm. apply NoDup_seq. }
  set (d := (length order - 3)%nat).
  split; [|split; [|split; [|split]]].
  - rewrite length_reverse, length_drop. lia.
  - rewrite reverse_Permutation.
    exact (sublist_NoDup _ _ Hnodup (sublist_drop order d)).
  - intros i Hi. rewrite elem_of_reverse in Hi.
    assert (Hin : i ∈ order).
    { exact (elem_of_sublist _ _ _ Hi (sublist_drop order d)). }
    rewrite Hperm in Hin. apply elem_of_seq in Hin. lia.
  - intros a b i j Hab Ha Hb.
    apply reverse_lookup_Some in Ha as [Ha Hla].
    apply reverse_lookup_Some in Hb as [Hb Hlb].
    apply (StronglySorted_lookup (λ i j, nth i p 0 <= nth j p 0) (drop d order)
             (length (drop d order) - S b) (length (drop d order) - S a) j i);
      [|lia|assumption..].
    rewrite <- (take_drop d order) in Hsorted.
    now apply StronglySorted_app_1_r in Hsorted.
  - intros k i Hk Hout Hi. rewrite elem_of_reverse in Hi.
    assert (Hin : k ∈ order).
    { rewrite Hperm. apply elem_of_seq. lia. }
    rewrite <- (take_drop d order) in Hin, Hsorted.
    apply elem_of_app in Hin as [Hin|Hin].
    + exact (StronglySorted_app_1_elem_of _ _ _ k i Hsorted Hin Hi).
    + exfalso. apply Hout. now rewrite elem_of_reverse.
Qed.

(** Four classes with a tie between the first two, sorted as [2; 3; 1; 0]:
    the ranking is [0; 1; 3]. *)
Lemma top_indices_ranking_witness :
  let p := [0.4; 0.4; 0; 0.2] in
  let np_argsort := λ _ : list R, [2; 3; 1; 0]%nat in
  let top := top_indices np_argsort p in
  top = [0; 1; 3]%nat
  ∧ length top = min 3 (length p)
  ∧ NoDup top
  ∧ (∀ i, i ∈ top → (i < length p)%nat)
  ∧ (∀ a b i j, (a < b)%nat → top !! a = Some i → top !! b = Some j →
       nth j p 0 <= nth i p 0)
  ∧ (∀ k i, (k < length p)%nat → k ∉ top → i ∈ top → nth k p 0 <= nth i p 0).
Proof.
  intros p np_argsort top. split; [reflexivity|].
  apply (top_indices_ranking np_argsort p). split.
  - etransitivity; [apply (Permutation_app_comm [2; 3]%nat [1; 0]%nat)|].
    apply perm_swap.
  - unfold np_argsort, p.
    repeat (apply StronglySorted_cons; split; [repeat constructor; cbn; lra|]).
    constructor.
Defined.

End Ranking.

Section RouterTraining.
Import Router.

Lemma transform_length (classes values : list string) (codes : list nat) :
  LabelEncoder_transform {| le_classes_ := classes |} values = Ok codes →
  length codes = length values.
Proof. intros H%transform_lookup. symmetry. exact (Forall2_length _ _ _ H). Qed.

Lemma fit_transform_length (values : list string) (enc : LabelEncoder)
    (codes : list nat) :
  LabelEncoder_fit_transform values = Ok (enc, codes) →
  length codes = length values.
Proof.
  unfold LabelEncoder_fit_transform.
  destruct (LabelEncoder_transform _ values) as [cs|e] eqn:Htr; [|discriminate].
  intros [= _ <-]. now apply transform_length in Htr.
Qed.

Lemma feature_rows_shape (pairs : list (nat * nat)) (scaled : Matrix) :
  length pairs = length scaled →
  Forall (λ row, length row = 3%nat) scaled →
  let X := zip_with (λ codes num, INR (fst codes) :: INR (snd codes) :: num)
             pairs scaled in
  length X = length scaled ∧ Forall (λ row, length row = 5%nat) X.
Proof.
  revert scaled. induction pairs as [|c pairs IH]; intros scaled Hlen Hrows.
  - destruct scaled; [|discriminate]. split; [reflexivity | constructor].
  - destruct scaled as [|num scaled]; [discriminate|].
    injection Hlen as Hlen. apply Forall_cons in Hrows as [Hnum Hrows].
    destruct (IH scaled Hlen Hrows) as [HX Hall].
    cbn [zip_with length]. split; [now rewrite HX|].
    constructor; [cbn; now rewrite Hnum | exact Hall].
Qed.

Lemma scaled_numerical_rows (data : list TrainingRow) (s : Scaling) :
  scaling_of (numerical ∘ task <$> data) = Ok s →
  Forall (λ row, length row = 3%nat)
         (scale_row s <$> (numerical ∘ task <$> data)).
Proof.
  intros Hs. destruct data as [|d data]; [discriminate|].
  unfold scaling_of in Hs. cbn [fmap list_fmap compose numerical length seq] in Hs.
  injection Hs as <-.
  apply Forall_forall. intros row (x & -> & Hx)%list_elem_of_fmap.
  apply list_elem_of_fmap in Hx as (d' & -> & _). reflexivity.
Qed.

(** X18: what [train] does to the router. On a non-empty frame the two
    categorical encoders are replaced and the scaler is refitted before the
    forest is fitted on a matrix with one row of 5 features per record; if
    the fit raises, the router keeps the new encoders and scaler together
    with its old forest. On an empty frame the scaler raises, and the router
    is left with two encoders that know no class, an unfitted scaler and
    its old forest. *)
Theorem router_train_outcome (fit : Matrix → list string → result Classifier)
    (data : list TrainingRow) (r0 : TaskRouter) :
  let encoders :=
    <["verification_method" :=
        {| le_classes_ := unique (verification_method ∘ task <$> data) |}]>
      (<["content_type" :=
           {| le_classes_ := unique (content_type ∘ task <$> data) |}]>
         (label_encoders r0)) in
  ((0 < length data)%nat →
     ∃ s X,
       scaling_of (numerical ∘ task <$> data) = Ok s
       ∧ length X = length data
       ∧ Forall (λ row, length row = 5%nat) X
       ∧ train fit data r0
         = match fit X (best_worker <$> data) with
           | Ok m =>
               (Ok (), {| label_encoders := encoders; scaler := Some s;
                          model := Some m |})
           | Raise e =>
               (Raise e, {| label_encoders := encoders; scaler := Some s;
                            model := model r0 |})
           end)
  ∧ (data = [] →
       train fit data r0
       = (Raise (NoSamples "StandardScaler"),
          {| label_encoders := encoders; scaler := None; model := model r0 |})).
Proof.
  intros encoders.
  destruct (LabelEncoder_fit_transform_ok (content_type ∘ task <$> data))
    as [ct Hct].
  destruct (LabelEncoder_fit_transform_ok (verification_method ∘ task <$> data))
    as [vm Hvm].
  assert (Hrun : train fit data r0
    = match scaling_of (numerical ∘ task <$> data) with
      | Ok s =>
          match fit (zip_with (λ codes num,
                                 INR (fst codes) :: INR (snd codes) :: num)
                       (zip ct vm)
                       (scale_row s <$> (numerical ∘ task <$> data)))
                    (best_worker <$> data) with
          | Ok m =>
              (Ok (), {| label_encoders := encoders; scaler := Some s;
                         model := Some m |})
          | Raise e =>
              (Raise e, {| label_encoders := encoders; scaler := Some s;
                           model := model r0 |})
          end
      | Raise e =>
          (Raise e, {| label_encoders := encoders; scaler := None;
                       model := model r0 |})
      end).
  { cbv [train preprocess_data encode_column mbind Py_bind lift modify mret
         Py_ret zoom].
    rewrite Hct, Hvm, StandardScaler_fit_transform_spec.
    destruct (scaling_of _) as [s|e]; [|reflexivity].
    now destruct (fit _ _). }
  split.
  - intros Hlen.
    destruct (scaling_of_nonempty (numerical ∘ task <$> data)) as [s Hs];
      [now rewrite length_fmap|].
    rewrite Hs in Hrun.
    apply fit_transform_length in Hct, Hvm. rewrite length_fmap in Hct, Hvm.
    destruct (feature_rows_shape (zip ct vm)
                (scale_row s <$> (numerical ∘ task <$> data))) as [HX Hrows].
    { rewrite length_zip, !length_fmap. lia. }
    { now apply scaled_numerical_rows. }
    eexists s, _. split; [exact Hs|]. split; [|split; [exact Hrows | exact Hrun]].
    rewrite HX. now rewrite !length_fmap.
  - intros ->. exact Hrun.
Qed.

Lemma router_train_outcome_witness :
  let data := sample_training in
  let encoders :=
    <["verification_method" :=
        {| le_classes_ := unique (verification_method ∘ task <$> data) |}]>
      (<["content_type" :=
           {| le_classes_ := unique (content_type ∘ task <$> data) |}]>
         (label_encoders init)) in
  ((0 < length data)%nat →
     ∃ s X,
       scaling_of (numerical ∘ task <$> data) = Ok s
       ∧ length X = length data
       ∧ Forall (λ row, length row = 5%nat) X
       ∧ train even_fit data init
         = match even_fit X (best_worker <$> data) with
           | Ok m =>
               (Ok (), {| label_encoders := encoders; scaler := Some s;
                          model := Some m |})
           | Raise e =>
               (Raise e, {| label_encoders := encoders; scaler := Some s;
                            model := model init |})
           end)
  ∧ (data = [] →
       train even_fit data init
       = (Raise (NoSamples "StandardScaler"),
          {| label_encoders := encoders; scaler := None; model := model init |})).
Proof. intros data. apply (router_train_outcome even_fit data init). Defined.

End RouterTraining.

Section RouterPersistence.
Import Router.

(** X19: saving a router and loading it from the same place gives the
    router back (forest, encoders and scaler), provided joblib's load undoes
    its dump; saving never raises, overwrites only its own key and leaves
    every other object of the store as it was. *)
Theorem router_save_load_round_trip (Artifact : Type)
    (joblib_dump : Artifacts → Artifact)
    (joblib_load : Artifact → result Artifacts)
    (r : TaskRouter) (bucket key : string)
    (s3 : gmap (string * string) Artifact) :
  (∀ a, joblib_load (joblib_dump a) = Ok a) →
  let saved := save_model Artifact joblib_dump r bucket key s3 in
  fst saved = Ok ()
  ∧ load_model Artifact joblib_load bucket key (snd saved) = Ok r
  ∧ ∀ other, other ≠ (bucket, key) → snd saved !! other = s3 !! other.
Proof.
  intros Hround saved. split; [reflexivity|]. split.
  - unfold saved, save_model, load_model, modify. cbn [snd].
    rewrite lookup_insert_eq, Hround. cbn [mbind result_bind mret result_ret].
    now destruct r.
  - intros other Hother. unfold saved, save_model, modify. cbn [snd].
    now rewrite lookup_insert_ne.
Qed.

Lemma router_save_load_round_trip_witness :
  let r := snd (train even_fit sample_training init) in
  let saved := save_model Artifacts (λ a, a) r "models" "router.joblib" ∅ in
  fst saved = Ok ()
  ∧ load_model Artifacts Ok "models" "router.joblib" (snd saved) = Ok r
  ∧ ∀ other, other ≠ ("models", "router.joblib") →
             snd saved !! other = (∅ : gmap (string * string) Artifacts) !! other.
Proof.
  intros r.
  apply (router_save_load_round_trip Artifacts (λ a, a) Ok r
           "models" "router.joblib" ∅).
  reflexivity.
Defined.

(** After a successful training that started from a router without an
    encoder for the target, every prediction raises: the unseen-label error
    when a categorical value is new, the missing-encoder KeyError
    otherwise. *)
Lemma predict_worker_after_train
    (np_argsort : list R → list nat)
    (fit : Matrix → list string → result Classifier)
    (data : list TrainingRow) (r0 r : TaskRouter) (task_features : TaskFeatures) :
  label_encoders r0 !! target_column = None →
  train fit data r0 = (Ok (), r) →
  ∃ e, predict_worker np_argsort r task_features = Raise e
       ∧ (e = KeyError "best_worker" ∨ is_EncodingError e = true).
Proof.
  intros Hnone Htrain.
  destruct (train_ok_inv fit data r0 r Htrain) as (_ & [s Hs] & [m Hm]).
  destruct (train_ok_lookup fit data r0 r Htrain) as (Hect & Hevm & Hetarget).
  unfold predict_worker, dict_getitem. rewrite Hect, Hevm, Hetarget, Hs, Hm.
  cbn [mbind result_bind].
  destruct (decide (content_type task_features
                    ∈ unique (content_type ∘ task <$> data))) as [Hct|Hct];
    cycle 1.
  { rewrite (transform_one_unseen _ (content_type task_features)) by exact Hct.
    eauto. }
  destruct (transform_one_seen
              {| le_classes_ := unique (content_type ∘ task <$> data) |}
              (content_type task_features) Hct) as [i Hi].
  rewrite Hi. cbn [mbind result_bind].
  destruct (decide (verification_method task_features
                    ∈ unique (verification_method ∘ task <$> data)))
    as [Hvm|Hvm]; cycle 1.
  { rewrite transform_one_unseen by exact Hvm. eauto. }
  destruct (transform_one_seen
              {| le_classes_ := unique (verification_method ∘ task <$> data) |}
              (verification_method task_features) Hvm) as [j Hj].
  rewrite Hj. cbn [mbind result_bind].
  rewrite transform_fitted. cbn [mbind result_bind].
  rewrite Hnone. eauto.
Qed.

(** X20: the routing handler never answers with success for a router that
    was trained from a fresh [TaskRouter()] and saved: whatever the task,
    it returns status 500, with the KeyError for the missing ['best_worker']
    encoder or the encoder's unseen-label error. It also returns 500, with
    the store's error, when no artifact is stored under the requested key. *)
Theorem routing_handler_always_fails (Artifact : Type)
    (joblib_dump : Artifacts → Artifact)
    (joblib_load : Artifact → result Artifacts)
    (np_argsort : list R → list nat)
    (fit : Matrix → list string → result Classifier)
    (data : list TrainingRow) (r : TaskRouter) (event : Event)
    (s3 : gmap (string * string) Artifact) :
  (∀ a, joblib_load (joblib_dump a) = Ok a) →
  train fit data init = (Ok (), r) →
  (∃ e, lambda_handler Artifact joblib_load np_argsort event
          (snd (save_model Artifact joblib_dump r
                  (model_bucket event) (model_key event) s3))
        = {| statusCode := 500; body := Failed e |}
        ∧ (e = KeyError "best_worker" ∨ is_EncodingError e = true))
  ∧ (s3 !! (model_bucket event, model_key event) = None →
     lambda_handler Artifact joblib_load np_argsort event s3
     = {| statusCode := 500;
          body := Failed (ClientError (model_bucket event) (model_key event)) |}).
Proof.
  intros Hround Htrain. split.
  - destruct (predict_worker_after_train np_argsort fit data init r
                (task_features event))
      as (e & He & Hkind); [reflexivity | assumption |].
    exists e. split; [|exact Hkind].
    unfold lambda_handler, save_model, load_model, modify. cbn [snd].
    rewrite lookup_insert_eq, Hround.
    cbn [mbind result_bind mret result_ret art_model art_label_encoders
         art_scaler].
    replace {| label_encoders := label_encoders r; scaler := scaler r;
               model := model r |} with r by now destruct r.
    now rewrite He.
  - intros Hmissing. unfold lambda_handler, load_model. now rewrite Hmissing.
Qed.

Lemma routing_handler_always_fails_witness :
  let r := snd (train even_fit sample_training init) in
  let event := {| model_bucket := "models"; model_key := "router.joblib";
                  task_features := text_task |} in
  let s3 : gmap (string * string) Artifacts := ∅ in
  (∃ e, lambda_handler Artifacts Ok insertion_argsort event
          (snd (save_model Artifacts (λ a, a) r
                  (model_bucket event) (model_key event) s3))
        = {| statusCode := 500; body := Failed e |}
        ∧ (e = KeyError "best_worker" ∨ is_EncodingError e = true))
  ∧ (s3 !! (model_bucket event, model_key event) = None →
     lambda_handler Artifacts Ok insertion_argsort event s3
     = {| statusCode := 500;
          body := Failed (ClientError (model_bucket event) (model_key event)) |}).
Proof.
  intros r event s3.
  apply (routing_handler_always_fails Artifacts (λ a, a) Ok insertion_argsort
           even_fit sample_training r event s3); reflexivity.
Defined.

End RouterPersistence.

Section ThresholdOrder.
Import Threshold.

Lemma content_type_rows_keys (md : list MetricRecord) (keys : list string) :
  omap anomaly_contentType (mjoin (content_type_row ∘ stats_row md <$> keys))
  `sublist_of` keys.
Proof.
  induction keys as [|key keys IH]; [constructor|].
  change (mjoin (content_type_row ∘ stats_row md <$> key :: keys))
    with (content_type_row (stats_row md key)
          ++ mjoin (content_type_row ∘ stats_row md <$> keys)).
  rewrite omap_app. unfold content_type_row at 1, stats_row at 1.
  destruct (_ && _); cbn [omap list_omap anomaly_contentType app].
  - now apply sublist_skip.
  - now apply sublist_cons.
Qed.

(** X21: the anomalies of a run come in a fixed order: first the global
    ones (response time before accuracy), then the content-type ones, whose
    content types follow the sorted order of the distinct content types of
    the batch, none repeated. *)
Theorem anomaly_order (md : list MetricRecord) (sensitivity : string) :
  (0 < length md)%nat →
  ∃ globals per_type,
    _detect_anomalies md sensitivity = Ok (globals ++ per_type)
    ∧ anomaly_type <$> globals `sublist_of` [HIGH_RESPONSE_TIME; LOW_ACCURACY]
    ∧ Forall (λ a, anomaly_type a = CONTENT_TYPE_LOW_ACCURACY) per_type
    ∧ omap anomaly_contentType per_type
      `sublist_of` unique (content_type <$> md)
    ∧ length (omap anomaly_contentType per_type) = length per_type
    ∧ Sorted string_le (unique (content_type <$> md))
    ∧ NoDup (unique (content_type <$> md)).
Proof.
  intros Hlen.
  destruct (detect_anomalies_parts md sensitivity Hlen)
    as (mu & upper & flagged & _ & Hdet).
  eexists (_ ++ _), _. split; [rewrite <- app_assoc; exact Hdet|].
  split; [|split; [|split; [|split; [|split]]]].
  - rewrite fmap_app. cbv zeta.
    destruct (rows flagged); destruct (fltb _ (Fin 0.75)); cbn;
      repeat (apply sublist_skip || apply sublist_cons || constructor).
  - apply Forall_forall. intros a Ha. rewrite list_fmap_compose in Ha.
    now apply content_type_rows_type in Ha.
  - apply content_type_rows_keys.
  - generalize (unique (content_type <$> md)). intros keys.
    induction keys as [|key keys IH]; [reflexivity|].
    change (mjoin (content_type_row ∘ stats_row md <$> key :: keys))
      with (content_type_row (stats_row md key)
            ++ mjoin (content_type_row ∘ stats_row md <$> keys)).
    rewrite omap_app, !length_app, IH. f_equal.
    unfold content_type_row, stats_row. now destruct (_ && _).
  - unfold unique. apply Sorted_merge_sort, string_le_total.
  - apply NoDup_unique.
Qed.

Lemma anomaly_order_witness :
  let md := [sample "text" false; sample "image" true] in
  ∃ globals per_type,
    _detect_anomalies md "medium" = Ok (globals ++ per_type)
    ∧ anomaly_type <$> globals `sublist_of` [HIGH_RESPONSE_TIME; LOW_ACCURACY]
    ∧ Forall (λ a, anomaly_type a = CONTENT_TYPE_LOW_ACCURACY) per_type
    ∧ omap anomaly_contentType per_type
      `sublist_of` unique (content_type <$> md)
    ∧ length (omap anomaly_contentType per_type) = length per_type
    ∧ Sorted string_le (unique (content_type <$> md))
    ∧ NoDup (unique (content_type <$> md)).
Proof. intros md. apply (anomaly_order md "medium"). simpl. lia. Defined.

End ThresholdOrder.

Section UnitVariance.
Import ModelDetector.

Lemma sum_squares_nonneg (m : R) (xs : list R) :
  0 <= sum ((λ x, (x - m) * (x - m)) <$> xs).
Proof.
  induction xs as [|x xs IH]; [cbn; lra|].
  rewrite fmap_cons. change (sum (?y :: ?l)) with (y + sum l).
  pose proof (Rle_0_sqr (x - m)) as Hx. unfold Rsqr in Hx. cbn beta. lra.
Qed.

Lemma sum_squares_zero (m : R) (xs : list R) :
  sum ((λ x, (x - m) * (x - m)) <$> xs) = 0 → ∀ x, x ∈ xs → x = m.
Proof.
  induction xs as [|y xs IH]; intros Hsum x Hx; [now apply elem_of_nil in Hx|].
  rewrite fmap_cons in Hsum. change (sum (?y :: ?l)) with (y + sum l) in Hsum.
  cbn beta in Hsum.
  pose proof (sum_squares_nonneg m xs) as Hrest.
  pose proof (Rle_0_sqr (y - m)) as Hy. unfold Rsqr in Hy.
  apply elem_of_cons in Hx as [->|Hx].
  - assert (Hzero : (y - m) * (y - m) = 0) by lra.
    apply Rmult_integral in Hzero. lra.
  - apply IH; [lra | assumption].
Qed.

Lemma sum_scaled_squares (m sc : R) (xs : list R) :
  sc ≠ 0 →
  sum ((λ y, y * y) <$> ((λ x, (x - m) / sc) <$> xs))
  = sum ((λ x, (x - m) * (x - m)) <$> xs) / (sc * sc).
Proof.
  intros Hsc. induction xs as [|x xs IH].
  - cbn. unfold Rdiv. ring.
  - rewrite !fmap_cons. change (sum (?y :: ?l)) with (y + sum l).
    rewrite IH. change (sum (?y :: ?l)) with (y + sum l). now field.
Qed.

Lemma scale_of_feature_column (clean : list (Row * R)) (s : Scaling) (j : nat) :
  scaling_of (features clean) = Ok s → (j < 4)%nat →
  let col := column j (features clean) in
  nth j (scale_ s) 0
  = handle_zeros_in_scale (sqrt (pvar col))
      (is_constant_feature (pvar col) (rmean col) (length col)).
Proof.
  intros Hs Hj. destruct clean as [|p clean]; [discriminate|].
  unfold scaling_of in Hs. cbn [features fmap list_fmap length seq] in Hs.
  injection Hs as <-.
  destruct j as [|[|[|[|j]]]]; [reflexivity.. | lia].
Qed.

Lemma float_eps_bounds : / 10 ^ 16 < float_eps < / 10 ^ 6.
Proof.
  unfold float_eps.
  assert (H1 : 10 ^ 6 < 2 ^ 52) by lra.
  assert (H2 : 2 ^ 52 < 10 ^ 16) by lra.
  split; apply Rinv_lt_contravar; try assumption;
    apply Rmult_lt_0_compat; lra.
Qed.

(** A column of two values around 10^16 that differ by 2 has variance 1,
    and is under the scaler's constant mask all the same. *)
Example large_values_scaled_by_one :
  rmean [10 ^ 16; 10 ^ 16 + 2] = 10 ^ 16 + 1
  ∧ pvar [10 ^ 16; 10 ^ 16 + 2] = 1
  ∧ is_constant_feature 1 (10 ^ 16 + 1) 2 = true.
Proof.
  assert (Hmean : rmean [10 ^ 16; 10 ^ 16 + 2] = 10 ^ 16 + 1).
  { unfold rmean, sum. cbn [foldr length INR]. lra. }
  split; [exact Hmean|]. split.
  - unfold pvar. rewrite Hmean. unfold sum. cbn [fmap list_fmap foldr length INR].
    lra.
  - unfold is_constant_feature. apply bool_decide_eq_true_2.
    pose proof float_eps_bounds as [Hlo Hhi]. cbn [INR].
    assert (Hprod : 1 < 10 ^ 16 * float_eps).
    { apply (Rmult_lt_compat_l (10 ^ 16)) in Hlo; [|lra].
      rewrite Rinv_r in Hlo by lra. exact Hlo. }
    assert (0 < float_eps) by lra.
    nra.
Qed.

(** X22: on a frame of n >= 10 records, preprocessing returns n - 9 rows,
    and each of the four standardized feature columns has unit variance,
    its squares summing to the number of rows, unless the scaler takes the
    column for constant. That is the case when the variance of the column
    over the scored rows is within the rounding bound
    n * eps * var + (n * mean * eps)^2 of sklearn, in particular when it is
    zero; the column is then only centered, not rescaled, and every value
    is 0 when the variance is zero. *)
Theorem standardized_columns_unit_variance (o : Objects) (j : nat) :
  (10 ≤ length (rows (frame o)))%nat → (j < 4)%nat →
  let clean := dropna (rows (frame o))
                 (rolling_mean 10 (of_bool ∘ is_accurate <$> rows (frame o))) in
  let col := column j (features clean) in
  let constant := is_constant_feature (pvar col) (rmean col) (length col) in
  ∃ X' o',
    preprocess_data o = (Ok X', o') ∧
    length X' = (length (rows (frame o)) - 9)%nat ∧
    (constant = false →
       sum ((λ y, y * y) <$> column j X') = INR (length X')) ∧
    (constant = true →
       column j X' = (λ x, (x - rmean col) / 1) <$> col) ∧
    (pvar col = 0 → constant = true ∧ ∀ y, y ∈ column j X' → y = 0).
Proof.
  intros Hn Hj clean col constant.
  destruct (scaling_of_window (rows (frame o)) Hn) as [s Hs]. fold clean in Hs.
  pose proof (preprocess_data_spec o) as Hpre. cbv zeta in Hpre.
  fold clean in Hpre. rewrite Hs in Hpre.
  eexists _, _. split; [exact Hpre|].
  split; [unfold clean; now rewrite length_fmap, features_rolling_length|].
  pose proof (scale_of_feature_column clean s j Hs Hj) as Hscale.
  cbv zeta in Hscale. fold col in Hscale. fold constant in Hscale.
  rewrite (scaled_feature_column clean s j Hs Hj), Hscale. fold col.
  assert (Hlen : length col = (length (rows (frame o)) - 9)%nat).
  { unfold col, column, clean. rewrite length_fmap.
    apply features_rolling_length. }
  assert (HlenX : length (scale_row s <$> features clean) = length col).
  { unfold col, column. now rewrite !length_fmap. }
  assert (Hpos : 0 < INR (length col)) by (apply lt_0_INR; lia).
  assert (Hvar : pvar col * INR (length col)
                 = sum ((λ x, (x - rmean col) * (x - rmean col)) <$> col)).
  { unfold pvar. field. lra. }
  pose proof (sum_squares_nonneg (rmean col) col) as Hsq.
  assert (Hzero : pvar col = 0 → constant = true).
  { intros H0. unfold constant. rewrite H0. apply is_constant_feature_zero. }
  split; [|split].
  - intros Hconstant. rewrite Hconstant. cbn [handle_zeros_in_scale].
    assert (Hv : 0 < pvar col).
    { destruct (Rle_lt_or_eq_dec 0 (pvar col)) as [?|Heq]; [|assumption|].
      - unfold pvar. apply Rmult_le_pos; [assumption|].
        left. now apply Rinv_0_lt_compat.
      - rewrite Hzero in Hconstant by congruence. discriminate. }
    assert (Hsqrt : sqrt (pvar col) * sqrt (pvar col) = pvar col)
      by (apply sqrt_sqrt; lra).
    assert (Hs0 : sqrt (pvar col) ≠ 0).
    { intros H0. rewrite H0 in Hsqrt. lra. }
    rewrite sum_scaled_squares by assumption.
    rewrite Hsqrt, <- Hvar, HlenX. field. lra.
  - intros Hconstant. now rewrite Hconstant.
  - intros H0. split; [now apply Hzero|].
    intros y (x & -> & Hx)%list_elem_of_fmap.
    rewrite (Hzero H0). cbn [handle_zeros_in_scale].
    rewrite (sum_squares_zero (rmean col) col) with (x := x);
      [unfold Rdiv; ring | | assumption].
    rewrite <- Hvar, H0. ring.
Qed.

(** Eleven records whose last two response times are 100 and 300: the two
    scored rows give a response-time column that is not constant, and its
    standardized values have squares summing to 2. *)
Lemma standardized_columns_unit_variance_witness :
  let o := {| self := init 0.1;
              frame := pd_DataFrame (replicate 10 (sample 100) ++ [sample 300]) |} in
  ∃ X' o',
    preprocess_data o = (Ok X', o') ∧
    length X' = 2%nat ∧
    sum ((λ y, y * y) <$> column 0 X') = 2.
Proof.
  intros o.
  destruct (standardized_columns_unit_variance o 0)
    as (X' & o' & Hpre & Hlen & Hunit & _); [simpl; lia | lia |].
  exists X', o'. split; [exact Hpre|]. split; [exact Hlen|].
  rewrite Hunit, Hlen; [cbn; lra|].
  set (col := column 0 _).
  assert (Hcol : col = [100; 300]) by (vm_compute; repeat f_equal; lra).
  rewrite Hcol.
  assert (Hmean : rmean [100; 300] = 200).
  { unfold rmean, sum. cbn [foldr length INR]. lra. }
  assert (Hpvar : pvar [100; 300] = 10000).
  { unfold pvar. rewrite Hmean. unfold sum.
    cbn [fmap list_fmap foldr length INR]. lra. }
  rewrite Hmean, Hpvar. unfold is_constant_feature.
  apply bool_decide_eq_false_2. cbn [length INR].
  pose proof float_eps_bounds as [Hlo Hhi].
  assert (0 < / 10 ^ 16) by (apply Rinv_0_lt_compat; lra).
  assert (/ 10 ^ 6 < 1) by lra.
  assert (float_eps * float_eps < float_eps) by nra.
  nra.
Defined.

End UnitVariance.
